(** * movie-tracker-backend: a shallow embedding of [server.js]

    The server is a set of Express handlers over a PostgreSQL pool, the
    [bcryptjs] and [jsonwebtoken] libraries and the TMDB catalog.  The
    handlers are embedded as functions over an explicit database state;
    the [try]/[catch] blocks are written in a small state-and-exception
    monad.  Library functions whose code is not part of the repository
    are fields of the class [Libraries].

    Modelling conventions:
    - JavaScript numbers are integers ([Z]); a string is the UTF-8 text
      of the JavaScript string, and [characters] counts its characters.
    - The store answers every query: only constraint violations and
      rejected parameter values make a query throw.
    - Timestamps are seconds; a [created_at] column is shown as a number. *)

From Stdlib Require Import Ascii.
From stdpp Require Import gmap strings list fin_maps sorting pretty.

#[local] Set Warnings "-register-all".
#[local] Open Scope Z_scope.

(** ** JavaScript values *)

Inductive value : Type :=
  | VUndefined
  | VNull
  | VBool (b : bool)
  | VNum (n : Z)
  | VStr (s : string)
  | VArr (l : list value)
  | VObj (o : gmap string value).

(** A JavaScript object as the handlers use it: a finite map of properties. *)
Abbreviation object := (gmap string value).

(** [!!v]: the values that are not falsy. *)
Definition truthy (v : value) : bool :=
  match v with
  | VUndefined | VNull => false
  | VBool b => b
  | VNum n => negb (n =? 0)
  | VStr s => negb (bool_decide (s = ""))
  | VArr _ | VObj _ => true
  end.

(** [a || b] *)
Definition js_or (a b : value) : value := if truthy a then a else b.

(** [a === b] on two values that were parsed separately: arrays and objects
    are compared by reference, so two of them are never equal. *)
Definition strict_eq (a b : value) : bool :=
  match a, b with
  | VUndefined, VUndefined => true
  | VNull, VNull => true
  | VBool x, VBool y => bool_decide (x = y)
  | VNum x, VNum y => bool_decide (x = y)
  | VStr x, VStr y => bool_decide (x = y)
  | _, _ => false
  end.

(** [o.k] on an object: [undefined] when the property is missing. *)
Definition field (o : object) (k : string) : value := default VUndefined (o !! k).

(** Outcome of an expression that may throw. *)
Inductive outcome (A : Type) : Type :=
  | Return (a : A)
  | Throw.
Arguments Return {A} a.
Arguments Throw {A}.

(** [v.k] on any value: a [TypeError] on [null] and [undefined],
    [undefined] on the other primitives and on arrays. *)
Definition get (v : value) (k : string) : outcome value :=
  match v with
  | VObj o => Return (field o k)
  | VUndefined | VNull => Throw
  | _ => Return VUndefined
  end.

(** What [res.json] puts on the wire ([JSON.stringify]): a property whose
    value is [undefined] is dropped, an [undefined] array element becomes
    [null]. *)
Fixpoint to_json (v : value) : value :=
  match v with
  | VArr l =>
      VArr (map (λ x, match to_json x with VUndefined => VNull | y => y end) l)
  | VObj o =>
      VObj (omap (λ x, match to_json x with VUndefined => None | y => Some y end) o)
  | _ => v
  end.

(** ** Strings *)

(** [s.startsWith(p)] *)
Fixpoint startsWith (p s : string) : bool :=
  match p, s with
  | EmptyString, _ => true
  | String a p', String b s' => bool_decide (a = b) && startsWith p' s'
  | String _ _, EmptyString => false
  end.

(** [s.split(sep)] for a separator of one character. *)
Fixpoint split (sep : Ascii.ascii) (s : string) : list string :=
  match s with
  | EmptyString => [EmptyString]
  | String c r =>
      if bool_decide (c = sep) then EmptyString :: split sep r
      else match split sep r with
           | h :: t => String c h :: t
           | [] => [String c EmptyString]
           end
  end.

(** A byte [10xxxxxx] continues a character of a UTF-8 text. *)
Definition continues (c : Ascii.ascii) : bool :=
  match c with
  | Ascii.Ascii _ _ _ _ _ _ false true => true
  | _ => false
  end.

(** The number of characters of a text: what validator.js counts
    ([str.length] minus the surrogate pairs) and what [VARCHAR(n)] bounds. *)
Fixpoint characters (s : string) : nat :=
  match s with
  | EmptyString => 0%nat
  | String c r => ((if continues c then 0 else 1) + characters r)%nat
  end.

(** The character [c] does not occur in [s]. *)
Fixpoint no_char (c : Ascii.ascii) (s : string) : Prop :=
  match s with
  | EmptyString => True
  | String a r => a ≠ c ∧ no_char c r
  end.

(** ** The HTTP response *)

Record response := Response { status : Z; body : value }.

(** [res.status(st).json(v)] *)
Definition json (st : Z) (v : value) : response := Response st (to_json v).

(** [{ message: msg }] *)
Definition message (msg : string) : value := VObj {[ "message" := VStr msg ]}.

(** ** The state-and-exception monad of the [try] blocks *)

Definition M (S A : Type) : Type := S → S * outcome A.

Definition ret {S A} (a : A) : M S A := λ s, (s, Return a).

Definition throw {S A} : M S A := λ s, (s, Throw).

Definition bind {S A B} (m : M S A) (k : A → M S B) : M S B :=
  λ s, match m s with
       | (s', Return a) => k a s'
       | (s', Throw) => (s', Throw)
       end.

Definition lift {S A} (o : outcome A) : M S A := λ s, (s, o).

Definition gets {S A} (f : S → A) : M S A := λ s, (s, Return (f s)).

(** [try { m } catch (err) { return h }] *)
Definition try_catch {S A} (m : M S A) (h : A) : S → S * A :=
  λ s, match m s with
       | (s', Return a) => (s', a)
       | (s', Throw) => (s', h)
       end.

Notation "x <- m ;; k" := (bind m (λ x, k))
  (at level 100, m at next level, right associativity, only parsing).

(** Sequencing of expressions that may throw, outside a [try] block's state. *)
Definition and_then {A B} (o : outcome A) (k : A → outcome B) : outcome B :=
  match o with
  | Return a => k a
  | Throw => Throw
  end.

Notation "'let?' x := o 'in' k" := (and_then o (λ x, k))
  (at level 100, x name, o at next level, k at level 100, only parsing).

(** [l.map(f)] with a callback that may throw. *)
Fixpoint map_outcome {A B} (f : A → outcome B) (l : list A) : outcome (list B) :=
  match l with
  | [] => Return []
  | x :: l' =>
      let? y := f x in
      let? ys := map_outcome f l' in
      Return (y :: ys)
  end.

(** [try { return o } catch (e) { return h }] *)
Definition or_else {A} (o : outcome A) (h : A) : A :=
  match o with
  | Return a => a
  | Throw => h
  end.

(** ** Libraries *)

(** The payload of a token: [{ userId, iat, exp }]. *)
Record jwt_claims := Claims { userId : value; iat : Z; exp : option Z }.

(** The library functions the server calls and whose code is not in the
    repository. *)
Class Libraries := {
  (** JavaScript: [String(v)], consulted on values that are not strings *)
  js_String : value → string;
  encodeURIComponent : string → string;
  (** validator.js *)
  isEmail : string → bool;
  (** bcryptjs: password, rounds and the salt drawn for this call *)
  bcrypt_hash : string → Z → string → string;
  bcrypt_compare : string → string → bool;
  (** jsonwebtoken: the compact serialization of a payload with its
      signature, its parser, and the HMAC of a payload under a secret *)
  jwt_encode : jwt_claims → string → string;
  jwt_decode : string → option (jwt_claims * string);
  hs256 : string → jwt_claims → string;
  (** node-postgres: the text sent for a parameter that is neither a
      string nor null; PostgreSQL: the input function of [integer] *)
  pg_prepareValue : value → string;
  int4in : string → option Z;
}.

(** What the libraries owe the server for a token to come back from a
    header: the parser inverts the serialization of the payloads the server
    signs, and a serialized token is not empty and has no space in it. *)
Record jwt_contract `{Libraries} : Prop := {
  jwt_decode_encode : ∀ (n i : Z) (e : option Z) (sig : string),
    jwt_decode (jwt_encode (Claims (VNum n) i e) sig)
    = Some (Claims (VNum n) i e, sig);
  jwt_encode_nonempty : ∀ (c : jwt_claims) (sig : string), jwt_encode c sig ≠ "";
  jwt_encode_no_space : ∀ (c : jwt_claims) (secret : string),
    no_char " "%char (jwt_encode c (hs256 secret c));
}.

(** ** Configuration (lines 16-18) *)

(** [process.env.k || d] *)
Definition env_or (env : gmap string string) (k d : string) : string :=
  match env !! k with
  | Some s => if bool_decide (s = "") then d else s
  | None => d
  end.

Record config := Config { PORT : string; JWT_SECRET : string; TMDB_API_KEY : string }.

(** The constants the module computes when it is loaded; loading never
    fails and [app.listen] follows unconditionally. *)
Definition load_config (env : gmap string string) : config :=
  {| PORT := env_or env "PORT" "4000";
     JWT_SECRET := env_or env "JWT_SECRET" "change_this_secret";
     TMDB_API_KEY := env_or env "API_KEY" "ERROR" |}.

(** ** The store *)

(** A row of [users] (the [CREATE TABLE] of the README). *)
Record user_row := UserRow {
  u_id : Z;
  u_username : string;
  u_email : string;
  u_password_hash : string;
  u_display_name : option string;
  u_created_at : Z;
}.

(** Modelled from the spec: the table of saved-movie associations, whose
    [CREATE TABLE] is not in the repository.  Columns as in section 6 of
    the spec (id, user_id, movie_id, title, year, poster, created_at); the
    two ids are integers and not null, the other columns are nullable
    text, and no uniqueness constraint is declared. *)
Record saved_row := SavedRow {
  sm_id : Z;
  sm_user_id : Z;
  sm_movie_id : Z;
  sm_title : option string;
  sm_year : option string;
  sm_poster : option string;
  sm_created_at : Z;
}.

Record database := Database {
  users : list user_row;
  users_id_seq : Z;
  saved_movies : list saved_row;
  saved_movies_id_seq : Z;
}.

#[global] Instance user_row_eq_dec : EqDecision user_row.
Proof. solve_decision. Defined.

#[global] Instance saved_row_eq_dec : EqDecision saved_row.
Proof. solve_decision. Defined.

(** A parameter as the database receives it: [NULL], a value of the type
    of the column it is compared with or stored in, or a text that type
    rejects. *)
Inductive bound (A : Type) : Type :=
  | Null
  | Bound (a : A)
  | Rejected.
Arguments Null {A}.
Arguments Bound {A} a.
Arguments Rejected {A}.

(** A nullable text column read back. *)
Definition text_value (t : option string) : value :=
  match t with
  | Some s => VStr s
  | None => VNull
  end.

Section Server.
Context `{Libraries}.

(** ** Conversions done by the libraries *)

(** [`${v}`] and [String(v)] *)
Definition template (v : value) : string :=
  match v with
  | VStr s => s
  | _ => js_String v
  end.

(** express-validator, [toString(value, false)]: a string as it is,
    [null] and [undefined] as the empty string. *)
Definition shallow_toString (v : value) : string :=
  match v with
  | VStr s => s
  | VUndefined | VNull => ""
  | _ => js_String v
  end.

(** express-validator, [toString(value)]: the string a validator is run
    on; of an array that is not empty, its first element. *)
Definition validator_toString (v : value) : string :=
  match v with
  | VArr (x :: _) => shallow_toString x
  | _ => shallow_toString v
  end.

(** node-postgres: a parameter compared with, or stored in, a text column;
    [None] is SQL [NULL]. *)
Definition bind_text (v : value) : option string :=
  match v with
  | VUndefined | VNull => None
  | VStr s => Some s
  | _ => Some (pg_prepareValue v)
  end.

(** A parameter compared with, or stored in, an integer column.  A number
    is bound as it is: the ids come from the sequences of the store, and
    the model gives the integer columns no width. *)
Definition bind_int (v : value) : bound Z :=
  match v with
  | VUndefined | VNull => Null
  | VNum n => Bound n
  | VStr s => from_option Bound Rejected (int4in s)
  | _ => from_option Bound Rejected (int4in (pg_prepareValue v))
  end.

(** ** Queries on [users] *)

Definition id_object (id : Z) : object := {[ "id" := VNum id ]}.

(** The columns [id, username, email, display_name, created_at] of a row. *)
Definition public_columns (r : user_row) : object :=
  {[ "id" := VNum (u_id r);
     "username" := VStr (u_username r);
     "email" := VStr (u_email r);
     "display_name" := text_value (u_display_name r);
     "created_at" := VNum (u_created_at r) ]}.

(** The columns [id, username, email, password_hash, display_name,
    created_at] of a row. *)
Definition login_columns (r : user_row) : object :=
  <[ "password_hash" := VStr (u_password_hash r) ]> (public_columns r).

(** [SELECT id FROM users WHERE username = $1] *)
Definition select_id_by_username (username : value) : M database (list object) :=
  gets (λ db,
    match bind_text username with
    | Some u => (id_object ∘ u_id) <$> filter (λ r, u_username r = u) (users db)
    | None => []
    end).

(** [SELECT id FROM users WHERE email = $1] *)
Definition select_id_by_email (email : value) : M database (list object) :=
  gets (λ db,
    match bind_text email with
    | Some e => (id_object ∘ u_id) <$> filter (λ r, u_email r = e) (users db)
    | None => []
    end).

(** [SELECT id, username, email, password_hash, display_name, created_at
    FROM users WHERE username = $1] *)
Definition select_login_by_username (username : value) : M database (list object) :=
  gets (λ db,
    match bind_text username with
    | Some u => login_columns <$> filter (λ r, u_username r = u) (users db)
    | None => []
    end).

(** [SELECT id, username, email, display_name, created_at FROM users
    WHERE id = $1] *)
Definition select_user_by_id (id : value) : M database (list object) :=
  λ db,
    match bind_int id with
    | Bound n => (db, Return (public_columns <$> filter (λ r, u_id r = n) (users db)))
    | Null => (db, Return [])
    | Rejected => (db, Throw)
    end.

(** The constraints of [users]: the lengths of the [VARCHAR] columns, the
    primary key and the two [UNIQUE] columns.  A text longer than its
    column is refused here; PostgreSQL cuts it instead when all that
    exceeds the column is spaces, a case the model leaves out. *)
Definition users_accepts (db : database) (r : user_row) : Prop :=
  (characters (u_username r) ≤ 50)%nat
  ∧ (characters (u_email r) ≤ 255)%nat
  ∧ (characters (u_password_hash r) ≤ 255)%nat
  ∧ (characters (default "" (u_display_name r)) ≤ 100)%nat
  ∧ Forall (λ r', u_id r' ≠ u_id r
                  ∧ u_username r' ≠ u_username r
                  ∧ u_email r' ≠ u_email r) (users db).

#[global] Instance users_accepts_dec db r : Decision (users_accepts db r).
Proof. unfold users_accepts. apply _. Defined.

(** [INSERT INTO users (username, email, password_hash, display_name)
    VALUES ($1,$2,$3,$4) RETURNING id, username, email, display_name,
    created_at]; a statement that fails leaves the tables as they were. *)
Definition insert_user (now : Z) (username email password_hash display_name : option string)
  : M database (list object) :=
  λ db,
    match username, email, password_hash with
    | Some u, Some e, Some h =>
        let r := UserRow (users_id_seq db) u e h display_name now in
        if decide (users_accepts db r) then
          (Database (users db ++ [r]) (users_id_seq db + 1)
                    (saved_movies db) (saved_movies_id_seq db),
           Return [public_columns r])
        else (db, Throw)
    | _, _, _ => (db, Throw)
    end.

(** ** Queries on [saved_movies] *)

(** [SELECT *] / [RETURNING *] of a row. *)
Definition saved_columns (r : saved_row) : object :=
  {[ "id" := VNum (sm_id r);
     "user_id" := VNum (sm_user_id r);
     "movie_id" := VNum (sm_movie_id r);
     "title" := text_value (sm_title r);
     "year" := text_value (sm_year r);
     "poster" := text_value (sm_poster r);
     "created_at" := VNum (sm_created_at r) ]}.

(** [INSERT INTO saved_movies (user_id, movie_id, title, year, poster)
    VALUES ($1,$2,$3,$4,$5) RETURNING *] *)
Definition insert_saved_movie (now : Z) (user_id movie_id title year poster : value)
  : M database (list object) :=
  λ db,
    match bind_int user_id, bind_int movie_id with
    | Bound u, Bound m =>
        let r := SavedRow (saved_movies_id_seq db) u m
                          (bind_text title) (bind_text year) (bind_text poster) now in
        (Database (users db) (users_id_seq db)
                  (saved_movies db ++ [r]) (saved_movies_id_seq db + 1),
         Return [saved_columns r])
    | _, _ => (db, Throw)
    end.

(** The order of [ORDER BY created_at DESC]. *)
Definition newest_first (a b : saved_row) : Prop := sm_created_at b ≤ sm_created_at a.

#[global] Instance newest_first_dec a b : Decision (newest_first a b).
Proof. unfold newest_first. apply _. Defined.

(** [SELECT * FROM saved_movies WHERE user_id = $1 ORDER BY created_at DESC] *)
Definition select_saved_by_user (user_id : value) : M database (list object) :=
  λ db,
    match bind_int user_id with
    | Bound u =>
        (db, Return (saved_columns <$>
                       merge_sort newest_first
                         (filter (λ r, sm_user_id r = u) (saved_movies db))))
    | Null => (db, Return [])
    | Rejected => (db, Throw)
    end.

(** The rows [WHERE user_id = $1 AND movie_id = $2] selects. *)
Definition saved_by (u m : Z) (r : saved_row) : Prop :=
  sm_user_id r = u ∧ sm_movie_id r = m.

#[global] Instance saved_by_dec u m r : Decision (saved_by u m r).
Proof. unfold saved_by. apply _. Defined.

(** [DELETE FROM saved_movies WHERE user_id = $1 AND movie_id = $2
    RETURNING id] *)
Definition delete_saved_movie (user_id movie_id : value) : M database (list object) :=
  λ db,
    match bind_int user_id, bind_int movie_id with
    | Bound u, Bound m =>
        (Database (users db) (users_id_seq db)
                  (filter (λ r, ¬ saved_by u m r) (saved_movies db))
                  (saved_movies_id_seq db),
         Return ((id_object ∘ sm_id) <$> filter (saved_by u m) (saved_movies db)))
    | Rejected, _ | _, Rejected => (db, Throw)
    | _, _ => (db, Return [])
    end.

(** ** [sanitizeUser] (lines 30-38) *)

Definition sanitizeUser (row : object) : object :=
  {[ "id" := field row "id";
     "username" := field row "username";
     "email" := field row "email";
     "display_name" := js_or (field row "display_name") VNull;
     "created_at" := field row "created_at" ]}.

(** ** express-validator *)

(** An entry of [errors.array()]. *)
Definition validation_error (path : string) (v : value) (msg : string) : value :=
  VObj {[ "type" := VStr "field"; "value" := v; "msg" := VStr msg;
          "path" := VStr path; "location" := VStr "body" ]}.

(** A validator of a chain [body(path)] that is run on the value of the
    field as a whole ([.exists()]): an entry when it fails. *)
Definition check (ok : bool) (path : string) (b : object) (msg : string) : list value :=
  if ok then [] else [validation_error path (field b path) msg].

(** The values a standard validator is run on: every element of an array,
    none for the empty array, the value itself when it is not an array. *)
Definition validated_values (v : value) : list value :=
  match v with
  | VArr l => l
  | _ => [v]
  end.

(** A standard validator of a chain [body(path)] ([.isLength()],
    [.isEmail()]): an entry for every value it fails on. *)
Definition standard (test : value → bool) (path : string) (b : object) (msg : string)
  : list value :=
  x ← validated_values (field b path);
  if test x then [] else [validation_error path x msg].

(** [.isLength({ min })] *)
Definition isLength (min : nat) (v : value) : bool :=
  bool_decide (min ≤ characters (validator_toString v))%nat.

(** [.isEmail()] *)
Definition is_email (v : value) : bool := isEmail (validator_toString v).

(** [.exists()] *)
Definition exists_ (v : value) : bool :=
  match v with
  | VUndefined => false
  | _ => true
  end.

(** The chains of [/api/register] (lines 42-45), in their order. *)
Definition register_validators (b : object) : list value :=
  standard (isLength 3) "username" b "username min 3 chars"
  ++ standard is_email "email" b "invalid email"
  ++ standard (isLength 6) "password" b "password min 6 chars"
  ++ check (exists_ (field b "confirmPassword")) "confirmPassword" b "Invalid value".

(** The chains of [/api/login] (lines 96-97). *)
Definition login_validators (b : object) : list value :=
  check (exists_ (field b "username")) "username" b "Invalid value"
  ++ check (exists_ (field b "password")) "password" b "Invalid value".

(** ** bcryptjs and jsonwebtoken as the handlers call them *)

(** [bcrypt.hash(password, 12)]: rejects what is not a string. *)
Definition hash (password : value) (salt : string) : outcome string :=
  match password with
  | VStr p => Return (bcrypt_hash p 12 salt)
  | _ => Throw
  end.

(** [bcrypt.compare(password, hash)] *)
Definition compare (password h : value) : outcome bool :=
  match password, h with
  | VStr p, VStr h' => Return (bcrypt_compare p h')
  | _, _ => Throw
  end.

(** [jwt.sign({ userId }, secret, { expiresIn })], [expiresIn] in seconds. *)
Definition jwt_sign (uid : value) (secret : string) (expiresIn now : Z) : string :=
  let c := Claims uid now (Some (now + expiresIn)) in
  jwt_encode c (hs256 secret c).

Inductive jwt_error := JwtMalformed | JwtInvalidSignature | JwtExpired.

(** [jwt.verify(token, secret)]: the token must be a string that is not
    empty and parses, its signature must be the one of its payload under
    the secret, and its expiry, when it has one, must be in the future. *)
Definition jwt_verify (token : option string) (secret : string) (now : Z)
  : jwt_error + jwt_claims :=
  match token with
  | None => inl JwtMalformed
  | Some t =>
      if bool_decide (t = "") then inl JwtMalformed
      else match jwt_decode t with
           | None => inl JwtMalformed
           | Some (c, sig) =>
               if bool_decide (sig = hs256 secret c) then
                 match exp c with
                 | Some e => if bool_decide (e ≤ now) then inl JwtExpired else inr c
                 | None => inr c
                 end
               else inl JwtInvalidSignature
           end
  end.

(** The verification inside a [try] block: every error is thrown. *)
Definition verified (token : option string) (secret : string) (now : Z) : outcome jwt_claims :=
  match jwt_verify token secret now with
  | inr c => Return c
  | inl _ => Throw
  end.

Definition one_hour : Z := 3600.
Definition seven_days : Z := 604800.

(** ** [POST /api/register] (lines 40-92) *)

Definition register_try (cfg : config) (now : Z) (salt : string) (b : object)
  : M database response :=
  let username := field b "username" in
  let email := field b "email" in
  let password := field b "password" in
  userByUsername <- select_id_by_username username ;;
  match userByUsername with
  | _ :: _ => ret (json 400 (message "username already taken"))
  | [] =>
      userByEmail <- select_id_by_email email ;;
      match userByEmail with
      | _ :: _ => ret (json 400 (message "email already used"))
      | [] =>
          password_hash <- lift (hash password salt) ;;
          let display_name := username in
          rows <- insert_user now (bind_text username) (bind_text email)
                              (Some password_hash) (bind_text display_name) ;;
          match rows with
          | [] => throw
          | user :: _ =>
              let token := jwt_sign (field user "id") (JWT_SECRET cfg) one_hour now in
              ret (json 201 (VObj {[ "user" := VObj (sanitizeUser user);
                                     "token" := VStr token ]}))
          end
      end
  end.

Definition register (cfg : config) (now : Z) (salt : string) (b : object)
  : database → database * response :=
  match register_validators b with
  | (_ :: _) as errors => λ db, (db, json 400 (VObj {[ "errors" := VArr errors ]}))
  | [] =>
      if negb (strict_eq (field b "password") (field b "confirmPassword")) then
        λ db, (db, json 400 (message "passwords do not match"))
      else
        try_catch (register_try cfg now salt b) (json 500 (message "internal error"))
  end.

(** ** [POST /api/login] (lines 94-126) *)

Definition login_try (cfg : config) (now : Z) (b : object) : M database response :=
  rows <- select_login_by_username (field b "username") ;;
  match rows with
  | [] => ret (json 401 (message "invalid credentials"))
  | user :: _ =>
      ok <- lift (compare (field b "password") (field user "password_hash")) ;;
      if negb ok then ret (json 401 (message "invalid credentials"))
      else
        let token := jwt_sign (field user "id") (JWT_SECRET cfg) seven_days now in
        ret (json 200 (VObj {[ "user" := VObj (sanitizeUser user);
                               "token" := VStr token ]}))
  end.

Definition login (cfg : config) (now : Z) (b : object) : database → database * response :=
  match login_validators b with
  | (_ :: _) as errors => λ db, (db, json 400 (VObj {[ "errors" := VArr errors ]}))
  | [] => try_catch (login_try cfg now b) (json 500 (message "internal error"))
  end.

(** ** [authMiddleware] (lines 128-145) *)

(** The middleware answers itself, or sets [req.user] and calls [next()]. *)
Inductive auth_result :=
  | Reject (r : response)
  | Next (user : object).

(** [auth.split(" ")[1]] *)
Definition bearer_token (auth : string) : option string := split " " auth !! 1%nat.

Definition authMiddleware_try (cfg : config) (now : Z) (auth : string)
  : M database auth_result :=
  let token := bearer_token auth in
  payload <- lift (verified token (JWT_SECRET cfg) now) ;;
  rows <- select_user_by_id (userId payload) ;;
  match rows with
  | [] => ret (Reject (json 401 (message "invalid token")))
  | user :: _ => ret (Next user)
  end.

Definition authMiddleware (cfg : config) (now : Z) (authorization : option string)
  : database → database * auth_result :=
  match authorization with
  | Some auth =>
      if bool_decide (auth = "") || negb (startsWith "Bearer " auth) then
        λ db, (db, Reject (json 401 (message "no token")))
      else
        try_catch (authMiddleware_try cfg now auth)
                  (Reject (json 401 (message "invalid token")))
  | None => λ db, (db, Reject (json 401 (message "no token")))
  end.

(** A route registered as [app.METHOD(path, authMiddleware, handler)]. *)
Definition protected (cfg : config) (now : Z) (authorization : option string)
    (handler : object → database → database * response)
  : database → database * response :=
  λ db,
    match authMiddleware cfg now authorization db with
    | (db', Reject r) => (db', r)
    | (db', Next user) => handler user db'
    end.

(** ** [GET /api/me] (lines 147-149) *)

Definition me_handler (user : object) : database → database * response :=
  λ db, (db, json 200 (VObj {[ "user" := VObj (sanitizeUser user) ]})).

Definition me (cfg : config) (now : Z) (authorization : option string)
  : database → database * response :=
  protected cfg now authorization me_handler.

(** ** The catalog proxy (lines 151-224) *)

(** [v?.split(sep)[0]] *)
Definition optional_split_first (sep : ascii) (v : value) : outcome value :=
  match v with
  | VUndefined | VNull => Return VUndefined
  | VStr s => Return (from_option VStr VUndefined (head (split sep s)))
  | _ => Throw
  end.

(** [v.map(f)]: only an array has the method. *)
Definition array_map (f : value → outcome value) (v : value) : outcome value :=
  match v with
  | VArr l => let? l' := map_outcome f l in Return (VArr l')
  | _ => Throw
  end.

(** [v?.map(f)] *)
Definition optional_array_map (f : value → outcome value) (v : value) : outcome value :=
  match v with
  | VUndefined | VNull => Return VUndefined
  | _ => array_map f v
  end.

Definition image_base : string := "https://image.tmdb.org/t/p/w500".

(** [p ? `https://image.tmdb.org/t/p/w500${p}` : null] *)
Definition poster_url (p : value) : value :=
  if truthy p then VStr (image_base +:+ template p) else VNull.

(** The arrow function of lines 163-171 (and 186-194). *)
Definition reshape (m : value) : outcome value :=
  let? id := get m "id" in
  let? title := get m "title" in
  let? overview := get m "overview" in
  let? release_date := get m "release_date" in
  let? year := optional_split_first "-" release_date in
  let? poster_path := get m "poster_path" in
  Return (VObj {[ "id" := id; "title" := title; "overview" := overview;
                  "year" := year; "poster" := poster_url poster_path ]}).

Definition search_url (cfg : config) (query : value) : string :=
  "https://api.themoviedb.org/3/search/movie?api_key=" +:+ TMDB_API_KEY cfg
  +:+ "&query=" +:+ encodeURIComponent (template query) +:+ "&language=ru".

Definition trending_url (cfg : config) : string :=
  "https://api.themoviedb.org/3/trending/movie/week?api_key=" +:+ TMDB_API_KEY cfg
  +:+ "&language=ru".

Definition details_url (cfg : config) (movieId : string) : string :=
  "https://api.themoviedb.org/3/movie/" +:+ movieId +:+ "?api_key=" +:+ TMDB_API_KEY cfg
  +:+ "&language=ru".

(** [{ results: data.results.map(...) }] *)
Definition results_body (data : value) : outcome value :=
  let? results := get data "results" in
  let? items := array_map reshape results in
  Return (VObj {[ "results" := items ]}).

(** [GET /api/movies/search]; [axios_get url] is the [data] of the
    upstream answer, or the rejection of the request. *)
Definition search (cfg : config) (axios_get : string → outcome value) (query : value)
  : response :=
  if negb (truthy query) then json 400 (message "query is required")
  else
    or_else (let? data := axios_get (search_url cfg query) in
             let? b := results_body data in
             Return (json 200 b))
            (json 500 (message "movies search failed")).

(** [GET /api/movies/trending] *)
Definition trending (cfg : config) (axios_get : string → outcome value) : response :=
  or_else (let? data := axios_get (trending_url cfg) in
           let? b := results_body data in
           Return (json 200 b))
          (json 500 (message "trending fetch failed")).

(** The object of lines 210-219. *)
Definition details_body (data : value) : outcome value :=
  let? id := get data "id" in
  let? title := get data "title" in
  let? overview := get data "overview" in
  let? release_date := get data "release_date" in
  let? year := optional_split_first "-" release_date in
  let? poster_path := get data "poster_path" in
  let? genres := get data "genres" in
  let? names := optional_array_map (λ g, get g "name") genres in
  Return (VObj {[ "id" := id; "title" := title; "overview" := overview;
                  "year" := year; "poster" := poster_url poster_path;
                  "genres" := names ]}).

(** [GET /api/movies/details/:id] *)
Definition details (cfg : config) (axios_get : string → outcome value) (movieId : string)
  : response :=
  or_else (let? data := axios_get (details_url cfg movieId) in
           let? b := details_body data in
           Return (json 200 b))
          (json 500 (message "movie details failed")).

(** ** The saved list (lines 226-289) *)

(** The handler of [POST /api/movies/save]. *)
Definition save_handler (now : Z) (b : object) (user : object)
  : database → database * response :=
  let movie_id := field b "movie_id" in
  let title := field b "title" in
  let year := field b "year" in
  let poster := field b "poster" in
  if negb (truthy movie_id) || negb (truthy title) then
    λ db, (db, json 400 (message "movie_id & title required"))
  else
    try_catch
      (rows <- insert_saved_movie now (field user "id") movie_id title year poster ;;
       ret (json 201 (VObj {[ "movie" := from_option VObj VUndefined (head rows) ]})))
      (json 500 (message "save failed")).

(** The handler of [GET /api/mymovies]. *)
Definition mymovies_handler (user : object) : database → database * response :=
  try_catch
    (rows <- select_saved_by_user (field user "id") ;;
     ret (json 200 (VObj {[ "movies" := VArr (VObj <$> rows) ]})))
    (json 500 (message "fetch failed")).

(** The handler of [DELETE /api/movies/:id]. *)
Definition delete_handler (movieId : string) (user : object)
  : database → database * response :=
  if bool_decide (movieId = "") then
    λ db, (db, json 400 (message "movie id is required"))
  else
    try_catch
      (rows <- delete_saved_movie (field user "id") (VStr movieId) ;;
       match rows with
       | [] => ret (json 404 (message "movie not found"))
       | _ :: _ => ret (json 200 (message "movie removed"))
       end)
      (json 500 (message "delete failed")).

Definition save (cfg : config) (now : Z) (authorization : option string) (b : object) :=
  protected cfg now authorization (save_handler now b).

Definition mymovies (cfg : config) (now : Z) (authorization : option string) :=
  protected cfg now authorization mymovies_handler.

Definition delete_movie (cfg : config) (now : Z) (authorization : option string)
    (movieId : string) :=
  protected cfg now authorization (delete_handler movieId).

(** ** The routes *)

Inductive request :=
  | PostRegister (b : object)
  | PostLogin (b : object)
  | GetMe (authorization : option string)
  | GetSearch (query : value)
  | GetTrending
  | GetDetails (id : string)
  | PostSave (authorization : option string) (b : object)
  | GetMyMovies (authorization : option string)
  | DeleteMovie (authorization : option string) (id : string).

(** The application: the route table of the file, run on one request.
    [salt] is the randomness [bcrypt.hash] draws. *)
Definition handle (cfg : config) (axios_get : string → outcome value) (now : Z)
    (salt : string) (req : request) : database → database * response :=
  match req with
  | PostRegister b => register cfg now salt b
  | PostLogin b => login cfg now b
  | GetMe authorization => me cfg now authorization
  | GetSearch query => λ db, (db, search cfg axios_get query)
  | GetTrending => λ db, (db, trending cfg axios_get)
  | GetDetails id => λ db, (db, details cfg axios_get id)
  | PostSave authorization b => save cfg now authorization b
  | GetMyMovies authorization => mymovies cfg now authorization
  | DeleteMovie authorization id => delete_movie cfg now authorization id
  end.

End Server.

(** * Vocabulary of the properties *)

Section Vocabulary.
Context `{Libraries}.

(** What becomes of a property in [JSON.stringify]. *)
Definition json_property (x : value) : option value :=
  match to_json x with
  | VUndefined => None
  | y => Some y
  end.

(** What becomes of an array element in [JSON.stringify]. *)
Definition json_element (x : value) : value :=
  match to_json x with
  | VUndefined => VNull
  | y => y
  end.

(** The [user] object of a response body. *)
Definition response_user (r : response) : option object :=
  match body r with
  | VObj o => match o !! "user" with
              | Some (VObj u) => Some u
              | _ => None
              end
  | _ => None
  end.

(** The [token] of a response body. *)
Definition response_token (r : response) : option string :=
  match body r with
  | VObj o => match o !! "token" with
              | Some (VStr t) => Some t
              | _ => None
              end
  | _ => None
  end.

(** The [message] of a response body. *)
Definition response_message (r : response) : option string :=
  match body r with
  | VObj o => match o !! "message" with
              | Some (VStr t) => Some t
              | _ => None
              end
  | _ => None
  end.

Definition public_keys : gset string :=
  {[ "id"; "username"; "email"; "display_name"; "created_at" ]}.

(** The user object a response carries is the serialization of a
    [sanitizeUser] result, and so has no key outside the five public ones. *)
Definition carries_sanitized_user (r : response) : Prop :=
  ∃ u row, response_user r = Some u
           ∧ u = omap json_property (sanitizeUser row)
           ∧ dom u ⊆ public_keys
           ∧ u !! "password_hash" = None.

Definition invalid_token : auth_result := Reject (json 401 (message "invalid token")).

Definition no_token : auth_result := Reject (json 401 (message "no token")).

(** What the [try] block of the middleware comes to. *)
Definition resolve (cfg : config) (now : Z) (auth : string) (db : database) : auth_result :=
  match jwt_verify (bearer_token auth) (JWT_SECRET cfg) now with
  | inl _ => invalid_token
  | inr payload =>
      match bind_int (userId payload) with
      | Bound n =>
          match filter (λ r, u_id r = n) (users db) with
          | [] => invalid_token
          | row :: _ => Next (public_columns row)
          end
      | _ => invalid_token
      end
  end.

(** *** Login, read as one expression *)

Definition invalid_credentials : response := json 401 (message "invalid credentials").

(** The answer of Login to a body that passes its validators. *)
Definition login_answer (cfg : config) (now : Z) (b : object) (db : database) : response :=
  match bind_text (field b "username") with
  | None => invalid_credentials
  | Some u =>
      match filter (λ r, u_username r = u) (users db) with
      | [] => invalid_credentials
      | row :: _ =>
          match compare (field b "password") (VStr (u_password_hash row)) with
          | Return true =>
              json 200 (VObj {[ "user" := VObj (sanitizeUser (login_columns row));
                                "token" := VStr (jwt_sign (VNum (u_id row)) (JWT_SECRET cfg)
                                                          seven_days now) ]})
          | Return false => invalid_credentials
          | Throw => json 500 (message "internal error")
          end
      end
  end.

(** *** Failing closed *)

(** The server fails closed on an environment: when it has no
    [JWT_SECRET], no request is served, every answer is an error.  (The
    module has no way of refusing to start: [load_config] is total.) *)
Definition fails_closed (env : gmap string string) : Prop :=
  env !! "JWT_SECRET" = None →
  ∀ axios_get now salt req db,
    400 ≤ status (handle (load_config env) axios_get now salt req db).2.

(** *** Registration constraints *)

(** The messages of the constraints on username, email and password
    length that a body violates. *)
Definition field_violations (b : object) : list string :=
  (if isLength 3 (field b "username") then [] else ["username min 3 chars"])
  ++ (if isEmail (validator_toString (field b "email")) then [] else ["invalid email"])
  ++ (if isLength 6 (field b "password") then [] else ["password min 6 chars"]).

(** The message of the constraint [password == confirmPassword]. *)
Definition match_violations (b : object) : list string :=
  if strict_eq (field b "password") (field b "confirmPassword") then []
  else ["passwords do not match"].

(** The four structural constraints of Register. *)
Definition violations (b : object) : list string :=
  field_violations b ++ match_violations b.

(** The [msg] of an entry of an [errors] array. *)
Definition entry_msg (e : value) : option string :=
  match e with
  | VObj o => match o !! "msg" with
              | Some (VStr m) => Some m
              | _ => None
              end
  | _ => None
  end.

(** The messages a response body reports: its [message] and the [msg] of
    the entries of its [errors]. *)
Definition reported (r : response) : list string :=
  match body r with
  | VObj o =>
      match o !! "message" with
      | Some (VStr m) => [m]
      | _ => []
      end
      ++ match o !! "errors" with
         | Some (VArr l) => omap entry_msg l
         | _ => []
         end
  | _ => []
  end.

(** The messages of the validators of [/api/register] that fail: the three
    above, and the presence of [confirmPassword]. *)
Definition validator_messages (b : object) : list string :=
  field_violations b
  ++ (if exists_ (field b "confirmPassword") then [] else ["Invalid value"]).

(** The claim on Register as it is worded: a request that violates a
    constraint is answered 400, the store is left alone and the body
    reports every violated constraint. *)
Definition reports_all_violations (cfg : config) (now : Z) (salt : string)
    (b : object) (db : database) : Prop :=
  violations b ≠ [] →
  (register cfg now salt b db).1 = db
  ∧ status (register cfg now salt b db).2 = 400
  ∧ violations b ⊆ reported (register cfg now salt b db).2.

(** None of the three validated fields is an array: every validator is
    run once, on the field itself. *)
Definition is_array (v : value) : bool :=
  match v with
  | VArr _ => true
  | _ => false
  end.

Definition plain_fields (b : object) : Prop :=
  is_array (field b "username") = false
  ∧ is_array (field b "email") = false
  ∧ is_array (field b "password") = false.

#[global] Instance plain_fields_dec b : Decision (plain_fields b).
Proof. unfold plain_fields. apply _. Defined.

(** A request that passes the validators and repeats its password. *)
Definition well_formed_registration (b : object) : Prop :=
  register_validators b = []
  ∧ strict_eq (field b "password") (field b "confirmPassword") = true.

#[global] Instance well_formed_registration_dec b : Decision (well_formed_registration b).
Proof.
  unfold well_formed_registration.
  destruct (register_validators b); [|right; by intros [? ?]].
  destruct (strict_eq _ _); [left|right]; by try intros [? ?].
Defined.

(** *** Saved rows *)

Definition owned_by (a : Z) (r : saved_row) : Prop := sm_user_id r = a.

#[global] Instance owned_by_dec a r : Decision (owned_by a r).
Proof. unfold owned_by. apply _. Defined.

(** *** Catalog items *)

(** [y] is [s] up to its first [-], or all of [s] when it has none. *)
Definition before_first_dash (s y : string) : Prop :=
  no_char "-" y ∧ (s = y ∨ ∃ rest, s = y +:+ String "-" rest).

(** The [year] of a returned item [o], read against the release date of
    the upstream item: the text before the first dash, or no [year] at all
    when the upstream item has no release date. *)
Definition year_follows (release_date : value) (o : object) : Prop :=
  match release_date with
  | VStr s => ∃ y, o !! "year" = Some (VStr y) ∧ before_first_dash s y
  | VUndefined | VNull => o !! "year" = None
  | _ => False
  end.

(** The [poster] of a returned item: the image URL of the poster path
    when there is one, [null] otherwise. *)
Definition poster_follows (poster_path : value) (o : object) : Prop :=
  if truthy poster_path
  then o !! "poster" = Some (VStr (image_base +:+ template poster_path))
  else o !! "poster" = Some VNull.

(** [item] is what the proxy returns for the upstream item [m]. *)
Definition reshaped (m item : value) : Prop :=
  ∃ release_date poster_path o,
    get m "release_date" = Return release_date
    ∧ get m "poster_path" = Return poster_path
    ∧ item = VObj o
    ∧ year_follows release_date o
    ∧ poster_follows poster_path o.

(** The [poster] of a returned item as the claim words it: the image URL
    of the poster path when there is one, no [poster] at all otherwise. *)
Definition poster_as_claimed (poster_path : value) (o : object) : Prop :=
  if truthy poster_path
  then o !! "poster" = Some (VStr (image_base +:+ template poster_path))
  else o !! "poster" = None.

Definition reshaped_as_claimed (m item : value) : Prop :=
  ∃ release_date poster_path o,
    get m "release_date" = Return release_date
    ∧ get m "poster_path" = Return poster_path
    ∧ item = VObj o
    ∧ year_follows release_date o
    ∧ poster_as_claimed poster_path o.

(** The claim on the catalog as it is worded, on a search. *)
Definition search_items_as_claimed (cfg : config) (axios_get : string → outcome value)
    (query : value) : Prop :=
  status (search cfg axios_get query) = 200 →
  ∃ data ms items,
    axios_get (search_url cfg query) = Return data
    ∧ get data "results" = Return (VArr ms)
    ∧ body (search cfg axios_get query) = VObj {[ "results" := VArr items ]}
    ∧ Forall2 reshaped_as_claimed ms items.

(** An upstream item the proxy reshapes: it is neither [null] nor
    [undefined], and its release date is a string or is missing. *)
Definition well_dated (m : value) : Prop :=
  match get m "release_date" with
  | Return (VStr _ | VUndefined | VNull) => True
  | _ => False
  end.

(** The [genres] of an upstream movie are missing, or an array without
    [null] in it. *)
Definition named_genres (data : value) : Prop :=
  match get data "genres" with
  | Return (VUndefined | VNull) => True
  | Return (VArr gs) => Forall (λ g, g ≠ VUndefined ∧ g ≠ VNull) gs
  | _ => False
  end.

(** *** Registration, read as one expression *)

(** The text [v] is bound to has at most [n] characters. *)
Definition fits (n : nat) (v : value) : Prop :=
  match bind_text v with
  | Some s => (characters s ≤ n)%nat
  | None => True
  end.

#[global] Instance fits_dec n v : Decision (fits n v).
Proof. unfold fits. destruct (bind_text v); apply _. Defined.

(** The text ends with a space. *)
Fixpoint ends_with_space (s : string) : bool :=
  match s with
  | EmptyString => false
  | String c EmptyString => bool_decide (c = " "%char)
  | String _ r => ends_with_space r
  end.

(** The row a Register request asks for: the bound username and email,
    the hash of the password, the username as display name, the next id. *)
Definition registered_row (now : Z) (salt : string) (b : object) (db : database)
  : option user_row :=
  match bind_text (field b "username"), bind_text (field b "email"),
        hash (field b "password") salt with
  | Some u, Some e, Return h => Some (UserRow (users_id_seq db) u e h (Some u) now)
  | _, _, _ => None
  end.

(** The store after the insertion of a user. *)
Definition with_user (db : database) (r : user_row) : database :=
  Database (users db ++ [r]) (users_id_seq db + 1) (saved_movies db) (saved_movies_id_seq db).

(** The 201 of Register for the row [r]. *)
Definition created (cfg : config) (now : Z) (r : user_row) : response :=
  json 201 (VObj {[ "user" := VObj (sanitizeUser (public_columns r));
                    "token" := VStr (jwt_sign (VNum (u_id r)) (JWT_SECRET cfg)
                                              one_hour now) ]}).


(** *** The integrity of the store *)

(** Usernames, emails and ids are unique and the ids are below their
    sequences. *)
Definition store_ok (db : database) : Prop :=
  NoDup (u_username <$> users db)
  ∧ NoDup (u_email <$> users db)
  ∧ NoDup (u_id <$> users db)
  ∧ Forall (λ r, u_id r < users_id_seq db) (users db)
  ∧ NoDup (sm_id <$> saved_movies db)
  ∧ Forall (λ r, sm_id r < saved_movies_id_seq db) (saved_movies db).

(** *** Saving, read as one expression *)

(** The row a Save of user [a] and movie [m] inserts. *)
Definition saved_row_for (now a m : Z) (b : object) (db : database) : saved_row :=
  SavedRow (saved_movies_id_seq db) a m (bind_text (field b "title"))
           (bind_text (field b "year")) (bind_text (field b "poster")) now.

(** The store after the insertion of a saved movie. *)
Definition with_saved (db : database) (r : saved_row) : database :=
  Database (users db) (users_id_seq db) (saved_movies db ++ [r])
           (saved_movies_id_seq db + 1).

(** The store after [DELETE ... WHERE user_id = a AND movie_id = m]. *)
Definition without_saved (db : database) (a m : Z) : database :=
  Database (users db) (users_id_seq db)
           (filter (λ r, ¬ saved_by a m r) (saved_movies db)) (saved_movies_id_seq db).

(** The 200 of [GET /api/mymovies] for the rows [rows]. *)
Definition listed (rows : list saved_row) : response :=
  json 200 (VObj {[ "movies" := VArr (VObj <$> (saved_columns <$> rows)) ]}).

#[global] Instance newest_first_total : Total newest_first.
Proof. intros x y. unfold newest_first. lia. Qed.

#[global] Instance newest_first_transitive : Transitive newest_first.
Proof. intros x y z. unfold newest_first. lia. Qed.

#[global] Instance store_ok_dec db : Decision (store_ok db).
Proof. unfold store_ok. apply _. Defined.

(** *** Status codes *)

(** The statuses a route answers with. *)
Definition statuses (req : request) : list Z :=
  match req with
  | PostRegister _ => [201; 400; 500]
  | PostLogin _ => [200; 400; 401; 500]
  | GetMe _ => [200; 401]
  | GetSearch _ => [200; 400; 500]
  | GetTrending => [200; 500]
  | GetDetails _ => [200; 500]
  | PostSave _ _ => [201; 400; 401; 500]
  | GetMyMovies _ => [200; 401; 500]
  | DeleteMovie _ _ => [200; 400; 401; 404; 500]
  end.

(** *** What a request may change *)

(** The part of the store a route may touch: Register appends to [users],
    Save appends to [saved_movies], Delete removes from [saved_movies],
    the other routes leave the store as it is. *)
Definition frame (req : request) (db db' : database) : Prop :=
  match req with
  | PostRegister _ =>
      saved_movies db' = saved_movies db
      ∧ saved_movies_id_seq db' = saved_movies_id_seq db
      ∧ (db' = db ∨ ∃ r, db' = with_user db r)
  | PostSave _ _ =>
      users db' = users db
      ∧ users_id_seq db' = users_id_seq db
      ∧ (db' = db ∨ ∃ r, saved_movies db' = saved_movies db ++ [r])
  | DeleteMovie _ _ =>
      users db' = users db
      ∧ users_id_seq db' = users_id_seq db
      ∧ saved_movies_id_seq db' = saved_movies_id_seq db
      ∧ saved_movies db' `sublist_of` saved_movies db
  | _ => db' = db
  end.

(** *** Catalog items, field by field *)

Definition item_keys : gset string := {[ "id"; "title"; "overview"; "year"; "poster" ]}.

(** [item] has no key but the five of a summary, and its [id], [title] and
    [overview] are those of the upstream item [m]. *)
Definition summarizes (m item : value) : Prop :=
  ∃ o, item = VObj o
       ∧ dom o ⊆ item_keys
       ∧ ∀ k, k ∈ ["id"; "title"; "overview"] →
              ∃ v, get m k = Return v ∧ o !! k = json_property v.

(** The [genres] of a details answer [o], read against the upstream
    [genres]: the names of the genres, or no key at all. *)
Definition genres_follow (genres : value) (o : object) : Prop :=
  match genres with
  | VArr gs =>
      ∃ names, o !! "genres" = Some (VArr names)
               ∧ Forall2 (λ g n, ∃ v, get g "name" = Return v ∧ n = json_element v) gs names
  | VUndefined | VNull => o !! "genres" = None
  | _ => False
  end.

End Vocabulary.

(** * A reference instance of the libraries

    Small executable stand-ins, used to run the handlers on concrete
    requests.  The token format writes the three numbers of a payload in
    binary and appends the signature. *)

Module Reference.

Fixpoint pos_digits (p : positive) (k : string) : string :=
  match p with
  | xH => String "." k
  | xO p' => String "0" (pos_digits p' k)
  | xI p' => String "1" (pos_digits p' k)
  end.

Definition z_digits (z : Z) (k : string) : string :=
  match z with
  | Z0 => String "z" k
  | Zpos p => String "p" (pos_digits p k)
  | Zneg p => String "n" (pos_digits p k)
  end.

Definition opt_digits (o : option Z) (k : string) : string :=
  match o with
  | None => String "-" k
  | Some z => String "+" (z_digits z k)
  end.

Fixpoint read_pos (s : string) : option (positive * string) :=
  match s with
  | String "." k => Some (xH, k)
  | String "0" r => prod_map xO id <$> read_pos r
  | String "1" r => prod_map xI id <$> read_pos r
  | _ => None
  end.

Definition read_z (s : string) : option (Z * string) :=
  match s with
  | String "z" k => Some (Z0, k)
  | String "p" r => prod_map Zpos id <$> read_pos r
  | String "n" r => prod_map Zneg id <$> read_pos r
  | _ => None
  end.

Definition read_opt (s : string) : option (option Z * string) :=
  match s with
  | String "-" k => Some (None, k)
  | String "+" r => prod_map Some id <$> read_z r
  | _ => None
  end.

Definition encode_token (c : jwt_claims) (sig : string) : string :=
  match userId c with
  | VNum n => z_digits n (z_digits (iat c) (opt_digits (exp c) sig))
  | _ => "?"
  end.

Definition decode_token (s : string) : option (jwt_claims * string) :=
  '(n, r) ← read_z s;
  '(i, r) ← read_z r;
  '(e, r) ← read_opt r;
  Some (Claims (VNum n) i e, r).

Definition mac (secret : string) (c : jwt_claims) : string :=
  pos_digits (encode secret)
    (match userId c with
     | VNum n => z_digits n (z_digits (iat c) (opt_digits (exp c) ""))
     | _ => "?"
     end).

(** Decimal digits, most significant first. *)
Fixpoint read_decimal (acc : Z) (s : string) : option Z :=
  match s with
  | EmptyString => Some acc
  | String c r =>
      let d := Z.of_nat (nat_of_ascii c) - 48 in
      if bool_decide (0 ≤ d ≤ 9) then read_decimal (10 * acc + d) r else None
  end.

Definition parse_int (s : string) : option Z :=
  match s with
  | EmptyString => None
  | String "-" r => if bool_decide (r = "") then None else Z.opp <$> read_decimal 0 r
  | _ => read_decimal 0 s
  end.

Fixpoint show (v : value) : string :=
  match v with
  | VUndefined => "undefined"
  | VNull => "null"
  | VBool true => "true"
  | VBool false => "false"
  | VNum n => pretty n
  | VStr s => s
  | VArr l =>
      String.concat "," (map (λ x, match x with
                                   | VUndefined | VNull => ""
                                   | _ => show x
                                   end) l)
  | VObj _ => "[object Object]"
  end.

Definition quote : string := String (Ascii.ascii_of_nat 34) "".

(** A parameter as text: an array as an array literal. *)
Definition prepare (v : value) : string :=
  match v with
  | VArr l => "{" +:+ String.concat "," (map (λ x, quote +:+ show x +:+ quote) l) +:+ "}"
  | _ => show v
  end.

(** The text after the first [c] of a string. *)
Fixpoint after (c : ascii) (s : string) : string :=
  match s with
  | EmptyString => EmptyString
  | String a r => if bool_decide (a = c) then r else after c r
  end.

Definition has_at (s : string) : bool :=
  match split "@" s with
  | [a; b] => negb (bool_decide (a = "")) && negb (bool_decide (b = ""))
  | _ => false
  end.

#[export] Instance libraries : Libraries := {|
  js_String := show;
  encodeURIComponent := id;
  isEmail := has_at;
  bcrypt_hash := λ p _ salt, salt +:+ "$" +:+ p;
  bcrypt_compare := λ p h, bool_decide (after "$" h = p);
  jwt_encode := encode_token;
  jwt_decode := decode_token;
  hs256 := mac;
  pg_prepareValue := prepare;
  int4in := parse_int;
|}.

Definition empty_db : database := Database [] 1 [] 1.

Definition alice_request : object :=
  {[ "username" := VStr "alice"; "email" := VStr "a@x.com";
     "password" := VStr "secret1"; "confirmPassword" := VStr "secret1" ]}.

Definition bob_request : object :=
  {[ "username" := VStr "bob"; "email" := VStr "b@x.com";
     "password" := VStr "hunter22"; "confirmPassword" := VStr "hunter22" ]}.

(** The configuration of a process started without any variable set. *)
Definition bare : config := load_config ∅.

Definition alice : user_row :=
  UserRow 1 "alice" "a@x.com" "salt$secret1" (Some "alice") 100.

Definition bob : user_row :=
  UserRow 2 "bob" "b@x.com" "pepper$hunter22" (Some "bob") 150.

(** A row for the movie 603. *)
Definition matrix (id owner created : Z) : saved_row :=
  SavedRow id owner 603 (Some "The Matrix") (Some "1999") None created.

(** Alice alone. *)
Definition one_user : database := Database [alice] 2 [] 1.

(** Alice and Bob; Bob has saved the movie 603. *)
Definition two_users : database := Database [alice; bob] 3 [matrix 1 2 160] 2.

(** Alice and Bob; each has saved the movie 603. *)
Definition both_saved : database :=
  Database [alice; bob] 3 [matrix 1 2 160; matrix 2 1 170] 3.

Definition alice_login : object :=
  {[ "username" := VStr "alice"; "password" := VStr "secret1" ]}.

Definition alice_wrong_password : object :=
  {[ "username" := VStr "alice"; "password" := VStr "wrong" ]}.

Definition nobody_login : object :=
  {[ "username" := VStr "nobody"; "password" := VStr "secret1" ]}.

(** The token of a Login of Alice at time 200 on [bare], and its header. *)
Definition alice_token : string := jwt_sign (VNum 1) "change_this_secret" seven_days 200.

Definition alice_header : string := "Bearer " +:+ alice_token.

(** Alice's username with another email, and her email with another
    username. *)
Definition alice_again : object :=
  {[ "username" := VStr "alice"; "email" := VStr "other@x.com";
     "password" := VStr "secret1"; "confirmPassword" := VStr "secret1" ]}.

Definition alice_email_again : object :=
  {[ "username" := VStr "alicia"; "email" := VStr "a@x.com";
     "password" := VStr "secret1"; "confirmPassword" := VStr "secret1" ]}.

(** The two Logins with the number 1234567 as password. *)
Definition alice_number : object :=
  {[ "username" := VStr "alice"; "password" := VNum 1234567 ]}.

Definition nobody_number : object :=
  {[ "username" := VStr "nobody"; "password" := VNum 1234567 ]}.

(** Alice's request with the empty array as username, and with an array
    of a short and a long name. *)
Definition empty_array_username : object := <[ "username" := VArr [] ]> alice_request.

Definition array_username : object :=
  <[ "username" := VArr [VStr "ab"; VStr "abcd"] ]> alice_request.

(** A username of two characters that take four bytes. *)
Definition two_letters : string :=
  String (Ascii.ascii_of_nat 195) (String (Ascii.ascii_of_nat 169)
    (String (Ascii.ascii_of_nat 195) (String (Ascii.ascii_of_nat 169) ""))).

(** A username of two characters and two passwords that differ. *)
Definition short_and_mismatched : object :=
  {[ "username" := VStr "al"; "email" := VStr "a@x.com";
     "password" := VStr "secret1"; "confirmPassword" := VStr "secret2" ]}.

Definition save_matrix : object :=
  {[ "movie_id" := VNum 603; "title" := VStr "The Matrix"; "year" := VStr "1999" ]}.

(** An upstream with one dated movie with a poster and one without
    either, for every URL. *)
Definition upstream_item_dated : value :=
  VObj {[ "id" := VNum 603; "title" := VStr "The Matrix"; "overview" := VStr "";
          "release_date" := VStr "1999-03-31"; "poster_path" := VStr "/m.jpg" ]}.

Definition upstream_item_bare : value :=
  VObj {[ "id" := VNum 7; "title" := VStr "Untitled"; "overview" := VStr "" ]}.

Definition upstream (url : string) : outcome value :=
  Return (VObj {[ "results" := VArr [upstream_item_dated; upstream_item_bare] ]}).

Definition upstream_details (url : string) : outcome value :=
  Return upstream_item_dated.

(** A username of 51 characters, and a request that is otherwise as
    [alice_request]. *)
Definition long_name : string :=
  "abcdefghijklmnopqrstuvwxyzabcdefghijklmnopqrstuvwxyz".

Definition long_request : object := <[ "username" := VStr long_name ]> alice_request.

(** The token of a Register of Alice at time 100 on [bare]. *)
Definition alice_first_token : string :=
  jwt_sign (VNum 1) "change_this_secret" one_hour 100.

(** The token of a Login of Bob at time 200 on [bare], and its header. *)
Definition bob_header : string :=
  "Bearer " +:+ jwt_sign (VNum 2) "change_this_secret" seven_days 200.

(** Alice has saved two movies, the second one later. *)
Definition two_saved : database :=
  Database [alice] 2
           [SavedRow 1 1 603 (Some "The Matrix") (Some "1999") None 300;
            SavedRow 2 1 604 (Some "The Matrix Reloaded") (Some "2003") None 400] 3.

(** An upstream movie with two genres. *)
Definition upstream_item_genres : value :=
  VObj {[ "id" := VNum 603; "title" := VStr "The Matrix"; "overview" := VStr "";
          "genres" := VArr [VObj {[ "id" := VNum 28; "name" := VStr "Action" ]};
                            VObj {[ "id" := VNum 878; "name" := VStr "Science Fiction" ]}] ]}.

Definition upstream_genres (url : string) : outcome value := Return upstream_item_genres.

(** An upstream that is down. *)
Definition upstream_down (url : string) : outcome value := Throw.

(** An environment with a secret and an empty API key. *)
Definition some_env : gmap string string :=
  {[ "JWT_SECRET" := "s3cret"; "API_KEY" := "" ]}.

End Reference.

(** * Properties *)

Section Properties.
Context `{Libraries}.

(** ** Serialization *)

Lemma to_json_object (o : object) : to_json (VObj o) = VObj (omap json_property o).
Proof. reflexivity. Qed.

Lemma json_property_object (o : object) :
  json_property (VObj o) = Some (VObj (omap json_property o)).
Proof. reflexivity. Qed.

Lemma sanitizeUser_dom (row : object) : dom (sanitizeUser row) = public_keys.
Proof. unfold sanitizeUser, public_keys. rewrite !dom_insert_L, dom_singleton_L. set_solver. Qed.

Lemma sanitizeUser_no_hash (row : object) :
  omap json_property (sanitizeUser row) !! "password_hash" = None.
Proof.
  apply not_elem_of_dom. intros Hin.
  apply (dom_omap_subseteq json_property) in Hin.
  rewrite sanitizeUser_dom in Hin. unfold public_keys in Hin.
  rewrite !elem_of_union, !elem_of_singleton in Hin. intuition discriminate.
Qed.

Lemma user_token_body (st : Z) (row : object) (token : string) :
  carries_sanitized_user
    (json st (VObj {[ "user" := VObj (sanitizeUser row); "token" := VStr token ]})).
Proof.
  exists (omap json_property (sanitizeUser row)), row.
  split; [|split; [done|split]].
  - unfold response_user, json. cbn [body]. rewrite to_json_object.
    rewrite lookup_omap, lookup_insert_eq. reflexivity.
  - etrans; [apply dom_omap_subseteq|]. by rewrite sanitizeUser_dom.
  - apply sanitizeUser_no_hash.
Qed.

Lemma user_body (st : Z) (row : object) :
  carries_sanitized_user (json st (VObj {[ "user" := VObj (sanitizeUser row) ]})).
Proof.
  exists (omap json_property (sanitizeUser row)), row.
  split; [|split; [done|split]].
  - unfold response_user, json. cbn [body]. rewrite to_json_object.
    rewrite lookup_omap, lookup_singleton_eq. reflexivity.
  - etrans; [apply dom_omap_subseteq|]. by rewrite sanitizeUser_dom.
  - apply sanitizeUser_no_hash.
Qed.

(** ** What a successful answer of the identity routes is *)

Ltac run_in H :=
  unfold try_catch, bind, ret, lift, gets, throw in H; cbv beta iota zeta in H.

(** Closes a case whose answer has another status than the one assumed. *)
Ltac wrong_status H Hs :=
  cbn [fmap list_fmap negb] in H; simplify_eq; cbn [status json] in Hs; discriminate Hs.

Lemma register_created cfg now salt b db db' r :
  register cfg now salt b db = (db', r) →
  status r = 201 →
  ∃ user, r = json 201 (VObj {[ "user" := VObj (sanitizeUser user);
                                "token" := VStr (jwt_sign (field user "id") (JWT_SECRET cfg)
                                                          one_hour now) ]}).
Proof.
  unfold register, register_try. intros Hr Hs. run_in Hr.
  repeat case_match; simplify_eq; try discriminate Hs; eauto.
Qed.

Lemma filter_head {A} (P : A → Prop) `{∀ x, Decision (P x)} (l : list A) x t :
  filter P l = x :: t → P x ∧ x ∈ l.
Proof.
  intros Hf. apply (list_elem_of_filter P). rewrite Hf. apply list_elem_of_here.
Qed.

Lemma filter_inhabited {A} (P : A → Prop) `{∀ x, Decision (P x)} (l : list A) x :
  x ∈ l → P x → ∃ y t, filter P l = y :: t.
Proof.
  intros Hx HP. destruct (filter P l) as [|y t] eqn:Hf; [|by eauto].
  by destruct (filter_nil_not_elem_of P l x).
Qed.

Lemma public_columns_id row : field (public_columns row) "id" = VNum (u_id row).
Proof. unfold field, public_columns. by rewrite lookup_insert_eq. Qed.

Lemma login_columns_id row : field (login_columns row) "id" = VNum (u_id row).
Proof.
  unfold field, login_columns. rewrite lookup_insert_ne by done.
  apply public_columns_id.
Qed.

Lemma login_columns_hash row :
  field (login_columns row) "password_hash" = VStr (u_password_hash row).
Proof. unfold field, login_columns. by rewrite lookup_insert_eq. Qed.

Lemma exists_present v : v ≠ VUndefined → exists_ v = true.
Proof. by destruct v. Qed.

Lemma login_validators_pass b :
  field b "username" ≠ VUndefined →
  field b "password" ≠ VUndefined →
  login_validators b = [].
Proof.
  intros Hu Hp. unfold login_validators, check. by rewrite !exists_present.
Qed.

Lemma login_validated cfg now b db :
  login_validators b = [] →
  login cfg now b db = (db, login_answer cfg now b db).
Proof.
  intros Hv. unfold login. rewrite Hv.
  unfold login_try, select_login_by_username, try_catch, bind, gets, lift, ret.
  unfold login_answer, invalid_credentials.
  destruct (bind_text (field b "username")) as [u|]; [|done].
  destruct (filter _ _) as [|row t]; [done|].
  rewrite fmap_cons, login_columns_hash, login_columns_id.
  by destruct (compare _ _) as [[]|].
Qed.

Lemma login_rejected cfg now b db :
  login_validators b ≠ [] →
  login cfg now b db = (db, json 400 (VObj {[ "errors" := VArr (login_validators b) ]})).
Proof. intros Hv. unfold login. by destruct (login_validators b). Qed.

Lemma login_ok cfg now b db db' r :
  login cfg now b db = (db', r) →
  status r = 200 →
  db' = db
  ∧ ∃ row, row ∈ users db
      ∧ bind_text (field b "username") = Some (u_username row)
      ∧ compare (field b "password") (VStr (u_password_hash row)) = Return true
      ∧ r = json 200 (VObj {[ "user" := VObj (sanitizeUser (login_columns row));
                              "token" := VStr (jwt_sign (VNum (u_id row)) (JWT_SECRET cfg)
                                                        seven_days now) ]}).
Proof.
  intros Hr Hs. destruct (decide (login_validators b = [])) as [Hv|Hv].
  - rewrite login_validated in Hr by done. unfold login_answer, invalid_credentials in Hr.
    destruct (bind_text (field b "username")) as [u|] eqn:Hu; [|by simplify_eq].
    destruct (filter _ _) as [|row t] eqn:Hf; [by simplify_eq|].
    apply filter_head in Hf as [<- Hin].
    destruct (compare _ _) as [[]|] eqn:Hc; simplify_eq; try done.
    split; [done|]. by exists row.
  - rewrite login_rejected in Hr by done. by simplify_eq.
Qed.

(** ** The middleware, read as one expression *)

Lemma authMiddleware_bearer cfg now auth db :
  auth ≠ "" →
  startsWith "Bearer " auth = true →
  authMiddleware cfg now (Some auth) db = (db, resolve cfg now auth db).
Proof.
  intros Hne Hp. unfold authMiddleware, resolve.
  rewrite bool_decide_false, Hp by done. cbn [orb negb].
  unfold try_catch, authMiddleware_try, bind, lift, ret, verified, select_user_by_id.
  destruct (jwt_verify _ _ _) as [e|c]; [done|].
  destruct (bind_int (userId c)) as [|n|]; [done| |done].
  by destruct (filter _ _).
Qed.

Lemma authMiddleware_no_bearer cfg now authorization db :
  match authorization with
  | Some auth => auth = "" ∨ startsWith "Bearer " auth = false
  | None => True
  end →
  authMiddleware cfg now authorization db = (db, no_token).
Proof.
  unfold authMiddleware. destruct authorization as [auth|]; [|done].
  intros [->|Hp]; [done|]. rewrite Hp. by rewrite orb_true_r.
Qed.

(** The middleware only reads the store. *)
Lemma authMiddleware_reads cfg now authorization db :
  (authMiddleware cfg now authorization db).1 = db.
Proof.
  destruct authorization as [auth|]; [|done].
  destruct (decide (auth = "")) as [->|Hne]; [done|].
  destruct (startsWith "Bearer " auth) eqn:Hp.
  - by rewrite authMiddleware_bearer.
  - rewrite authMiddleware_no_bearer; [done|by right].
Qed.

(** When the middleware calls [next()], [req.user] is the public columns
    of a row of [users]. *)
Lemma authMiddleware_next cfg now authorization db db' user :
  authMiddleware cfg now authorization db = (db', Next user) →
  db' = db ∧ ∃ row, row ∈ users db ∧ user = public_columns row.
Proof.
  intros Ha. pose proof (authMiddleware_reads cfg now authorization db) as Hdb.
  rewrite Ha in Hdb. simpl in Hdb. subst db'. split; [done|].
  destruct authorization as [auth|]; [|by simplify_eq].
  destruct (decide (auth = "")) as [->|Hne]; [by simplify_eq|].
  destruct (startsWith "Bearer " auth) eqn:Hp.
  - rewrite authMiddleware_bearer in Ha by done. unfold resolve in Ha.
    repeat case_match; simplify_eq.
    match goal with Hf : filter _ _ = _ |- _ => apply filter_head in Hf as [_ Hin] end.
    eauto.
  - rewrite authMiddleware_no_bearer in Ha; [by simplify_eq|by right].
Qed.

(** A header made of the scheme and a token without a space. *)
Lemma split_no_char c s : no_char c s → split c s = [s].
Proof.
  induction s as [|a s IH]; [done|]. intros [Hne Hs]. cbn [split].
  rewrite bool_decide_false by done. by rewrite IH.
Qed.

Lemma bearer_token_of_header t :
  no_char " " t → bearer_token ("Bearer " +:+ t) = Some t.
Proof.
  intros Ht. unfold bearer_token. simpl. change ("" +:+ t) with t.
  by rewrite (split_no_char _ _ Ht).
Qed.

(** When the middleware answers itself, the answer is a 401. *)
Lemma authMiddleware_reject cfg now authorization db db' r :
  authMiddleware cfg now authorization db = (db', Reject r) →
  db' = db ∧ status r = 401.
Proof.
  intros Ha. pose proof (authMiddleware_reads cfg now authorization db) as Hdb.
  rewrite Ha in Hdb. simpl in Hdb. subst db'. split; [done|].
  assert (Hno : (db, no_token) = (db, Reject r) → status r = 401).
  { unfold no_token. intros. by simplify_eq. }
  destruct authorization as [auth|];
    [|rewrite authMiddleware_no_bearer in Ha by done; auto].
  destruct (decide (auth = "")) as [->|Hne];
    [rewrite authMiddleware_no_bearer in Ha by (by left); auto|].
  destruct (startsWith "Bearer " auth) eqn:Hp.
  - rewrite authMiddleware_bearer in Ha by done. unfold resolve, invalid_token in Ha.
    repeat case_match; by simplify_eq.
  - rewrite authMiddleware_no_bearer in Ha; [auto|by right].
Qed.

Lemma me_ok cfg now authorization db :
  status (me cfg now authorization db).2 = 200 →
  ∃ row, row ∈ users db
    ∧ me cfg now authorization db
      = (db, json 200 (VObj {[ "user" := VObj (sanitizeUser (public_columns row)) ]})).
Proof.
  unfold me, protected, me_handler.
  destruct (authMiddleware cfg now authorization db) as [db' [r|user]] eqn:Ha.
  - apply authMiddleware_reject in Ha as [-> Hr]. cbn [snd]. rewrite Hr. done.
  - apply authMiddleware_next in Ha as (-> & row & Hin & ->). eauto.
Qed.

(** ** The identity routes *)

(** C1. Every successful answer of Register (201), Login (200) and
    [GET /api/me] (200) carries a user object that is the serialization of
    a [sanitizeUser] result: its keys are among id, username, email,
    display_name and created_at, and it has no [password_hash]. *)
Theorem user_objects_are_sanitized cfg now salt authorization b db :
  (status (register cfg now salt b db).2 = 201 →
   carries_sanitized_user (register cfg now salt b db).2)
  ∧ (status (login cfg now b db).2 = 200 →
     carries_sanitized_user (login cfg now b db).2)
  ∧ (status (me cfg now authorization db).2 = 200 →
     carries_sanitized_user (me cfg now authorization db).2).
Proof.
  split; [|split].
  - destruct (register cfg now salt b db) as [db' r] eqn:Hr. intros Hs.
    destruct (register_created _ _ _ _ _ _ _ Hr Hs) as [user ->].
    apply user_token_body.
  - destruct (login cfg now b db) as [db' r] eqn:Hr. intros Hs.
    destruct (login_ok _ _ _ _ _ _ Hr Hs) as (_ & row & _ & _ & _ & ->).
    apply user_token_body.
  - intros Hs. destruct (me_ok _ _ _ _ Hs) as (row & _ & ->). apply user_body.
Qed.

Lemma jwt_verify_signed (Hjwt : jwt_contract) n secret expiresIn now now' :
  now' < now + expiresIn →
  jwt_verify (Some (jwt_sign (VNum n) secret expiresIn now)) secret now'
  = inr (Claims (VNum n) now (Some (now + expiresIn))).
Proof.
  intros Hlt. unfold jwt_verify, jwt_sign.
  rewrite bool_decide_false by apply Hjwt.
  rewrite (jwt_decode_encode Hjwt). rewrite bool_decide_true by done.
  cbn [exp]. by rewrite bool_decide_false by lia.
Qed.

(** C2. A token issued by a successful Login, presented as
    [Authorization: Bearer <token>] before its expiry (seven days after it
    was issued) to a store that still has a row with the user's id, passes
    the middleware, which resolves it to a user with the id that logged in. *)
Theorem login_token_resolves (Hjwt : jwt_contract) cfg now b db db1 r :
  login cfg now b db = (db1, r) →
  status r = 200 →
  ∃ token row,
    response_token r = Some token
    ∧ row ∈ users db
    ∧ bind_text (field b "username") = Some (u_username row)
    ∧ response_user r ≫= (.!! "id") = Some (VNum (u_id row))
    ∧ ∀ now' db',
        now' < now + seven_days →
        (∃ row', row' ∈ users db' ∧ u_id row' = u_id row) →
        ∃ user,
          authMiddleware cfg now' (Some ("Bearer " +:+ token)) db' = (db', Next user)
          ∧ field user "id" = VNum (u_id row).
Proof.
  intros Hr Hs. destruct (login_ok _ _ _ _ _ _ Hr Hs) as (_ & row & Hin & Hu & _ & ->).
  exists (jwt_sign (VNum (u_id row)) (JWT_SECRET cfg) seven_days now), row.
  split; [|split; [done|split; [done|split]]].
  - unfold response_token, json. cbn [body]. rewrite to_json_object, lookup_omap.
    rewrite lookup_insert_ne by done. by rewrite lookup_singleton_eq.
  - unfold response_user, json. cbn [body]. rewrite to_json_object, lookup_omap.
    rewrite lookup_insert_eq. cbn [mbind option_bind]. rewrite json_property_object.
    cbn [mbind option_bind]. rewrite lookup_omap. unfold sanitizeUser.
    rewrite lookup_insert_eq, login_columns_id. reflexivity.
  - intros now' db' Hlt (row' & Hin' & Hid).
    rewrite authMiddleware_bearer; [|done|done]. unfold resolve.
    rewrite bearer_token_of_header by apply Hjwt.
    rewrite (jwt_verify_signed Hjwt) by done. cbn [userId bind_int].
    destruct (filter_inhabited (λ r, u_id r = u_id row) (users db') row' Hin' Hid)
      as (y & t & Hf).
    rewrite Hf. apply filter_head in Hf as [Hy _].
    exists (public_columns y). split; [done|]. by rewrite public_columns_id, Hy.
Qed.

(** C3. On a header that starts with [Bearer ], a token that is malformed,
    or has an invalid signature, or has expired, or whose subject matches
    no row of [users], gets the one answer 401 [invalid token]; an expired
    token gets it although its signature is the right one. *)
Theorem bad_tokens_get_one_answer cfg now auth db :
  auth ≠ "" →
  startsWith "Bearer " auth = true →
  let token := bearer_token auth in
  let secret := JWT_SECRET cfg in
  (jwt_verify token secret now = inl JwtMalformed
   ∨ jwt_verify token secret now = inl JwtInvalidSignature
   ∨ jwt_verify token secret now = inl JwtExpired
   ∨ (∃ c, jwt_verify token secret now = inr c
           ∧ ∀ row, row ∈ users db → bind_int (userId c) ≠ Bound (u_id row))
   → authMiddleware cfg now (Some auth) db = (db, invalid_token))
  ∧ (∀ t c e, token = Some t → t ≠ "" →
       jwt_decode t = Some (c, hs256 secret c) → exp c = Some e → e ≤ now →
       jwt_verify token secret now = inl JwtExpired
       ∧ authMiddleware cfg now (Some auth) db = (db, invalid_token)).
Proof.
  intros Hne Hp token secret.
  assert (Herr : ∀ e, jwt_verify token secret now = inl e →
                      authMiddleware cfg now (Some auth) db = (db, invalid_token)).
  { intros e He. rewrite authMiddleware_bearer by done. unfold resolve.
    fold token secret. by rewrite He. }
  split.
  - intros [He|[He|[He|(c & Hc & Hrows)]]]; try by eapply Herr.
    rewrite authMiddleware_bearer by done. unfold resolve. fold token secret.
    rewrite Hc. destruct (bind_int (userId c)) as [|n|] eqn:Hb; [done| |done].
    destruct (filter _ _) as [|row t] eqn:Hf; [done|].
    apply filter_head in Hf as [Hid Hin]. destruct (Hrows row Hin). by rewrite Hid.
  - intros t c e Ht Hte Hd He Hle.
    assert (Hx : jwt_verify token secret now = inl JwtExpired).
    { rewrite Ht. unfold jwt_verify. rewrite bool_decide_false by done.
      rewrite Hd, bool_decide_true by done. rewrite He. by rewrite bool_decide_true. }
    split; [done|]. by eapply Herr.
Qed.

Lemma filter_all {A} (P : A → Prop) `{∀ x, Decision (P x)} (l : list A) :
  (∀ x, x ∈ l → P x) → filter P l = l.
Proof.
  induction l as [|x l IH]; [done|]. intros Hall.
  rewrite filter_cons_True by (apply Hall; left).
  f_equal. apply IH. intros y Hy. apply Hall. by right.
Qed.

Lemma message_response st msg :
  status (json st (message msg)) = st
  ∧ response_message (json st (message msg)) = Some msg.
Proof.
  split; [done|]. unfold response_message, json, message. cbn [body].
  rewrite to_json_object, lookup_omap. by rewrite lookup_singleton_eq.
Qed.

Lemma filter_none {A} (P : A → Prop) `{∀ x, Decision (P x)} (l : list A) :
  (∀ x, x ∈ l → ¬ P x) → filter P l = [].
Proof.
  intros Hn. destruct (filter P l) as [|y t] eqn:Hf; [done|].
  apply filter_head in Hf as [HP Hin]. by destruct (Hn y Hin).
Qed.

(** When [bcrypt.compare] returns false (the password is a string, and a
    wrong one), a Login with the username of a user gets the answer of a
    Login with a username that matches no user: status 401 and the message
    [invalid credentials]. *)
Lemma wrong_password_as_unknown_username cfg now b1 b2 db :
  field b1 "username" ≠ VUndefined →
  field b1 "password" ≠ VUndefined →
  (∀ row, row ∈ users db → bind_text (field b1 "username") ≠ Some (u_username row)) →
  (∃ row, row ∈ users db ∧ bind_text (field b2 "username") = Some (u_username row)) →
  (∀ row, row ∈ users db →
     bind_text (field b2 "username") = Some (u_username row) →
     compare (field b2 "password") (VStr (u_password_hash row)) = Return false) →
  login cfg now b1 db = (db, json 401 (message "invalid credentials"))
  ∧ login cfg now b2 db = login cfg now b1 db
  ∧ status (login cfg now b2 db).2 = 401
  ∧ response_message (login cfg now b2 db).2 = Some "invalid credentials".
Proof.
  intros Hu1 Hp1 Hnone (row & Hin & Hu2) Hwrong.
  assert (H1 : login cfg now b1 db = (db, invalid_credentials)).
  { rewrite login_validated by by apply login_validators_pass.
    unfold login_answer. destruct (bind_text _) as [u|] eqn:Hb; [|done].
    rewrite filter_none; [done|]. intros x Hx <-. by destruct (Hnone x Hx). }
  assert (H2 : login cfg now b2 db = (db, invalid_credentials)).
  { pose proof (Hwrong row Hin Hu2) as Hc.
    rewrite login_validated.
    - unfold login_answer. rewrite Hu2.
      destruct (filter_inhabited (λ r, u_username r = u_username row) (users db) row Hin)
        as (y & t & Hf); [done|].
      rewrite Hf. apply filter_head in Hf as [Hy Hiny].
      by rewrite (Hwrong y Hiny) by (by rewrite Hu2, Hy).
    - apply login_validators_pass.
      + intros Eu. by rewrite Eu in Hu2.
      + intros Ep. by rewrite Ep in Hc. }
  rewrite H2, H1. repeat split; apply message_response.
Qed.

(** C5 fails on the code.  With a password that is present and is not a
    string (a JSON number, say), a Login with a username that matches no
    user is answered 401 [invalid credentials], and a Login with the same
    password and the username of a user is answered 500 [internal error]:
    [bcrypt.compare] throws and the [catch] of the handler answers.  The
    two answers differ, and tell whether the username exists. *)
Theorem non_string_password_reveals_username cfg now b1 b2 db :
  field b1 "username" ≠ VUndefined →
  (∀ row, row ∈ users db → bind_text (field b1 "username") ≠ Some (u_username row)) →
  (∃ row, row ∈ users db ∧ bind_text (field b2 "username") = Some (u_username row)) →
  field b1 "password" = field b2 "password" →
  field b2 "password" ≠ VUndefined →
  (∀ p, field b2 "password" ≠ VStr p) →
  login cfg now b1 db = (db, json 401 (message "invalid credentials"))
  ∧ login cfg now b2 db = (db, json 500 (message "internal error"))
  ∧ status (login cfg now b1 db).2 = 401
  ∧ status (login cfg now b2 db).2 = 500
  ∧ response_message (login cfg now b1 db).2 = Some "invalid credentials"
  ∧ response_message (login cfg now b2 db).2 = Some "internal error".
Proof.
  intros Hu1 Hnone (row & Hin & Hu2) Hsame Hp2 Hns.
  assert (H1 : login cfg now b1 db = (db, invalid_credentials)).
  { rewrite login_validated
      by (apply login_validators_pass; [done|by rewrite Hsame]).
    unfold login_answer. destruct (bind_text _) as [u|] eqn:Hb; [|done].
    rewrite filter_none; [done|]. intros x Hx <-. by destruct (Hnone x Hx). }
  assert (H2 : login cfg now b2 db = (db, json 500 (message "internal error"))).
  { rewrite login_validated.
    - unfold login_answer. rewrite Hu2.
      destruct (filter_inhabited (λ r, u_username r = u_username row) (users db) row Hin)
        as (y & t & Hf); [done|].
      rewrite Hf. unfold compare.
      destruct (field b2 "password") as [| | | |p| |]; try done. by destruct (Hns p).
    - apply login_validators_pass; [|done].
      intros Eu. by rewrite Eu in Hu2. }
  rewrite H2, H1. repeat split; apply message_response.
Qed.

(** ** Register *)

Lemma register_rejected cfg now salt b db :
  register_validators b ≠ [] →
  register cfg now salt b db
  = (db, json 400 (VObj {[ "errors" := VArr (register_validators b) ]})).
Proof. intros Hv. unfold register. by destruct (register_validators b). Qed.

Lemma register_mismatch cfg now salt b db :
  register_validators b = [] →
  strict_eq (field b "password") (field b "confirmPassword") = false →
  register cfg now salt b db = (db, json 400 (message "passwords do not match")).
Proof. intros Hv Hm. unfold register. by rewrite Hv, Hm. Qed.

Lemma register_username_taken cfg now salt b db row :
  well_formed_registration b →
  row ∈ users db →
  bind_text (field b "username") = Some (u_username row) →
  register cfg now salt b db = (db, json 400 (message "username already taken")).
Proof.
  intros [Hv Hm] Hin Hu. unfold register. rewrite Hv, Hm. cbn [negb].
  unfold register_try, select_id_by_username, try_catch, bind, gets, ret.
  rewrite Hu.
  destruct (filter_inhabited (λ r, u_username r = u_username row) (users db) row Hin)
    as (y & t & ->); done.
Qed.

Lemma register_email_used cfg now salt b db row :
  well_formed_registration b →
  (∀ r, r ∈ users db → bind_text (field b "username") ≠ Some (u_username r)) →
  row ∈ users db →
  bind_text (field b "email") = Some (u_email row) →
  register cfg now salt b db = (db, json 400 (message "email already used")).
Proof.
  intros [Hv Hm] Hfree Hin He. unfold register. rewrite Hv, Hm. cbn [negb].
  unfold register_try, select_id_by_username, select_id_by_email, try_catch, bind, gets, ret.
  rewrite He.
  assert (Hnone : match bind_text (field b "username") with
                  | Some u => (id_object ∘ u_id) <$> filter (λ r, u_username r = u) (users db)
                  | None => []
                  end = []).
  { destruct (bind_text (field b "username")) as [u|] eqn:Hu; [|done].
    rewrite filter_none; [done|]. intros x Hx <-. by destruct (Hfree x Hx). }
  rewrite Hnone.
  destruct (filter_inhabited (λ r, u_email r = u_email row) (users db) row Hin)
    as (y & t & ->); done.
Qed.

(** A request that is not well formed is answered 400 and changes nothing. *)
Lemma register_ill_formed cfg now salt b db :
  ¬ well_formed_registration b →
  (register cfg now salt b db).1 = db ∧ status (register cfg now salt b db).2 = 400.
Proof.
  intros Hw. destruct (decide (register_validators b = [])) as [Hv|Hv].
  - destruct (strict_eq (field b "password") (field b "confirmPassword")) eqn:Hm.
    + by destruct Hw.
    + by rewrite register_mismatch.
  - by rewrite register_rejected.
Qed.

(** C6. When a user with the username of a Register request exists, the
    request is answered 400 and no row is inserted, whatever its email,
    and the message is [username already taken] when the request is well
    formed.  When a user with its email exists, the same holds with the
    message [email already used] for a username that is free, and with
    [username already taken] for a username that is taken too: the
    username is looked up first. *)
Theorem duplicate_registration_conflicts cfg now salt b db row :
  row ∈ users db →
  (field b "username" = VStr (u_username row) →
     (register cfg now salt b db).1 = db
     ∧ status (register cfg now salt b db).2 = 400
     ∧ (well_formed_registration b →
        register cfg now salt b db = (db, json 400 (message "username already taken"))
        ∧ response_message (register cfg now salt b db).2 = Some "username already taken"))
  ∧ (field b "email" = VStr (u_email row) →
     (register cfg now salt b db).1 = db
     ∧ status (register cfg now salt b db).2 = 400
     ∧ (well_formed_registration b →
        (∀ r, r ∈ users db → bind_text (field b "username") ≠ Some (u_username r)) →
        register cfg now salt b db = (db, json 400 (message "email already used"))
        ∧ response_message (register cfg now salt b db).2 = Some "email already used")
     ∧ (well_formed_registration b →
        (∃ r, r ∈ users db ∧ bind_text (field b "username") = Some (u_username r)) →
        register cfg now salt b db = (db, json 400 (message "username already taken")))).
Proof.
  intros Hin. split.
  - intros Hu.
    assert (Hb : bind_text (field b "username") = Some (u_username row)) by by rewrite Hu.
    destruct (decide (well_formed_registration b)) as [Hw|Hw].
    + rewrite (register_username_taken _ _ _ _ _ row) by done.
      repeat split; apply message_response.
    + destruct (register_ill_formed cfg now salt b db Hw) as [Hdb Hst]. by repeat split.
  - intros He.
    assert (Hb : bind_text (field b "email") = Some (u_email row)) by by rewrite He.
    assert (Htaken : well_formed_registration b →
              (∃ r, r ∈ users db ∧ bind_text (field b "username") = Some (u_username r)) →
              register cfg now salt b db
              = (db, json 400 (message "username already taken"))).
    { intros Hw (r & Hr & Hu). by apply (register_username_taken _ _ _ _ _ r). }
    destruct (decide (well_formed_registration b)) as [Hw|Hw];
      [|destruct (register_ill_formed cfg now salt b db Hw) as [Hdb Hst]; by repeat split].
    destruct (decide (Exists (λ r, bind_text (field b "username") = Some (u_username r))
                             (users db))) as [Hex|Hex].
    + apply Exists_exists in Hex as (r & Hr & Hu).
      rewrite (register_username_taken _ _ _ _ _ r) by done.
      split; [done|split; [done|split; [|done]]].
      intros _ Hfree. by destruct (Hfree r Hr).
    + assert (Hfree : ∀ r, r ∈ users db →
                           bind_text (field b "username") ≠ Some (u_username r)).
      { intros r Hr Hu. apply Hex, Exists_exists. eauto. }
      rewrite (register_email_used _ _ _ _ _ row) by done.
      split; [done|split; [done|split]].
      * intros _ _. split; [done|]. apply message_response.
      * intros _ (r & Hr & Hu). by destruct (Hfree r Hr).
Qed.

(** *** What a body reports *)

Lemma to_json_array (l : list value) : to_json (VArr l) = VArr (map json_element l).
Proof. reflexivity. Qed.

Lemma entry_msg_validation_error path v msg :
  entry_msg (json_element (validation_error path v msg)) = Some msg.
Proof.
  unfold validation_error, json_element. rewrite to_json_object. cbn [entry_msg].
  rewrite lookup_omap. do 2 rewrite lookup_insert_ne by done.
  by rewrite lookup_insert_eq.
Qed.

Lemma reported_check ok path b msg :
  omap entry_msg (map json_element (check ok path b msg)) = if ok then [] else [msg].
Proof.
  unfold check. destruct ok; [done|]. cbn [map omap list_omap].
  by rewrite entry_msg_validation_error.
Qed.

Lemma reported_errors st errors :
  reported (json st (VObj {[ "errors" := VArr errors ]}))
  = omap entry_msg (map json_element errors).
Proof.
  unfold reported, json. cbn [body]. rewrite to_json_object, !lookup_omap.
  rewrite lookup_singleton_ne by done. rewrite lookup_singleton_eq.
  cbn [mbind option_bind app]. unfold json_property. by rewrite to_json_array.
Qed.

Lemma reported_message st msg : reported (json st (message msg)) = [msg].
Proof.
  unfold reported, json, message. cbn [body]. rewrite to_json_object, !lookup_omap.
  rewrite (lookup_singleton_ne "message" "errors") by done.
  by rewrite lookup_singleton_eq.
Qed.

(** On a field that is not an array a standard validator is run once. *)
Lemma standard_plain test path b msg :
  is_array (field b path) = false →
  standard test path b msg = check (test (field b path)) path b msg.
Proof.
  intros Hp. unfold standard, check, validated_values.
  destruct (field b path); try discriminate; cbn; by rewrite app_nil_r.
Qed.

(** On the empty array a standard validator is not run. *)
Lemma standard_empty test path b msg :
  field b path = VArr [] → standard test path b msg = [].
Proof. intros Hp. unfold standard. by rewrite Hp. Qed.

(** On an array a standard validator passes when every element passes. *)
Lemma standard_array test path b msg l :
  field b path = VArr l →
  standard test path b msg = [] ↔ Forall (λ x, test x = true) l.
Proof.
  intros Hp. unfold standard. rewrite Hp. cbn [validated_values]. clear Hp.
  induction l as [|x l IH]; [done|]. cbn [mbind list_bind]. rewrite Forall_cons.
  destruct (test x); cbn [app].
  - rewrite IH. intuition.
  - split; [done|]. by intros [? _].
Qed.

Lemma register_validators_plain b :
  plain_fields b →
  register_validators b
  = check (isLength 3 (field b "username")) "username" b "username min 3 chars"
    ++ check (is_email (field b "email")) "email" b "invalid email"
    ++ check (isLength 6 (field b "password")) "password" b "password min 6 chars"
    ++ check (exists_ (field b "confirmPassword")) "confirmPassword" b "Invalid value".
Proof.
  intros (Hu & He & Hp). unfold register_validators. by rewrite !standard_plain.
Qed.

Lemma reported_validators st b :
  plain_fields b →
  reported (json st (VObj {[ "errors" := VArr (register_validators b) ]}))
  = validator_messages b.
Proof.
  intros Hp. rewrite reported_errors, register_validators_plain by done.
  unfold validator_messages, field_violations, is_email.
  rewrite !map_app, !omap_app, !reported_check. by rewrite <- !(assoc_L (++)).
Qed.

Lemma validators_pass_iff b :
  plain_fields b → register_validators b = [] ↔ validator_messages b = [].
Proof.
  intros Hp. rewrite register_validators_plain by done.
  unfold validator_messages, field_violations, check, is_email.
  destruct (isLength 3 _), (isEmail _), (isLength 6 _), (exists_ _); cbn; split; done.
Qed.

(** C7, as the code has it.  A Register request whose username, email
    and password are not arrays and that violates a structural constraint
    is answered 400 and leaves the store alone.  When a validator fails
    (username length, email syntax, password length, presence of
    confirmPassword) the body reports exactly the failing validators, all
    of them, and says nothing of the two passwords; when they all pass,
    the body reports the mismatch of the passwords, alone. *)
Theorem violations_are_rejected cfg now salt b db :
  plain_fields b →
  violations b ≠ [] →
  (register cfg now salt b db).1 = db
  ∧ status (register cfg now salt b db).2 = 400
  ∧ (validator_messages b ≠ [] →
     reported (register cfg now salt b db).2 = validator_messages b
     ∧ field_violations b ⊆ reported (register cfg now salt b db).2)
  ∧ (validator_messages b = [] →
     reported (register cfg now salt b db).2 = ["passwords do not match"]).
Proof.
  intros Hplain Hviol. destruct (decide (validator_messages b = [])) as [Hv|Hv].
  - pose proof (proj2 (validators_pass_iff b Hplain) Hv) as Hv'.
    assert (Hm : strict_eq (field b "password") (field b "confirmPassword") = false).
    { unfold violations, match_violations, validator_messages in *.
      apply app_eq_nil in Hv as [Hf _]. rewrite Hf in Hviol.
      by destruct (strict_eq _ _). }
    rewrite register_mismatch by done.
    split; [done|split; [done|split]]; [done|].
    intros _. apply reported_message.
  - assert (Hv' : register_validators b ≠ []) by by rewrite validators_pass_iff.
    rewrite register_rejected by done. cbn [fst snd]. rewrite reported_validators by done.
    split; [done|split; [done|split]]; [|done].
    intros _. split; [done|].
    unfold validator_messages. intros x Hx. apply elem_of_app. by left.
Qed.

(** ** The signing secret *)

(** C4, as the code has it.  With no [JWT_SECRET] in the environment the
    server signs with the default secret [change_this_secret]: a Login
    that succeeds returns a token signed with it. *)
Theorem absent_secret_falls_back env :
  env !! "JWT_SECRET" = None →
  JWT_SECRET (load_config env) = "change_this_secret"
  ∧ ∀ now b db db' r,
      login (load_config env) now b db = (db', r) →
      status r = 200 →
      ∃ row, row ∈ users db
        ∧ response_token r
          = Some (jwt_sign (VNum (u_id row)) "change_this_secret" seven_days now).
Proof.
  intros Habs.
  assert (Hs : JWT_SECRET (load_config env) = "change_this_secret").
  { unfold load_config, env_or. cbn [JWT_SECRET]. by rewrite Habs. }
  split; [done|]. intros now b db db' r Hr Hst.
  destruct (login_ok _ _ _ _ _ _ Hr Hst) as (_ & row & Hin & _ & _ & ->).
  exists row. split; [done|]. rewrite Hs.
  unfold response_token, json. cbn [body]. rewrite to_json_object, lookup_omap.
  rewrite lookup_insert_ne by done. by rewrite lookup_singleton_eq.
Qed.

(** ** The saved list *)

Lemma protected_next cfg now authorization handler db user :
  authMiddleware cfg now authorization db = (db, Next user) →
  protected cfg now authorization handler db = handler user db.
Proof. intros Ha. unfold protected. by rewrite Ha. Qed.

(** The middleware looks at the table of users only. *)
Lemma authMiddleware_users cfg now authorization db db2 :
  users db2 = users db →
  (authMiddleware cfg now authorization db2).2 = (authMiddleware cfg now authorization db).2.
Proof.
  intros Hu. destruct authorization as [auth|]; [|done].
  destruct (decide (auth = "")) as [->|Hne]; [done|].
  destruct (startsWith "Bearer " auth) eqn:Hp.
  - rewrite !authMiddleware_bearer by done. unfold resolve. by rewrite Hu.
  - rewrite !authMiddleware_no_bearer; [done|by right..].
Qed.

Lemma authMiddleware_next_users cfg now authorization db db2 user :
  users db2 = users db →
  authMiddleware cfg now authorization db = (db, Next user) →
  authMiddleware cfg now authorization db2 = (db2, Next user).
Proof.
  intros Hu Ha. pose proof (authMiddleware_users cfg now authorization db db2 Hu) as H2.
  pose proof (authMiddleware_reads cfg now authorization db2) as H1.
  rewrite Ha in H2. destruct (authMiddleware cfg now authorization db2). simpl in *.
  by subst.
Qed.

Lemma mymovies_handler_lists user a db :
  field user "id" = VNum a →
  mymovies_handler user db
  = (db, json 200 (VObj {[ "movies" :=
       VArr (VObj <$> (saved_columns <$>
               merge_sort newest_first (filter (owned_by a) (saved_movies db)))) ]})).
Proof.
  intros Hid. unfold mymovies_handler, select_saved_by_user, try_catch, bind, ret.
  by rewrite Hid.
Qed.

Lemma delete_handler_bound user a movieId m db :
  field user "id" = VNum a →
  movieId ≠ "" →
  int4in movieId = Some m →
  delete_handler movieId user db
  = (Database (users db) (users_id_seq db)
              (filter (λ r, ¬ saved_by a m r) (saved_movies db))
              (saved_movies_id_seq db),
     match filter (saved_by a m) (saved_movies db) with
     | [] => json 404 (message "movie not found")
     | _ :: _ => json 200 (message "movie removed")
     end).
Proof.
  intros Hid Hne Hm. unfold delete_handler. rewrite bool_decide_false by done.
  unfold delete_saved_movie, try_catch, bind, ret. rewrite Hid. cbn [bind_int].
  rewrite Hm. cbn [from_option]. by destruct (filter _ _).
Qed.

Lemma delete_handler_unbound user a movieId :
  field user "id" = VNum a →
  movieId = "" ∨ int4in movieId = None →
  ∃ r, ∀ db, delete_handler movieId user db = (db, r).
Proof.
  intros Hid Hc. destruct (decide (movieId = "")) as [->|Hne]; [by eexists|].
  destruct Hc as [?|Hm]; [done|].
  exists (json 500 (message "delete failed")). intros db. unfold delete_handler.
  rewrite bool_decide_false by done.
  unfold delete_saved_movie, try_catch, bind, ret.
  rewrite Hid. cbn [bind_int]. by rewrite Hm.
Qed.

Lemma saved_by_split a m (l : list saved_row) :
  filter (saved_by a m) l = filter (λ r, sm_movie_id r = m) (filter (owned_by a) l).
Proof.
  rewrite list_filter_filter. apply list_filter_iff. intros r.
  unfold saved_by, owned_by. tauto.
Qed.

Lemma delete_handler_keeps_others user a movieId db r :
  field user "id" = VNum a →
  r ∈ saved_movies db →
  ¬ owned_by a r →
  r ∈ saved_movies (delete_handler movieId user db).1.
Proof.
  intros Hid Hin Hown.
  destruct (decide (movieId = "")) as [Hm|Hm];
    [destruct (delete_handler_unbound user a movieId Hid) as [x Hx]; [by left|];
     by rewrite Hx|].
  destruct (int4in movieId) as [m|] eqn:Hi;
    [|destruct (delete_handler_unbound user a movieId Hid) as [x Hx]; [by right|];
      by rewrite Hx].
  rewrite (delete_handler_bound user a movieId m) by done. cbn [fst saved_movies].
  apply list_elem_of_filter. split; [|done]. intros [Ho _]. by apply Hown.
Qed.

Lemma delete_handler_answer user a movieId db db2 :
  field user "id" = VNum a →
  filter (owned_by a) (saved_movies db2) = filter (owned_by a) (saved_movies db) →
  (delete_handler movieId user db2).2 = (delete_handler movieId user db).2.
Proof.
  intros Hid Hsame.
  destruct (decide (movieId = "")) as [Hm|Hm];
    [destruct (delete_handler_unbound user a movieId Hid) as [x Hx]; [by left|];
     by rewrite !Hx|].
  destruct (int4in movieId) as [m|] eqn:Hi;
    [|destruct (delete_handler_unbound user a movieId Hid) as [x Hx]; [by right|];
      by rewrite !Hx].
  rewrite !(delete_handler_bound user a movieId m) by done. cbn [snd].
  by rewrite !saved_by_split, Hsame.
Qed.

(** C8. For a request the middleware lets through as user [a]: the list
    of saved movies is made of the rows of [saved_movies] owned by [a] and
    of no other row; a Delete of a movie id for which [a] owns no row is
    answered 404 [movie not found], whoever else owns a row with that id;
    no Delete removes a row of another user; and the answer of a Delete
    does not depend on the rows of the other users. *)
Theorem saved_rows_are_scoped cfg now authorization db user :
  authMiddleware cfg now authorization db = (db, Next user) →
  ∃ a, field user "id" = VNum a
    ∧ (∃ rows,
         mymovies cfg now authorization db
         = (db, json 200 (VObj {[ "movies" := VArr (VObj <$> (saved_columns <$> rows)) ]}))
         ∧ rows ≡ₚ filter (owned_by a) (saved_movies db)
         ∧ ∀ r, r ∈ rows → owned_by a r ∧ r ∈ saved_movies db)
    ∧ (∀ movieId m,
         movieId ≠ "" → int4in movieId = Some m →
         (∀ r, r ∈ saved_movies db → sm_movie_id r = m → ¬ owned_by a r) →
         delete_movie cfg now authorization movieId db
         = (db, json 404 (message "movie not found")))
    ∧ (∀ movieId r,
         r ∈ saved_movies db → ¬ owned_by a r →
         r ∈ saved_movies (delete_movie cfg now authorization movieId db).1)
    ∧ (∀ movieId db2,
         users db2 = users db →
         filter (owned_by a) (saved_movies db2) = filter (owned_by a) (saved_movies db) →
         (delete_movie cfg now authorization movieId db2).2
         = (delete_movie cfg now authorization movieId db).2).
Proof.
  intros Ha. destruct (authMiddleware_next _ _ _ _ _ _ Ha) as (_ & row & _ & ->).
  exists (u_id row). pose proof (public_columns_id row) as Hid.
  split; [done|]. split; [|split; [|split]].
  - exists (merge_sort newest_first (filter (owned_by (u_id row)) (saved_movies db))).
    split; [|split].
    + unfold mymovies. rewrite (protected_next _ _ _ _ _ _ Ha).
      by apply mymovies_handler_lists.
    + apply merge_sort_Permutation.
    + intros r Hr. rewrite merge_sort_Permutation in Hr.
      by apply list_elem_of_filter in Hr.
  - intros movieId m Hne Hm Hnone. unfold delete_movie.
    rewrite (protected_next _ _ _ _ _ _ Ha).
    rewrite (delete_handler_bound _ (u_id row) movieId m) by done.
    assert (Hf : filter (saved_by (u_id row) m) (saved_movies db) = []).
    { apply filter_none. intros r Hr [Ho Hmv]. by apply (Hnone r). }
    rewrite Hf. f_equal. destruct db as [us useq sm smseq]. cbn in *. f_equal.
    apply filter_all. intros r Hr [Ho Hmv]. by apply (Hnone r).
  - intros movieId r Hr Hown. unfold delete_movie.
    rewrite (protected_next _ _ _ _ _ _ Ha). by eapply delete_handler_keeps_others.
  - intros movieId db2 Hu Hsame. unfold delete_movie.
    rewrite (protected_next _ _ _ _ _ _ Ha).
    rewrite (protected_next _ _ _ _ _ _ (authMiddleware_next_users _ _ _ _ _ _ Hu Ha)).
    by eapply delete_handler_answer.
Qed.

Lemma save_handler_inserts now b user a m db :
  field user "id" = VNum a →
  truthy (field b "movie_id") = true →
  truthy (field b "title") = true →
  bind_int (field b "movie_id") = Bound m →
  let new := SavedRow (saved_movies_id_seq db) a m (bind_text (field b "title"))
                      (bind_text (field b "year")) (bind_text (field b "poster")) now in
  save_handler now b user db
  = (Database (users db) (users_id_seq db) (saved_movies db ++ [new])
              (saved_movies_id_seq db + 1),
     json 201 (VObj {[ "movie" := VObj (saved_columns new) ]})).
Proof.
  intros Hid Hm Ht Hb new. unfold save_handler. rewrite Hm, Ht. cbn [negb orb].
  unfold insert_saved_movie, try_catch, bind, ret. rewrite Hid, Hb. done.
Qed.

(** C10. For a user who already has a row for a movie id, a Save with the
    same movie id is answered 201 and appends one more row of that user
    and movie, so that two or more are stored; one Delete of that movie id
    then removes them all, and only them, and is answered 200. *)
Theorem saves_are_not_deduplicated cfg now authorization db user b movieId m :
  authMiddleware cfg now authorization db = (db, Next user) →
  truthy (field b "movie_id") = true →
  truthy (field b "title") = true →
  bind_int (field b "movie_id") = Bound m →
  movieId ≠ "" →
  int4in movieId = Some m →
  ∃ a, field user "id" = VNum a
    ∧ ((∃ r, r ∈ saved_movies db ∧ saved_by a m r) →
       ∃ db1 new db2,
         save cfg now authorization b db
         = (db1, json 201 (VObj {[ "movie" := VObj (saved_columns new) ]}))
         ∧ saved_by a m new
         ∧ saved_movies db1 = saved_movies db ++ [new]
         ∧ (2 ≤ length (filter (saved_by a m) (saved_movies db1)))%nat
         ∧ delete_movie cfg now authorization movieId db1
           = (db2, json 200 (message "movie removed"))
         ∧ saved_movies db2 = filter (λ r, ¬ saved_by a m r) (saved_movies db)
         ∧ filter (saved_by a m) (saved_movies db2) = []).
Proof.
  intros Ha Hmid Htitle Hb Hne Hm.
  destruct (authMiddleware_next _ _ _ _ _ _ Ha) as (_ & row & _ & ->).
  exists (u_id row). pose proof (public_columns_id row) as Hid.
  split; [done|]. intros (r & Hr & Hby).
  set (new := SavedRow (saved_movies_id_seq db) (u_id row) m (bind_text (field b "title"))
                       (bind_text (field b "year")) (bind_text (field b "poster")) now).
  set (db1 := Database (users db) (users_id_seq db) (saved_movies db ++ [new])
                       (saved_movies_id_seq db + 1)).
  assert (Hnew : saved_by (u_id row) m new) by done.
  assert (Ha1 : authMiddleware cfg now authorization db1 = (db1, Next (public_columns row)))
    by by apply (authMiddleware_next_users _ _ _ db).
  exists db1, new. eexists. split; [|split; [done|split; [done|split; [|split; [|split]]]]].
  - unfold save. rewrite (protected_next _ _ _ _ _ _ Ha).
    by apply save_handler_inserts.
  - cbn [db1 saved_movies]. rewrite filter_app, length_app.
    rewrite (filter_cons_True _ new) by done. cbn [length filter list_filter].
    destruct (filter_inhabited (saved_by (u_id row) m) (saved_movies db) r Hr Hby)
      as (y & t & ->). cbn [length]. lia.
  - unfold delete_movie. rewrite (protected_next _ _ _ _ _ _ Ha1).
    rewrite (delete_handler_bound _ (u_id row) movieId m) by done.
    cbn [db1 saved_movies]. rewrite (filter_app (saved_by (u_id row) m)).
    rewrite (filter_cons_True (saved_by (u_id row) m) new) by done.
    by destruct (filter (saved_by (u_id row) m) (saved_movies db)).
  - cbn [db1 saved_movies]. rewrite filter_app.
    rewrite (filter_cons_False _ new) by (by intros Hn; apply Hn).
    by rewrite filter_nil, app_nil_r.
  - apply filter_none. intros x Hx Hbx.
    apply list_elem_of_filter in Hx as [Hn _]. by apply Hn.
Qed.

(** ** The catalog proxy *)

Lemma split_head c s :
  ∃ y t, split c s = y :: t
         ∧ no_char c y
         ∧ (s = y ∨ ∃ rest, s = y +:+ String c rest).
Proof.
  induction s as [|a s (y & t & Hs & Hy & Hrest)].
  - exists "", []. split; [done|]. split; [done|]. by left.
  - cbn [split]. case_bool_decide as Hac.
    + subst a. exists "", (split c s). split; [done|]. split; [done|].
      right. by exists s.
    + rewrite Hs. exists (String a y), t. split; [done|]. split; [done|].
      destruct Hrest as [->|[rest ->]]; [by left|]. right. by exists rest.
Qed.

Lemma optional_split_first_year release_date year :
  optional_split_first "-" release_date = Return year →
  match release_date with
  | VStr s => ∃ y, year = VStr y ∧ before_first_dash s y
  | VUndefined | VNull => year = VUndefined
  | _ => False
  end.
Proof.
  destruct release_date as [| | | |s| |]; cbn [optional_split_first];
    intros Hy; simplify_eq; try done.
  destruct (split_head "-" s) as (y & t & Hs & Hno & Hrest).
  rewrite Hs. exists y. by repeat split.
Qed.

Lemma json_property_poster_url p : json_property (poster_url p) = Some (poster_url p).
Proof. unfold poster_url. by destruct (truthy p). Qed.

Lemma poster_url_follows p (o : object) :
  o !! "poster" = Some (poster_url p) → poster_follows p o.
Proof. unfold poster_follows, poster_url. by destruct (truthy p). Qed.

Lemma year_follows_lookup release_date year (o : object) :
  optional_split_first "-" release_date = Return year →
  o !! "year" = json_property year →
  year_follows release_date o.
Proof.
  intros Hy Ho. apply optional_split_first_year in Hy. unfold year_follows.
  destruct release_date as [| | | |s| |]; try done.
  - by rewrite Ho, Hy.
  - by rewrite Ho, Hy.
  - destruct Hy as (y & -> & Hb). exists y. by rewrite Ho.
Qed.

Lemma bound_return {A B} (o : outcome A) (k : A → outcome B) b :
  and_then o k = Return b → ∃ a, o = Return a ∧ k a = Return b.
Proof. destruct o; [eauto|done]. Qed.

Lemma reshape_reshaped m item :
  reshape m = Return item →
  reshaped m (to_json item) ∧ json_element item = to_json item.
Proof.
  unfold reshape. intros Hr.
  apply bound_return in Hr as (id & _ & Hr).
  apply bound_return in Hr as (title & _ & Hr).
  apply bound_return in Hr as (overview & _ & Hr).
  apply bound_return in Hr as (release_date & Hrd & Hr).
  apply bound_return in Hr as (year & Hy & Hr).
  apply bound_return in Hr as (poster_path & Hpp & Hr).
  simplify_eq. split; [|done]. rewrite to_json_object.
  exists release_date, poster_path. eexists. repeat split; [done..| |].
  - eapply year_follows_lookup; [done|]. rewrite lookup_omap.
    do 3 rewrite lookup_insert_ne by done. by rewrite lookup_insert_eq.
  - apply poster_url_follows. rewrite lookup_omap.
    do 4 rewrite lookup_insert_ne by done. rewrite lookup_singleton_eq.
    apply json_property_poster_url.
Qed.

Lemma details_body_reshaped data b :
  details_body data = Return b → reshaped data (to_json b).
Proof.
  unfold details_body. intros Hr.
  apply bound_return in Hr as (id & _ & Hr).
  apply bound_return in Hr as (title & _ & Hr).
  apply bound_return in Hr as (overview & _ & Hr).
  apply bound_return in Hr as (release_date & Hrd & Hr).
  apply bound_return in Hr as (year & Hy & Hr).
  apply bound_return in Hr as (poster_path & Hpp & Hr).
  apply bound_return in Hr as (genres & _ & Hr).
  apply bound_return in Hr as (names & _ & Hr).
  simplify_eq. rewrite to_json_object.
  exists release_date, poster_path. eexists. repeat split; [done..| |].
  - eapply year_follows_lookup; [done|]. rewrite lookup_omap.
    do 3 rewrite lookup_insert_ne by done. by rewrite lookup_insert_eq.
  - apply poster_url_follows. rewrite lookup_omap.
    do 4 rewrite lookup_insert_ne by done. rewrite lookup_insert_eq.
    apply json_property_poster_url.
Qed.

Lemma map_outcome_Forall2 {A B} (f : A → outcome B) l l' :
  map_outcome f l = Return l' → Forall2 (λ x y, f x = Return y) l l'.
Proof.
  revert l'. induction l as [|x l IH]; intros l' Hl; cbn [map_outcome] in Hl.
  - simplify_eq. constructor.
  - apply bound_return in Hl as (y & Hy & Hl).
    apply bound_return in Hl as (ys & Hys & Hl). simplify_eq.
    constructor; [done|]. by apply IH.
Qed.

Lemma results_body_reshaped data b :
  results_body data = Return b →
  ∃ ms items,
    get data "results" = Return (VArr ms)
    ∧ to_json b = VObj {[ "results" := VArr items ]}
    ∧ Forall2 reshaped ms items.
Proof.
  unfold results_body. intros Hr.
  apply bound_return in Hr as (results & Hres & Hr).
  apply bound_return in Hr as (items & Hitems & Hr). simplify_eq.
  unfold array_map in Hitems. destruct results as [| | | | |ms|]; try done.
  apply bound_return in Hitems as (l' & Hl' & Hitems). simplify_eq.
  exists ms, (map json_element l'). split; [done|]. split.
  - rewrite to_json_object. by rewrite omap_singleton_Some with (y := VArr (map json_element l')).
  - apply map_outcome_Forall2 in Hl'. apply Forall2_fmap_r.
    eapply Forall2_impl; [done|]. intros m item Hm. cbn beta in Hm |- *.
    destruct (reshape_reshaped m item Hm) as [Hre Hj].
    unfold compose. by rewrite Hj.
Qed.

Lemma or_else_status {A} (o : outcome A) (f : A → outcome response) h :
  status h ≠ 200 →
  status (or_else (and_then o f) h) = 200 →
  ∃ a r, o = Return a ∧ f a = Return r ∧ or_else (and_then o f) h = r.
Proof.
  intros Hh Hs. destruct o as [a|]; [|done]. cbn [and_then] in *.
  destruct (f a) as [r|] eqn:Hf; [|done]. by exists a, r.
Qed.

Lemma reshape_returns m : well_dated m → ∃ item, reshape m = Return item.
Proof.
  unfold well_dated, reshape. intros Hm.
  destruct m as [| | | | | |o]; try done; cbn [get and_then] in *;
    try (by eexists).
  destruct (field o "release_date"); try done; cbn [optional_split_first and_then];
    by eexists.
Qed.

Lemma map_outcome_returns {A B} (f : A → outcome B) l :
  Forall (λ x, ∃ y, f x = Return y) l → ∃ l', map_outcome f l = Return l'.
Proof.
  induction 1 as [|x l [y Hy] _ [l' Hl']]; [by eexists|].
  cbn [map_outcome]. rewrite Hy. cbn [and_then]. rewrite Hl'. by eexists.
Qed.

Lemma results_body_returns data ms :
  get data "results" = Return (VArr ms) →
  Forall well_dated ms →
  ∃ b, results_body data = Return b.
Proof.
  intros Hres Hms. unfold results_body. rewrite Hres. cbn [and_then array_map].
  destruct (map_outcome_returns reshape ms) as [l' ->]; [|by eexists].
  eapply Forall_impl; [done|]. apply reshape_returns.
Qed.

Lemma details_body_returns data :
  well_dated data → named_genres data → ∃ b, details_body data = Return b.
Proof.
  unfold well_dated, named_genres, details_body. intros Hd Hg.
  destruct data as [| | | | | |o]; try done; cbn [get and_then] in *;
    try (by eexists).
  assert (Hy : ∃ y, optional_split_first "-" (field o "release_date") = Return y).
  { destruct (field o "release_date"); try done; by eexists. }
  destruct Hy as [y ->]. cbn [and_then].
  destruct (field o "genres") as [| | | | |gs|]; try done; cbn [optional_array_map and_then];
    try (by eexists).
  cbn [array_map].
  destruct (map_outcome_returns (λ g, get g "name") gs) as [l' ->]; [|by eexists].
  eapply Forall_impl; [done|]. intros g [Hu Hn]. destruct g; try done; by eexists.
Qed.

(** C9, as the code has it.  Every item the catalog routes return has a
    [year] that is the release date of the upstream item up to its first
    dash, and no [year] when the upstream item has no release date; it
    always has a [poster]: the image URL built on the poster path when
    there is one, [null] otherwise.  The three routes answer 200 with such
    items when the upstream items are objects with a release date that is
    a string or missing. *)
Theorem catalog_items_reshaped cfg axios_get :
  (∀ query,
     status (search cfg axios_get query) = 200 →
     ∃ data ms items,
       axios_get (search_url cfg query) = Return data
       ∧ get data "results" = Return (VArr ms)
       ∧ body (search cfg axios_get query) = VObj {[ "results" := VArr items ]}
       ∧ Forall2 reshaped ms items)
  ∧ (status (trending cfg axios_get) = 200 →
     ∃ data ms items,
       axios_get (trending_url cfg) = Return data
       ∧ get data "results" = Return (VArr ms)
       ∧ body (trending cfg axios_get) = VObj {[ "results" := VArr items ]}
       ∧ Forall2 reshaped ms items)
  ∧ (∀ movieId,
       status (details cfg axios_get movieId) = 200 →
       ∃ data,
         axios_get (details_url cfg movieId) = Return data
         ∧ reshaped data (body (details cfg axios_get movieId)))
  ∧ (∀ query data ms,
       truthy query = true →
       axios_get (search_url cfg query) = Return data →
       get data "results" = Return (VArr ms) →
       Forall well_dated ms →
       status (search cfg axios_get query) = 200)
  ∧ (∀ data ms,
       axios_get (trending_url cfg) = Return data →
       get data "results" = Return (VArr ms) →
       Forall well_dated ms →
       status (trending cfg axios_get) = 200)
  ∧ (∀ movieId data,
       axios_get (details_url cfg movieId) = Return data →
       well_dated data →
       named_genres data →
       status (details cfg axios_get movieId) = 200).
Proof.
  split; [|split; [|split; [|split; [|split]]]].
  - intros query. unfold search. destruct (truthy query); [|done]. cbn [negb].
    intros Hs. apply or_else_status in Hs as (data & r & Hd & Hr & ->); [|done].
    apply bound_return in Hr as (b & Hb & Hr). simplify_eq.
    destruct (results_body_reshaped _ _ Hb) as (ms & items & Hres & Hj & Hall).
    by exists data, ms, items.
  - unfold trending.
    intros Hs. apply or_else_status in Hs as (data & r & Hd & Hr & ->); [|done].
    apply bound_return in Hr as (b & Hb & Hr). simplify_eq.
    destruct (results_body_reshaped _ _ Hb) as (ms & items & Hres & Hj & Hall).
    by exists data, ms, items.
  - intros movieId. unfold details.
    intros Hs. apply or_else_status in Hs as (data & r & Hd & Hr & ->); [|done].
    apply bound_return in Hr as (b & Hb & Hr). simplify_eq.
    exists data. split; [done|]. by apply details_body_reshaped.
  - intros query data ms Hq Hd Hres Hms. unfold search. rewrite Hq, Hd. cbn [negb and_then].
    by destruct (results_body_returns data ms Hres Hms) as [b ->].
  - intros data ms Hd Hres Hms. unfold trending. rewrite Hd. cbn [and_then].
    by destruct (results_body_returns data ms Hres Hms) as [b ->].
  - intros movieId data Hd Hw Hg. unfold details. rewrite Hd. cbn [and_then].
    by destruct (details_body_returns data Hw Hg) as [b ->].
Qed.

End Properties.

(** * The reference instance: its contract, and the properties at work *)

Section ReferenceFacts.
Import Reference.

Lemma read_pos_digits p k : read_pos (pos_digits p k) = Some (p, k).
Proof. induction p as [p IH|p IH|]; cbn [pos_digits read_pos]; by rewrite ?IH. Qed.

Lemma read_z_digits z k : read_z (z_digits z k) = Some (z, k).
Proof. destruct z; cbn [z_digits read_z]; by rewrite ?read_pos_digits. Qed.

Lemma read_opt_digits o k : read_opt (opt_digits o k) = Some (o, k).
Proof. destruct o; cbn [opt_digits read_opt]; by rewrite ?read_z_digits. Qed.

Lemma pos_digits_no_space p k : no_char " " k → no_char " " (pos_digits p k).
Proof. intros Hk. induction p; cbn [pos_digits no_char]; by split. Qed.

Lemma z_digits_no_space z k : no_char " " k → no_char " " (z_digits z k).
Proof.
  intros Hk. destruct z; cbn [z_digits no_char]; (split; [done|]);
    by try apply pos_digits_no_space.
Qed.

Lemma opt_digits_no_space o k : no_char " " k → no_char " " (opt_digits o k).
Proof.
  intros Hk. destruct o; cbn [opt_digits no_char]; (split; [done|]);
    by try apply z_digits_no_space.
Qed.

Lemma reference_contract : jwt_contract.
Proof.
  split.
  - intros n i e sig. cbn [jwt_decode jwt_encode libraries].
    unfold decode_token, encode_token. cbn [userId iat exp].
    rewrite read_z_digits. cbn [mbind option_bind]. rewrite read_z_digits.
    cbn [mbind option_bind]. by rewrite read_opt_digits.
  - intros c sig. cbn [jwt_encode libraries]. unfold encode_token.
    destruct (userId c) as [| | |n| | |]; try done. by destruct n.
  - intros c secret. cbn [jwt_encode hs256 libraries]. unfold encode_token, mac.
    destruct (userId c) as [| | |n| | |]; try done.
    do 2 apply z_digits_no_space. apply opt_digits_no_space, pos_digits_no_space.
    do 2 apply z_digits_no_space. by apply opt_digits_no_space.
Qed.

(** The scenarios of the specification, run on the model. *)

Example register_alice :
  register bare 100 "salt" alice_request empty_db
  = (one_user,
     json 201 (VObj {[ "user" := VObj (sanitizeUser (public_columns alice));
                       "token" := VStr (jwt_sign (VNum 1) "change_this_secret"
                                                 one_hour 100) ]})).
Proof. vm_compute. reflexivity. Qed.

Example login_wrong_password :
  (login bare 200 alice_wrong_password one_user).2
  = json 401 (message "invalid credentials").
Proof. vm_compute. reflexivity. Qed.

Example save_then_list :
  (save bare 300 (Some alice_header) save_matrix one_user).1
  = Database [alice] 2 [matrix 1 1 300] 2
  ∧ (mymovies bare 310 (Some alice_header) (Database [alice] 2 [matrix 1 1 300] 2)).2
    = json 200 (VObj {[ "movies" := VArr [VObj (saved_columns (matrix 1 1 300))] ]}).
Proof. split; vm_compute; reflexivity. Qed.

Example delete_as_owner :
  delete_movie bare 300 (Some alice_header) "603" both_saved
  = (Database [alice; bob] 3 [matrix 1 2 160] 3, json 200 (message "movie removed")).
Proof. vm_compute. reflexivity. Qed.

Example missing_header : (me bare 300 None one_user).2 = json 401 (message "no token").
Proof. vm_compute. reflexivity. Qed.

Example split_date : split "-" "1999-03-31" = ["1999"; "03"; "31"].
Proof. reflexivity. Qed.

Example split_trailing : split " " "Bearer " = ["Bearer"; ""].
Proof. reflexivity. Qed.

Example serialized_item :
  to_json (VObj {[ "year" := VUndefined; "poster" := VNull ]})
  = VObj {[ "poster" := VNull ]}.
Proof. vm_compute. reflexivity. Qed.

(** C1 at work: Alice registers on an empty store, logs in, and asks who
    she is; the three answers carry a sanitized user. *)
Lemma user_objects_are_sanitized_witness :
  (status (register bare 100 "salt" alice_request empty_db).2 = 201
   ∧ carries_sanitized_user (register bare 100 "salt" alice_request empty_db).2)
  ∧ (status (login bare 200 alice_login one_user).2 = 200
     ∧ carries_sanitized_user (login bare 200 alice_login one_user).2)
  ∧ (status (me bare 300 (Some alice_header) one_user).2 = 200
     ∧ carries_sanitized_user (me bare 300 (Some alice_header) one_user).2).
Proof.
  split; [|split].
  - assert (Hs : status (register bare 100 "salt" alice_request empty_db).2 = 201)
      by (vm_compute; reflexivity).
    split; [exact Hs|].
    exact (proj1 (user_objects_are_sanitized bare 100 "salt" None alice_request empty_db) Hs).
  - assert (Hs : status (login bare 200 alice_login one_user).2 = 200)
      by (vm_compute; reflexivity).
    split; [exact Hs|].
    exact (proj1 (proj2 (user_objects_are_sanitized bare 200 "salt" None alice_login one_user))
                 Hs).
  - assert (Hs : status (me bare 300 (Some alice_header) one_user).2 = 200)
      by (vm_compute; reflexivity).
    split; [exact Hs|].
    exact (proj2 (proj2 (user_objects_are_sanitized bare 300 "salt" (Some alice_header)
                           alice_login one_user)) Hs).
Defined.

(** C2 at work: the token of Alice's Login at time 200 resolves to her id
    at time 300. *)
Lemma login_token_resolves_witness :
  status (login bare 200 alice_login one_user).2 = 200
  ∧ ∃ token row,
      response_token (login bare 200 alice_login one_user).2 = Some token
      ∧ row ∈ users one_user
      ∧ bind_text (field alice_login "username") = Some (u_username row)
      ∧ response_user (login bare 200 alice_login one_user).2 ≫= (.!! "id")
        = Some (VNum (u_id row))
      ∧ 300 < 200 + seven_days
      ∧ ∃ user,
          authMiddleware bare 300 (Some ("Bearer " +:+ token)) one_user
          = (one_user, Next user)
          ∧ field user "id" = VNum (u_id row).
Proof.
  assert (Hs : status (login bare 200 alice_login one_user).2 = 200)
    by (vm_compute; reflexivity).
  split; [exact Hs|].
  destruct (login_token_resolves reference_contract bare 200 alice_login one_user
              (login bare 200 alice_login one_user).1
              (login bare 200 alice_login one_user).2 (surjective_pairing _) Hs)
    as (token & row & Htoken & Hin & Hname & Hid & Hresolves).
  exists token, row.
  assert (Hlt : 300 < 200 + seven_days) by (vm_compute; reflexivity).
  repeat (split; [assumption|]).
  apply Hresolves; [exact Hlt|]. by exists row.
Defined.

(** C3 at work: a token that does not parse, and Alice's token one second
    after its seven days, both get [invalid token]. *)
Lemma bad_tokens_get_one_answer_witness :
  authMiddleware bare 300 (Some "Bearer garbage") one_user = (one_user, invalid_token)
  ∧ jwt_verify (bearer_token alice_header) (JWT_SECRET bare) (200 + seven_days)
    = inl JwtExpired
  ∧ authMiddleware bare (200 + seven_days) (Some alice_header) one_user
    = (one_user, invalid_token).
Proof.
  split.
  - refine (proj1 (bad_tokens_get_one_answer bare 300 "Bearer garbage" one_user _ _) _).
    + discriminate.
    + vm_compute; reflexivity.
    + left. vm_compute; reflexivity.
  - refine (proj2 (bad_tokens_get_one_answer bare (200 + seven_days) alice_header one_user
                     _ _) alice_token (Claims (VNum 1) 200 (Some (200 + seven_days)))
                  (200 + seven_days) _ _ _ _ _).
    + discriminate.
    + vm_compute; reflexivity.
    + vm_compute; reflexivity.
    + discriminate.
    + vm_compute; reflexivity.
    + reflexivity.
    + reflexivity.
Defined.

(** C4 fails: with an empty environment the server does not fail closed,
    Alice's Login is served. *)
Lemma absent_secret_serves_login : ¬ fails_closed ∅.
Proof.
  intros Hclosed.
  pose proof (Hclosed (lookup_empty _) (λ _, Throw) 200 "salt" (PostLogin alice_login)
                      one_user) as Hs.
  assert (Hok : status (handle (load_config ∅) (λ _, Throw) 200 "salt"
                               (PostLogin alice_login) one_user).2 = 200)
    by (vm_compute; reflexivity).
  rewrite Hok in Hs. lia.
Qed.

(** C4 as the code has it, at work: the token of that Login is signed
    with the default secret. *)
Lemma absent_secret_falls_back_witness :
  (∅ : gmap string string) !! "JWT_SECRET" = None
  ∧ JWT_SECRET (load_config ∅) = "change_this_secret"
  ∧ ∃ row, row ∈ users one_user
      ∧ response_token (login (load_config ∅) 200 alice_login one_user).2
        = Some (jwt_sign (VNum (u_id row)) "change_this_secret" seven_days 200).
Proof.
  split; [apply lookup_empty|].
  destruct (absent_secret_falls_back ∅ (lookup_empty _)) as [Hsecret Htoken].
  split; [exact Hsecret|].
  refine (Htoken 200 alice_login one_user _ _ (surjective_pairing _) _).
  vm_compute; reflexivity.
Defined.

(** An unknown username and Alice with a wrong password, both strings. *)
Example wrong_password_as_unknown_username_at_work :
  login bare 200 nobody_login one_user
  = (one_user, json 401 (message "invalid credentials"))
  ∧ login bare 200 alice_wrong_password one_user = login bare 200 nobody_login one_user
  ∧ status (login bare 200 alice_wrong_password one_user).2 = 401
  ∧ response_message (login bare 200 alice_wrong_password one_user).2
    = Some "invalid credentials".
Proof.
  refine (wrong_password_as_unknown_username bare 200 nobody_login alice_wrong_password
            one_user _ _ _ _ _).
  - vm_compute; discriminate.
  - vm_compute; discriminate.
  - intros row Hin. apply list_elem_of_singleton in Hin. subst row.
    vm_compute; discriminate.
  - exists alice. split; [apply list_elem_of_here|vm_compute; reflexivity].
  - intros row Hin _. apply list_elem_of_singleton in Hin. subst row.
    vm_compute; reflexivity.
Qed.

(** C5 fails, at work: the JSON number 1234567 as password.  With a
    username that matches no user the answer is 401, with Alice's it is
    500. *)
Lemma non_string_password_reveals_username_witness :
  login bare 200 nobody_number one_user
  = (one_user, json 401 (message "invalid credentials"))
  ∧ login bare 200 alice_number one_user
    = (one_user, json 500 (message "internal error"))
  ∧ status (login bare 200 nobody_number one_user).2 = 401
  ∧ status (login bare 200 alice_number one_user).2 = 500
  ∧ response_message (login bare 200 nobody_number one_user).2
    = Some "invalid credentials"
  ∧ response_message (login bare 200 alice_number one_user).2 = Some "internal error".
Proof.
  refine (non_string_password_reveals_username bare 200 nobody_number alice_number
            one_user _ _ _ _ _ _).
  - vm_compute; discriminate.
  - intros row Hin. apply list_elem_of_singleton in Hin. subst row.
    vm_compute; discriminate.
  - exists alice. split; [apply list_elem_of_here|vm_compute; reflexivity].
  - vm_compute; reflexivity.
  - vm_compute; discriminate.
  - intros p. vm_compute; discriminate.
Defined.

(** C6 at work: Alice's username with another email, Alice's email with
    another username, and Alice's email with Bob's username. *)
Lemma duplicate_registration_conflicts_witness :
  alice ∈ users one_user
  ∧ register bare 300 "salt" alice_again one_user
    = (one_user, json 400 (message "username already taken"))
  ∧ register bare 300 "salt" alice_email_again one_user
    = (one_user, json 400 (message "email already used"))
  ∧ register bare 300 "salt" (<[ "username" := VStr "bob" ]> alice_email_again) two_users
    = (two_users, json 400 (message "username already taken")).
Proof.
  assert (Hin : alice ∈ users one_user) by apply list_elem_of_here.
  split; [exact Hin|]. split; [|split].
  - refine (proj1 (proj2 (proj2 (proj1 (duplicate_registration_conflicts bare 300 "salt"
                                          alice_again one_user alice Hin) _)) _)).
    + vm_compute; reflexivity.
    + split; vm_compute; reflexivity.
  - refine (proj1 (proj1 (proj2 (proj2 (proj2 (duplicate_registration_conflicts bare 300
                                          "salt" alice_email_again one_user alice Hin) _)))
                         _ _)).
    + vm_compute; reflexivity.
    + split; vm_compute; reflexivity.
    + intros row Hr. apply list_elem_of_singleton in Hr. subst row.
      vm_compute; discriminate.
  - refine (proj2 (proj2 (proj2 (proj2 (duplicate_registration_conflicts bare 300 "salt"
                                          (<[ "username" := VStr "bob" ]> alice_email_again)
                                          two_users alice _) _))) _ _).
    + apply list_elem_of_here.
    + vm_compute; reflexivity.
    + split; vm_compute; reflexivity.
    + exists bob. split; [apply list_elem_of_further, list_elem_of_here|].
      vm_compute; reflexivity.
Defined.

(** C7 fails: a short username hides the mismatch of the passwords; the
    body reports the username only. *)
Lemma mismatch_is_not_reported :
  ¬ reports_all_violations bare 300 "salt" short_and_mismatched empty_db.
Proof.
  intros Hall. destruct Hall as (_ & _ & Hsub); [vm_compute; discriminate|].
  assert (Hin : "passwords do not match" ∈ violations short_and_mismatched)
    by (vm_compute; apply list_elem_of_further, list_elem_of_here).
  apply Hsub in Hin. revert Hin.
  assert (Hrep : reported (register bare 300 "salt" short_and_mismatched empty_db).2
                 = ["username min 3 chars"]) by (vm_compute; reflexivity).
  rewrite Hrep. intros Hin. apply list_elem_of_singleton in Hin. discriminate Hin.
Qed.

(** The validators on arrays: the length of a username is tested on every
    element, so an array with a short element is refused, and the empty
    array, on which nothing is tested, is registered as a username. *)
Example array_username_is_refused :
  register bare 300 "salt" array_username empty_db
  = (empty_db,
     json 400 (VObj {[ "errors" :=
       VArr [validation_error "username" (VStr "ab") "username min 3 chars"] ]})).
Proof. vm_compute. reflexivity. Qed.

Example empty_array_username_is_registered :
  status (register bare 300 "salt" empty_array_username empty_db).2 = 201
  ∧ users (register bare 300 "salt" empty_array_username empty_db).1
    = [UserRow 1 "{}" "a@x.com" "salt$secret1" (Some "{}") 300].
Proof. split; vm_compute; reflexivity. Qed.

(** Lengths are counted in characters: two letters of two bytes each are
    a short username. *)
Example two_letters_are_short :
  characters two_letters = 2%nat
  ∧ reported (register bare 300 "salt" (<[ "username" := VStr two_letters ]> alice_request)
                       empty_db).2
    = ["username min 3 chars"].
Proof. split; vm_compute; reflexivity. Qed.

(** C7 as the code has it, at work, on the same request and on one with a
    good username. *)
Lemma violations_are_rejected_witness :
  plain_fields short_and_mismatched
  ∧ violations short_and_mismatched ≠ []
  ∧ status (register bare 300 "salt" short_and_mismatched empty_db).2 = 400
  ∧ reported (register bare 300 "salt" short_and_mismatched empty_db).2
    = validator_messages short_and_mismatched
  ∧ reported (register bare 300 "salt" (<[ "username" := VStr "alice" ]> short_and_mismatched)
                       empty_db).2
    = ["passwords do not match"].
Proof.
  assert (Hp : plain_fields short_and_mismatched)
    by (repeat split; vm_compute; reflexivity).
  assert (Hv : violations short_and_mismatched ≠ []) by (vm_compute; discriminate).
  split; [exact Hp|]. split; [exact Hv|].
  destruct (violations_are_rejected bare 300 "salt" short_and_mismatched empty_db Hp Hv)
    as (_ & Hs & Hfields & _).
  split; [exact Hs|]. split.
  - apply Hfields. vm_compute; discriminate.
  - refine (proj2 (proj2 (proj2 (violations_are_rejected bare 300 "salt"
                                   (<[ "username" := VStr "alice" ]> short_and_mismatched)
                                   empty_db _ _))) _).
    + repeat split; vm_compute; reflexivity.
    + vm_compute; discriminate.
    + vm_compute; reflexivity.
Defined.

(** C8 at work: Bob has saved the movie 603 and Alice has not.  Alice's
    list is empty, her Delete of 603 is answered 404 and leaves Bob's row. *)
Lemma saved_rows_are_scoped_witness :
  authMiddleware bare 300 (Some alice_header) two_users
  = (two_users, Next (public_columns alice))
  ∧ mymovies bare 300 (Some alice_header) two_users
    = (two_users, json 200 (VObj {[ "movies" := VArr [] ]}))
  ∧ delete_movie bare 300 (Some alice_header) "603" two_users
    = (two_users, json 404 (message "movie not found"))
  ∧ matrix 1 2 160 ∈ saved_movies (delete_movie bare 300 (Some alice_header) "603" both_saved).1.
Proof.
  assert (Ha : authMiddleware bare 300 (Some alice_header) two_users
               = (two_users, Next (public_columns alice))) by (vm_compute; reflexivity).
  split; [exact Ha|].
  destruct (saved_rows_are_scoped bare 300 (Some alice_header) two_users _ Ha)
    as (a & Hid & (rows & Hlist & Hperm & _) & Hdelete & _ & _).
  assert (a = 1) as -> by (vm_compute in Hid; congruence).
  split; [|split].
  - rewrite Hlist. apply Permutation_nil_r in Hperm. by rewrite Hperm.
  - apply (Hdelete "603" 603); [discriminate|vm_compute; reflexivity|].
    intros r Hr _. apply list_elem_of_singleton in Hr. subst r. vm_compute. discriminate.
  - assert (Hb : authMiddleware bare 300 (Some alice_header) both_saved
                 = (both_saved, Next (public_columns alice))) by (vm_compute; reflexivity).
    destruct (saved_rows_are_scoped bare 300 (Some alice_header) both_saved _ Hb)
      as (b & Hidb & _ & _ & Hkeeps & _).
    apply Hkeeps; [apply list_elem_of_here|].
    assert (b = 1) as -> by (vm_compute in Hidb; congruence).
    vm_compute. discriminate.
Defined.

(** The item of a search for a movie without a poster path: it has no
    [year], and a [poster] that is [null]. *)
Example bare_item_on_the_wire :
  body (search bare upstream (VStr "matrix"))
  = VObj {[ "results" :=
      VArr [VObj {[ "id" := VNum 603; "title" := VStr "The Matrix"; "overview" := VStr "";
                    "year" := VStr "1999";
                    "poster" := VStr "https://image.tmdb.org/t/p/w500/m.jpg" ]};
            VObj {[ "id" := VNum 7; "title" := VStr "Untitled"; "overview" := VStr "";
                    "poster" := VNull ]}] ]}.
Proof. vm_compute. reflexivity. Qed.

(** C9 fails: the item of a movie without a poster path has a [poster],
    the JSON [null]; the key is not absent. *)
Lemma absent_poster_is_null : ¬ search_items_as_claimed bare upstream (VStr "matrix").
Proof.
  intros Hclaim.
  destruct Hclaim as (data & ms & items & Hdata & Hres & Hbody & Hall);
    [vm_compute; reflexivity|].
  assert (Hms : ms = [upstream_item_dated; upstream_item_bare]).
  { unfold upstream in Hdata. simplify_eq. vm_compute in Hres. by simplify_eq. }
  subst ms.
  apply (f_equal (λ v, match v with VObj o => o !! "results" | _ => None end)) in Hbody.
  rewrite bare_item_on_the_wire in Hbody. cbn beta iota in Hbody.
  rewrite !lookup_singleton_eq in Hbody. simplify_eq.
  apply Forall2_cons_1 in Hall as [_ Hall]. apply Forall2_cons_1 in Hall as [Hitem _].
  destruct Hitem as (release_date & poster_path & o & _ & Hpp & Ho & _ & Hposter).
  vm_compute in Hpp. simplify_eq. unfold poster_as_claimed in Hposter.
  cbn [truthy] in Hposter. vm_compute in Hposter. discriminate Hposter.
Qed.

(** C9 as the code has it, at work: a dated movie with a poster and a bare
    one, through search and trending, and the dated one through details. *)
Lemma catalog_items_reshaped_witness :
  status (search bare upstream (VStr "matrix")) = 200
  ∧ (∃ data ms items,
       upstream (search_url bare (VStr "matrix")) = Return data
       ∧ get data "results" = Return (VArr ms)
       ∧ body (search bare upstream (VStr "matrix")) = VObj {[ "results" := VArr items ]}
       ∧ Forall2 reshaped ms items)
  ∧ status (trending bare upstream) = 200
  ∧ (∃ data ms items,
       upstream (trending_url bare) = Return data
       ∧ get data "results" = Return (VArr ms)
       ∧ body (trending bare upstream) = VObj {[ "results" := VArr items ]}
       ∧ Forall2 reshaped ms items)
  ∧ status (details bare upstream_details "603") = 200
  ∧ ∃ data,
      upstream_details (details_url bare "603") = Return data
      ∧ reshaped data (body (details bare upstream_details "603")).
Proof.
  assert (Hitems : Forall well_dated [upstream_item_dated; upstream_item_bare])
    by (repeat constructor).
  assert (Hs : status (search bare upstream (VStr "matrix")) = 200).
  { refine (proj1 (proj2 (proj2 (proj2 (catalog_items_reshaped bare upstream))))
              (VStr "matrix") _ [upstream_item_dated; upstream_item_bare] _ _ _ Hitems);
      reflexivity. }
  assert (Ht : status (trending bare upstream) = 200).
  { refine (proj1 (proj2 (proj2 (proj2 (proj2 (catalog_items_reshaped bare upstream)))))
              _ [upstream_item_dated; upstream_item_bare] _ _ Hitems);
      reflexivity. }
  assert (Hd : status (details bare upstream_details "603") = 200).
  { refine (proj2 (proj2 (proj2 (proj2 (proj2 (catalog_items_reshaped bare
                                                  upstream_details)))))
              "603" upstream_item_dated _ _ _); [reflexivity|exact I|exact I]. }
  split; [exact Hs|]. split; [|split; [exact Ht|split; [|split; [exact Hd|]]]].
  - exact (proj1 (catalog_items_reshaped bare upstream) (VStr "matrix") Hs).
  - exact (proj1 (proj2 (catalog_items_reshaped bare upstream)) Ht).
  - exact (proj1 (proj2 (proj2 (catalog_items_reshaped bare upstream_details))) "603" Hd).
Defined.

(** C10 at work: Alice saves the movie 603 a second time and deletes it. *)
Lemma saves_are_not_deduplicated_witness :
  authMiddleware bare 300 (Some alice_header) both_saved
  = (both_saved, Next (public_columns alice))
  ∧ ∃ db1 new db2,
      save bare 300 (Some alice_header) save_matrix both_saved
      = (db1, json 201 (VObj {[ "movie" := VObj (saved_columns new) ]}))
      ∧ saved_by 1 603 new
      ∧ saved_movies db1 = saved_movies both_saved ++ [new]
      ∧ (2 ≤ length (filter (saved_by 1 603) (saved_movies db1)))%nat
      ∧ delete_movie bare 300 (Some alice_header) "603" db1
        = (db2, json 200 (message "movie removed"))
      ∧ saved_movies db2 = filter (λ r, ¬ saved_by 1 603 r) (saved_movies both_saved)
      ∧ filter (saved_by 1 603) (saved_movies db2) = [].
Proof.
  assert (Ha : authMiddleware bare 300 (Some alice_header) both_saved
               = (both_saved, Next (public_columns alice))) by (vm_compute; reflexivity).
  split; [exact Ha|].
  destruct (saves_are_not_deduplicated bare 300 (Some alice_header) both_saved _
              save_matrix "603" 603 Ha) as (a & Hid & Hagain).
  - vm_compute; reflexivity.
  - vm_compute; reflexivity.
  - vm_compute; reflexivity.
  - discriminate.
  - vm_compute; reflexivity.
  - assert (a = 1) as -> by (vm_compute in Hid; congruence).
    apply Hagain. exists (matrix 2 1 170).
    split; [apply list_elem_of_further, list_elem_of_here|]. by vm_compute.
Defined.

End ReferenceFacts.

(** * Further properties of the handlers *)

Section Handlers.
Context `{Libraries}.

(** ** Register, case by case *)

Lemma users_accepts_fresh db r :
  users_accepts db r →
  filter (λ x, u_username x = u_username r) (users db) = []
  ∧ filter (λ x, u_email x = u_email r) (users db) = [].
Proof.
  intros (_ & _ & _ & _ & Hall). rewrite Forall_forall in Hall.
  split; apply filter_none; intros x Hx Heq; by destruct (Hall x Hx) as (_ & ? & ?).
Qed.

Lemma registered_row_fields now salt b db r :
  registered_row now salt b db = Some r →
  ∃ h, bind_text (field b "username") = Some (u_username r)
       ∧ bind_text (field b "email") = Some (u_email r)
       ∧ hash (field b "password") salt = Return h
       ∧ r = UserRow (users_id_seq db) (u_username r) (u_email r) h
                     (Some (u_username r)) now.
Proof.
  unfold registered_row. intros Hr.
  destruct (bind_text (field b "username")) as [u|]; [|done].
  destruct (bind_text (field b "email")) as [e|]; [|done].
  destruct (hash _ _) as [h|]; [|done]. simplify_eq. by exists h.
Qed.

Lemma register_accepted cfg now salt b db r :
  well_formed_registration b →
  registered_row now salt b db = Some r →
  users_accepts db r →
  register cfg now salt b db = (with_user db r, created cfg now r).
Proof.
  intros [Hv Hm] Hr Hacc.
  destruct (registered_row_fields _ _ _ _ _ Hr) as (h & Hu & He & Hh & Hrow).
  destruct (users_accepts_fresh _ _ Hacc) as [Hfu Hfe].
  unfold register. rewrite Hv, Hm. cbn [negb].
  unfold register_try, select_id_by_username, select_id_by_email, insert_user.
  unfold try_catch, bind, gets, lift, ret.
  rewrite Hu, He, Hh, Hfu. cbn [fmap list_fmap]. rewrite Hfe. cbn [fmap list_fmap].
  rewrite <- Hrow. rewrite decide_True by done.
  by rewrite public_columns_id.
Qed.

Lemma register_cases cfg now salt b db :
  (∃ r, register cfg now salt b db = (db, r) ∧ (status r = 400 ∨ status r = 500))
  ∨ (∃ row, well_formed_registration b
            ∧ registered_row now salt b db = Some row
            ∧ users_accepts db row
            ∧ register cfg now salt b db = (with_user db row, created cfg now row)).
Proof.
  destruct (decide (well_formed_registration b)) as [Hw|Hw].
  2:{ left. destruct (register_ill_formed cfg now salt b db Hw) as [Hdb Hst].
      exists (register cfg now salt b db).2. split; [|by left].
      rewrite <- Hdb at 2. apply surjective_pairing. }
  destruct (registered_row now salt b db) as [row|] eqn:Hrow.
  - destruct (decide (users_accepts db row)) as [Hacc|Hacc].
    + right. exists row. split; [done|split; [done|split; [done|]]].
      by apply register_accepted.
    + left. destruct Hw as [Hv Hm].
      destruct (registered_row_fields _ _ _ _ _ Hrow) as (h & Hu & He & Hh & Hr).
      unfold register. rewrite Hv, Hm. cbn [negb].
      unfold register_try, select_id_by_username, select_id_by_email, insert_user.
      unfold try_catch, bind, gets, lift, ret.
      rewrite Hu, He, Hh.
      destruct (filter (λ x, u_username x = u_username row) (users db));
        cbn [fmap list_fmap]; [|eexists; split; [done|by left]].
      destruct (filter (λ x, u_email x = u_email row) (users db));
        cbn [fmap list_fmap]; [|eexists; split; [done|by left]].
      rewrite <- Hr. rewrite decide_False by done.
      eexists; split; [done|by right].
  - left. destruct Hw as [Hv Hm]. unfold registered_row in Hrow.
    unfold register. rewrite Hv, Hm. cbn [negb].
    unfold register_try, select_id_by_username, select_id_by_email, insert_user.
    unfold try_catch, bind, gets, lift, ret.
    destruct (bind_text (field b "username")) as [u|];
      [destruct (filter _ _); cbn [fmap list_fmap]; [|eexists; split; [done|by left]]|];
      (destruct (bind_text (field b "email")) as [e|];
        [destruct (filter _ _); cbn [fmap list_fmap];
           [|eexists; split; [done|by left]]|]);
      (destruct (hash _ _) as [h|]; try done);
      eexists; (split; [done|by right]).
Qed.

Lemma register_refused cfg now salt b db row :
  well_formed_registration b →
  registered_row now salt b db = Some row →
  (∀ x, x ∈ users db → u_username x ≠ u_username row ∧ u_email x ≠ u_email row) →
  ¬ users_accepts db row →
  register cfg now salt b db = (db, json 500 (message "internal error")).
Proof.
  intros [Hv Hm] Hrow Hfree Hacc.
  destruct (registered_row_fields _ _ _ _ _ Hrow) as (h & Hu & He & Hh & Hr).
  unfold register. rewrite Hv, Hm. cbn [negb].
  unfold register_try, select_id_by_username, select_id_by_email, insert_user.
  unfold try_catch, bind, gets, lift, ret.
  rewrite Hu, He, Hh.
  rewrite (filter_none (λ x, u_username x = u_username row))
    by (intros x Hx; by destruct (Hfree x Hx)).
  cbn [fmap list_fmap].
  rewrite (filter_none (λ x, u_email x = u_email row))
    by (intros x Hx; by destruct (Hfree x Hx)).
  cbn [fmap list_fmap]. rewrite <- Hr. by rewrite decide_False by done.
Qed.

Lemma register_201 cfg now salt b db :
  status (register cfg now salt b db).2 = 201 →
  ∃ row p,
    register cfg now salt b db = (with_user db row, created cfg now row)
    ∧ well_formed_registration b
    ∧ u_id row = users_id_seq db
    ∧ bind_text (field b "username") = Some (u_username row)
    ∧ bind_text (field b "email") = Some (u_email row)
    ∧ u_display_name row = Some (u_username row)
    ∧ field b "password" = VStr p
    ∧ u_password_hash row = bcrypt_hash p 12 salt
    ∧ u_created_at row = now
    ∧ (∀ x, x ∈ users db →
         u_id x ≠ u_id row ∧ u_username x ≠ u_username row ∧ u_email x ≠ u_email row).
Proof.
  intros Hs. destruct (register_cases cfg now salt b db)
    as [(r & Hr & Hst)|(row & Hw & Hrow & Hacc & Hr)].
  { rewrite Hr in Hs. cbn [snd] in Hs. destruct Hst; congruence. }
  destruct (registered_row_fields _ _ _ _ _ Hrow) as (h & Hu & He & Hh & Hfields).
  unfold hash in Hh. destruct (field b "password") as [| | | |p| |] eqn:Hp; try done.
  simplify_eq. exists row, p. rewrite Hfields. cbn. rewrite <- Hfields.
  repeat (split; [done|]).
  destruct Hacc as (_ & _ & _ & _ & Hall). rewrite Forall_forall in Hall.
  intros x Hx. destruct (Hall x Hx) as (Hi & Hn & Hm). rewrite Hfields in Hi.
  by repeat split.
Qed.

(** X1. What a Register answered 201 has done, for a username and an
    email that fit their columns: the request was well formed (every
    validator passed on every value it is run on, and the two passwords
    are equal), one row was appended to [users] and nothing else changed;
    the row has the next id of the sequence, the username and email of the
    request as they are bound, the username as display name, the bcrypt
    hash (12 rounds) of the password and not the password; the answer
    carries that row, sanitized, and a token for its id that expires one
    hour later. *)
Theorem registration_inserts_one_row cfg now salt b db :
  status (register cfg now salt b db).2 = 201 →
  fits 50 (field b "username") →
  fits 255 (field b "email") →
  ∃ row p,
    register cfg now salt b db = (with_user db row, created cfg now row)
    ∧ well_formed_registration b
    ∧ u_id row = users_id_seq db
    ∧ bind_text (field b "username") = Some (u_username row)
    ∧ bind_text (field b "email") = Some (u_email row)
    ∧ u_display_name row = Some (u_username row)
    ∧ field b "password" = VStr p
    ∧ u_password_hash row = bcrypt_hash p 12 salt
    ∧ u_created_at row = now
    ∧ (∀ x, x ∈ users db →
         u_id x ≠ u_id row ∧ u_username x ≠ u_username row ∧ u_email x ≠ u_email row).
Proof. intros Hs _ _. by apply register_201. Qed.

(** X2. When Register succeeds: a well-formed request (every validator
    passes on every value it is run on, the two passwords are equal) whose
    row satisfies the constraints of the table (lengths in characters,
    username and email not taken) is answered 201 with that row inserted. *)
Theorem registration_succeeds cfg now salt b db row :
  well_formed_registration b →
  registered_row now salt b db = Some row →
  users_accepts db row →
  register cfg now salt b db = (with_user db row, created cfg now row)
  ∧ status (register cfg now salt b db).2 = 201.
Proof.
  intros Hw Hrow Hacc. by rewrite (register_accepted _ _ _ _ _ row).
Qed.

(** X3. A Register that is not answered 201 leaves the store as it was,
    and is answered 400 or 500. *)
Theorem failed_registration_changes_nothing cfg now salt b db :
  status (register cfg now salt b db).2 ≠ 201 →
  (register cfg now salt b db).1 = db
  ∧ (status (register cfg now salt b db).2 = 400
     ∨ status (register cfg now salt b db).2 = 500).
Proof.
  intros Hs. destruct (register_cases cfg now salt b db)
    as [(r & Hr & Hst)|(row & Hw & Hrow & Hacc & Hr)].
  - by rewrite Hr.
  - rewrite Hr in Hs. by destruct Hs.
Qed.

(** X4. The validator of the username bounds its length from below only
    ([isLength({ min: 3 })]): a well-formed request whose username has
    more than the 50 characters of its column and does not end with a
    space, with username and email not taken, fails at the insertion and
    is answered 500 [internal error]; nothing is stored. *)
Theorem overlong_registration_is_internal_error cfg now salt b db row :
  well_formed_registration b →
  registered_row now salt b db = Some row →
  (∀ x, x ∈ users db → u_username x ≠ u_username row ∧ u_email x ≠ u_email row) →
  (50 < characters (u_username row))%nat →
  ends_with_space (u_username row) = false →
  register cfg now salt b db = (db, json 500 (message "internal error")).
Proof.
  intros Hw Hrow Hfree Hlong _. apply (register_refused _ _ _ _ _ row); try done.
  intros (Hu & _). lia.
Qed.

(** ** Register, then Login and the token *)


Lemma with_user_numbered db row :
  (∀ x, x ∈ users db → u_id x ≠ u_id row) →
  filter (λ r, u_id r = u_id row) (users (with_user db row)) = [row].
Proof.
  intros Hfree. cbn [with_user users]. rewrite filter_app.
  rewrite filter_none by done. by rewrite filter_cons_True, filter_nil.
Qed.

Lemma response_token_user_token st (row : object) token :
  response_token (json st (VObj {[ "user" := VObj (sanitizeUser row);
                                   "token" := VStr token ]})) = Some token.
Proof.
  unfold response_token, json. cbn [body]. rewrite to_json_object, lookup_omap.
  rewrite lookup_insert_ne by done. by rewrite lookup_singleton_eq.
Qed.


Lemma jwt_verify_expired (Hjwt : jwt_contract) n secret expiresIn now now' :
  now + expiresIn ≤ now' →
  jwt_verify (Some (jwt_sign (VNum n) secret expiresIn now)) secret now' = inl JwtExpired.
Proof.
  intros Hle. unfold jwt_verify, jwt_sign.
  rewrite bool_decide_false by apply Hjwt.
  rewrite (jwt_decode_encode Hjwt). rewrite bool_decide_true by done.
  cbn [exp]. by rewrite bool_decide_true by lia.
Qed.

Lemma startsWith_app p s : startsWith p (p +:+ s) = true.
Proof.
  induction p as [|a p IH]; [by destruct s|].
  change (String a p +:+ s) with (String a (p +:+ s)). cbn [startsWith].
  by rewrite bool_decide_true.
Qed.

Lemma bearer_header_resolves cfg now t db :
  authMiddleware cfg now (Some ("Bearer " +:+ t)) db
  = (db, resolve cfg now ("Bearer " +:+ t) db).
Proof. apply authMiddleware_bearer; [done|apply startsWith_app]. Qed.

(** X6. The token of a Register answered 201 is a session: for one hour,
    [GET /api/me] with that token on the resulting store answers 200 with
    the user that was created. *)
Theorem registration_token_opens_a_session (Hjwt : jwt_contract) cfg now salt b db now' :
  status (register cfg now salt b db).2 = 201 →
  now' < now + one_hour →
  ∃ row token,
    (register cfg now salt b db).1 = with_user db row
    ∧ response_token (register cfg now salt b db).2 = Some token
    ∧ me cfg now' (Some ("Bearer " +:+ token)) (with_user db row)
      = (with_user db row,
         json 200 (VObj {[ "user" := VObj (sanitizeUser (public_columns row)) ]})).
Proof.
  intros Hs Hlt.
  destruct (register_201 _ _ _ _ _ Hs)
    as (row & p & Hr & _ & Hid & _ & _ & _ & _ & _ & _ & Hfree).
  exists row, (jwt_sign (VNum (u_id row)) (JWT_SECRET cfg) one_hour now).
  rewrite Hr. cbn [fst snd]. split; [done|]. split.
  - apply response_token_user_token.
  - unfold me, protected. rewrite bearer_header_resolves. unfold resolve.
    rewrite bearer_token_of_header by apply Hjwt.
    rewrite (jwt_verify_signed Hjwt) by done. cbn [userId bind_int].
    rewrite with_user_numbered by (intros x Hx; by destruct (Hfree x Hx)).
    done.
Qed.

(** X7. Tokens expire: the token of a Register is refused with 401
    [invalid token] from one hour after it was issued, the token of a
    Login from seven days after, on any store. *)
Theorem issued_tokens_expire (Hjwt : jwt_contract) cfg now salt b db now' db' :
  (status (register cfg now salt b db).2 = 201 →
   now + one_hour ≤ now' →
   ∃ token, response_token (register cfg now salt b db).2 = Some token
            ∧ authMiddleware cfg now' (Some ("Bearer " +:+ token)) db'
              = (db', invalid_token))
  ∧ (status (login cfg now b db).2 = 200 →
     now + seven_days ≤ now' →
     ∃ token, response_token (login cfg now b db).2 = Some token
              ∧ authMiddleware cfg now' (Some ("Bearer " +:+ token)) db'
                = (db', invalid_token)).
Proof.
  split; intros Hs Hle.
  - destruct (register_201 _ _ _ _ _ Hs) as (row & p & Hr & _).
    exists (jwt_sign (VNum (u_id row)) (JWT_SECRET cfg) one_hour now).
    rewrite Hr. cbn [snd]. split; [apply response_token_user_token|].
    rewrite bearer_header_resolves. unfold resolve.
    rewrite bearer_token_of_header by apply Hjwt.
    by rewrite (jwt_verify_expired Hjwt).
  - destruct (login_ok cfg now b db _ _ (surjective_pairing _) Hs)
      as (_ & row & _ & _ & _ & Hr).
    exists (jwt_sign (VNum (u_id row)) (JWT_SECRET cfg) seven_days now).
    rewrite Hr. split; [apply response_token_user_token|].
    rewrite bearer_header_resolves. unfold resolve.
    rewrite bearer_token_of_header by apply Hjwt.
    by rewrite (jwt_verify_expired Hjwt).
Qed.

(** ** Requests the middleware refuses, and headers *)

(** X8. A protected route whose middleware refuses the request does not
    run its handler: the answer is the 401 of the middleware and the store
    is left as it was; without a header that starts with [Bearer ] that
    answer is [no token]. *)
Theorem refused_requests_run_no_handler cfg now authorization b movieId db :
  (∀ r, authMiddleware cfg now authorization db = (db, Reject r) →
     status r = 401
     ∧ me cfg now authorization db = (db, r)
     ∧ save cfg now authorization b db = (db, r)
     ∧ mymovies cfg now authorization db = (db, r)
     ∧ delete_movie cfg now authorization movieId db = (db, r))
  ∧ (match authorization with
     | Some auth => auth = "" ∨ startsWith "Bearer " auth = false
     | None => True
     end →
     authMiddleware cfg now authorization db = (db, Reject (json 401 (message "no token")))).
Proof.
  split.
  - intros r Ha. split; [by apply (authMiddleware_reject _ _ _ _ _ _ Ha)|].
    unfold me, save, mymovies, delete_movie, protected. by rewrite Ha.
  - apply authMiddleware_no_bearer.
Qed.

Lemma split_before_separator c y rest :
  no_char c y → split c (y +:+ String c rest) = y :: split c rest.
Proof.
  induction y as [|a y IH]; cbn [String.append split no_char].
  - intros _. change ("" +:+ String c rest) with (String c rest). cbn [split].
    by rewrite bool_decide_true.
  - intros [Hne Hy]. change (String a y +:+ String c rest)
      with (String a (y +:+ String c rest)). cbn [split].
    rewrite bool_decide_false by done. by rewrite IH.
Qed.

(** X9. Only the second word of the header is the token: what follows a
    space after the token is ignored, so that a header with trailing text
    is treated as the header without it. *)
Theorem text_after_the_token_is_ignored cfg now t rest db :
  no_char " " t →
  bearer_token ("Bearer " +:+ t +:+ String " " rest) = Some t
  ∧ authMiddleware cfg now (Some ("Bearer " +:+ t +:+ String " " rest)) db
    = authMiddleware cfg now (Some ("Bearer " +:+ t)) db.
Proof.
  intros Ht.
  assert (Hb : bearer_token ("Bearer " +:+ t +:+ String " " rest) = Some t).
  { unfold bearer_token.
    change ("Bearer " +:+ t +:+ String " " rest)
      with ("Bearer" +:+ String " " (t +:+ String " " rest)).
    rewrite (split_before_separator " " "Bearer" (t +:+ String " " rest)) by (by cbn).
    by rewrite split_before_separator. }
  split; [done|]. rewrite !bearer_header_resolves. unfold resolve.
  by rewrite Hb, bearer_token_of_header.
Qed.

(** ** The saved list, case by case *)

Lemma protected_cases cfg now authorization handler db :
  (∃ r, authMiddleware cfg now authorization db = (db, Reject r)
        ∧ status r = 401
        ∧ protected cfg now authorization handler db = (db, r))
  ∨ (∃ row, row ∈ users db
            ∧ authMiddleware cfg now authorization db = (db, Next (public_columns row))
            ∧ protected cfg now authorization handler db
              = handler (public_columns row) db).
Proof.
  unfold protected.
  destruct (authMiddleware cfg now authorization db) as [db' [r|user]] eqn:Ha.
  - destruct (authMiddleware_reject _ _ _ _ _ _ Ha) as [-> Hs]. left. by exists r.
  - destruct (authMiddleware_next _ _ _ _ _ _ Ha) as (-> & row & Hin & ->).
    right. by exists row.
Qed.

Lemma save_handler_cases now b user a db :
  field user "id" = VNum a →
  (∃ r, save_handler now b user db = (db, r) ∧ (status r = 400 ∨ status r = 500))
  ∨ (∃ m, truthy (field b "movie_id") = true
          ∧ truthy (field b "title") = true
          ∧ bind_int (field b "movie_id") = Bound m
          ∧ save_handler now b user db
            = (with_saved db (saved_row_for now a m b db),
               json 201 (VObj {[ "movie" := VObj (saved_columns (saved_row_for now a m b db)) ]}))).
Proof.
  intros Hid.
  destruct (truthy (field b "movie_id")) eqn:Hm;
    [|left; unfold save_handler; rewrite Hm; eexists; split; [done|by left]].
  destruct (truthy (field b "title")) eqn:Ht;
    [|left; unfold save_handler; rewrite Hm, Ht; eexists; split; [done|by left]].
  destruct (bind_int (field b "movie_id")) as [|m|] eqn:Hb.
  - left. unfold save_handler. rewrite Hm, Ht. cbn [negb orb].
    unfold insert_saved_movie, try_catch, bind, ret. rewrite Hid, Hb.
    eexists; split; [done|by right].
  - right. exists m. repeat (split; [done|]). by apply save_handler_inserts.
  - left. unfold save_handler. rewrite Hm, Ht. cbn [negb orb].
    unfold insert_saved_movie, try_catch, bind, ret. rewrite Hid, Hb.
    eexists; split; [done|by right].
Qed.

Lemma delete_handler_cases movieId user a db :
  field user "id" = VNum a →
  (∃ r, delete_handler movieId user db = (db, r) ∧ (status r = 400 ∨ status r = 500))
  ∨ (∃ m, movieId ≠ "" ∧ int4in movieId = Some m
          ∧ delete_handler movieId user db
            = (without_saved db a m,
               match filter (saved_by a m) (saved_movies db) with
               | [] => json 404 (message "movie not found")
               | _ :: _ => json 200 (message "movie removed")
               end)).
Proof.
  intros Hid. destruct (decide (movieId = "")) as [->|Hne].
  { left. eexists. split; [done|by left]. }
  destruct (int4in movieId) as [m|] eqn:Hm.
  - right. exists m. repeat (split; [done|]). by apply delete_handler_bound.
  - left. exists (json 500 (message "delete failed")). split; [|by right].
    unfold delete_handler. rewrite bool_decide_false by done.
    unfold delete_saved_movie, try_catch, bind, ret.
    rewrite Hid. cbn [bind_int]. by rewrite Hm.
Qed.

Lemma login_reads cfg now b db : (login cfg now b db).1 = db.
Proof.
  destruct (decide (login_validators b = [])) as [Hv|Hv].
  - by rewrite login_validated.
  - by rewrite login_rejected.
Qed.

(** X10. What each route may change: Register only appends one row to
    [users], Save only appends one row to [saved_movies], Delete only
    removes rows of [saved_movies], and Login, [/api/me], the list and
    the catalog routes never change the store. *)
Theorem routes_change_only_their_table cfg axios_get now salt req db :
  frame req db (handle cfg axios_get now salt req db).1.
Proof.
  destruct req as [b|b|authorization|query| |id|authorization b|authorization|authorization id];
    cbn [handle frame fst]; try done.
  - destruct (register_cases cfg now salt b db)
      as [(r & Hr & _)|(row & _ & _ & _ & Hr)]; rewrite Hr; cbn [fst].
    + repeat split. by left.
    + repeat split. right. by exists row.
  - apply login_reads.
  - unfold me. destruct (protected_cases cfg now authorization me_handler db)
      as [(r & _ & _ & Hp)|(row & _ & _ & Hp)]; by rewrite Hp.
  - unfold save.
    destruct (protected_cases cfg now authorization (save_handler now b) db)
      as [(r & _ & _ & Hp)|(row & _ & _ & Hp)]; rewrite Hp; [by repeat split; left|].
    destruct (save_handler_cases now b (public_columns row) (u_id row) db
                (public_columns_id row)) as [(r & Hr & _)|(m & _ & _ & _ & Hr)];
      rewrite Hr; cbn [fst]; repeat split; [by left|]. right. by eexists.
  - unfold mymovies.
    destruct (protected_cases cfg now authorization mymovies_handler db)
      as [(r & _ & _ & Hp)|(row & _ & _ & Hp)]; rewrite Hp; [done|].
    by rewrite (mymovies_handler_lists _ (u_id row)) by apply public_columns_id.
  - unfold delete_movie.
    destruct (protected_cases cfg now authorization (delete_handler id) db)
      as [(r & _ & _ & Hp)|(row & _ & _ & Hp)]; rewrite Hp; [by repeat split|].
    destruct (delete_handler_cases id (public_columns row) (u_id row) db
                (public_columns_id row)) as [(r & Hr & _)|(m & _ & _ & Hr)];
      rewrite Hr; cbn [fst]; repeat split; try done.
    cbn [without_saved saved_movies]. apply sublist_filter.
Qed.

Lemma NoDup_snoc_fresh {A B} (f : A → B) (l : list A) (x : A) :
  NoDup (f <$> l) → (∀ y, y ∈ l → f y ≠ f x) → NoDup (f <$> (l ++ [x])).
Proof.
  intros Hnd Hfresh. rewrite fmap_app. apply NoDup_app. split; [done|]. split.
  - intros z Hz Hzx. apply list_elem_of_fmap in Hz as (y & -> & Hy).
    apply list_elem_of_singleton in Hzx. by destruct (Hfresh y Hy).
  - apply NoDup_singleton.
Qed.

(** X11. The integrity of the store is kept by every route: when
    usernames, emails and ids are unique and the ids are below their
    sequences, they still are after any request. *)
Theorem store_integrity_is_kept cfg axios_get now salt req db :
  store_ok db → store_ok (handle cfg axios_get now salt req db).1.
Proof.
  intros (Hun & Hue & Hui & Hlt & Hsi & Hslt).
  destruct req as [b|b|authorization|query| |id|authorization b|authorization|authorization id];
    cbn [handle fst]; try done.
  - destruct (register_cases cfg now salt b db)
      as [(r & Hr & _)|(row & _ & Hrow & Hacc & Hr)]; rewrite Hr; cbn [fst]; [done|].
    destruct (registered_row_fields _ _ _ _ _ Hrow) as (h & _ & _ & _ & Hfields).
    assert (Hid : u_id row = users_id_seq db) by (by rewrite Hfields).
    destruct Hacc as (_ & _ & _ & _ & Hall). rewrite Forall_forall in Hall.
    unfold store_ok. cbn [with_user users users_id_seq saved_movies saved_movies_id_seq].
    split; [|split; [|split; [|split; [|done]]]].
    + apply NoDup_snoc_fresh; [done|]. intros y Hy. by destruct (Hall y Hy) as (_ & ? & _).
    + apply NoDup_snoc_fresh; [done|]. intros y Hy. by destruct (Hall y Hy) as (_ & _ & ?).
    + apply NoDup_snoc_fresh; [done|]. intros y Hy. by destruct (Hall y Hy) as (? & _ & _).
    + apply Forall_app. split.
      * eapply Forall_impl; [done|]. intros y Hy. cbn beta in Hy. lia.
      * constructor; [lia|constructor].
  - by rewrite login_reads.
  - unfold me. destruct (protected_cases cfg now authorization me_handler db)
      as [(r & _ & _ & Hp)|(row & _ & _ & Hp)]; by rewrite Hp.
  - unfold save.
    destruct (protected_cases cfg now authorization (save_handler now b) db)
      as [(r & _ & _ & Hp)|(row & _ & _ & Hp)]; rewrite Hp; [done|].
    destruct (save_handler_cases now b (public_columns row) (u_id row) db
                (public_columns_id row)) as [(r & Hr & _)|(m & _ & _ & _ & Hr)];
      rewrite Hr; cbn [fst]; [done|].
    unfold store_ok. cbn [with_saved users users_id_seq saved_movies saved_movies_id_seq].
    repeat (split; [done|]). rewrite Forall_forall in Hslt. split.
    + apply NoDup_snoc_fresh; [done|]. intros y Hy. specialize (Hslt y Hy).
      cbn [saved_row_for sm_id]. lia.
    + apply Forall_app. split.
      * apply Forall_forall. intros y Hy. specialize (Hslt y Hy). lia.
      * constructor; [cbn; lia|constructor].
  - unfold mymovies.
    destruct (protected_cases cfg now authorization mymovies_handler db)
      as [(r & _ & _ & Hp)|(row & _ & _ & Hp)]; rewrite Hp; [done|].
    by rewrite (mymovies_handler_lists _ (u_id row)) by apply public_columns_id.
  - unfold delete_movie.
    destruct (protected_cases cfg now authorization (delete_handler id) db)
      as [(r & _ & _ & Hp)|(row & _ & _ & Hp)]; rewrite Hp; [done|].
    destruct (delete_handler_cases id (public_columns row) (u_id row) db
                (public_columns_id row)) as [(r & Hr & _)|(m & _ & _ & Hr)];
      rewrite Hr; cbn [fst]; [done|].
    unfold store_ok. cbn [without_saved users users_id_seq saved_movies saved_movies_id_seq].
    repeat (split; [done|]). split.
    + eapply sublist_NoDup; [exact Hsi|]. apply fmap_sublist, sublist_filter.
    + rewrite Forall_forall in Hslt. apply Forall_forall. intros y Hy.
      apply list_elem_of_filter in Hy as [_ Hy]. by apply Hslt.
Qed.

Lemma login_answer_status cfg now b db :
  status (login_answer cfg now b db) = 200
  ∨ status (login_answer cfg now b db) = 401
  ∨ status (login_answer cfg now b db) = 500.
Proof.
  unfold login_answer, invalid_credentials.
  destruct (bind_text _); [|by right; left].
  destruct (filter _ _); [by right; left|].
  destruct (compare _ _) as [[]|]; auto.
Qed.

Lemma or_else_json_status (o : outcome value) st (h : response) :
  status (or_else (let? b := o in Return (json st b)) h) = st
  ∨ or_else (let? b := o in Return (json st b)) h = h.
Proof. destruct o; [by left|by right]. Qed.

Ltac one_of := rewrite ?elem_of_cons; auto 10.

(** X12. The status codes of each route, none other is answered:
    Register answers 201, 400 or 500; Login 200, 400, 401 or 500;
    [/api/me] 200 or 401; the list 200, 401 or 500; search 200, 400 or
    500; trending and details 200 or 500; Save 201, 400, 401 or 500;
    Delete 200, 400, 401, 404 or 500. *)
Theorem routes_answer_with_their_statuses cfg axios_get now salt req db :
  status (handle cfg axios_get now salt req db).2 ∈ statuses req.
Proof.
  destruct req as [b|b|authorization|query| |id|authorization b|authorization|authorization id];
    cbn [handle statuses snd].
  - destruct (register_cases cfg now salt b db)
      as [(r & Hr & [Hs|Hs])|(row & _ & _ & _ & Hr)]; rewrite Hr; cbn [snd];
      [rewrite Hs..|]; one_of.
  - destruct (decide (login_validators b = [])) as [Hv|Hv].
    + rewrite login_validated by done. cbn [snd].
      destruct (login_answer_status cfg now b db) as [Hs|[Hs|Hs]]; rewrite Hs; one_of.
    + rewrite login_rejected by done. one_of.
  - unfold me. destruct (protected_cases cfg now authorization me_handler db)
      as [(r & _ & Hs & Hp)|(row & _ & _ & Hp)]; rewrite Hp; cbn [snd];
      [rewrite Hs|]; one_of.
  - unfold search. destruct (truthy query); cbn [negb]; [|one_of].
    destruct (axios_get _) as [data|]; cbn [and_then or_else]; [|one_of].
    destruct (results_body data); cbn [and_then or_else]; one_of.
  - unfold trending.
    destruct (axios_get _) as [data|]; cbn [and_then or_else]; [|one_of].
    destruct (results_body data); cbn [and_then or_else]; one_of.
  - unfold details.
    destruct (axios_get _) as [data|]; cbn [and_then or_else]; [|one_of].
    destruct (details_body data); cbn [and_then or_else]; one_of.
  - unfold save.
    destruct (protected_cases cfg now authorization (save_handler now b) db)
      as [(r & _ & Hs & Hp)|(row & _ & _ & Hp)]; rewrite Hp; cbn [snd];
      [rewrite Hs; one_of|].
    destruct (save_handler_cases now b (public_columns row) (u_id row) db
                (public_columns_id row)) as [(r & Hr & [Hs|Hs])|(m & _ & _ & _ & Hr)];
      rewrite Hr; cbn [snd]; [rewrite Hs..|]; one_of.
  - unfold mymovies.
    destruct (protected_cases cfg now authorization mymovies_handler db)
      as [(r & _ & Hs & Hp)|(row & _ & _ & Hp)]; rewrite Hp; cbn [snd];
      [rewrite Hs; one_of|].
    rewrite (mymovies_handler_lists _ (u_id row)) by apply public_columns_id. one_of.
  - unfold delete_movie.
    destruct (protected_cases cfg now authorization (delete_handler id) db)
      as [(r & _ & Hs & Hp)|(row & _ & _ & Hp)]; rewrite Hp; cbn [snd];
      [rewrite Hs; one_of|].
    destruct (delete_handler_cases id (public_columns row) (u_id row) db
                (public_columns_id row)) as [(r & Hr & [Hs|Hs])|(m & _ & _ & Hr)];
      rewrite Hr; cbn [snd]; [rewrite Hs..|]; [one_of..|].
    destruct (filter _ _); one_of.
Qed.

(** X13. A Save the middleware lets through as user [a] either inserts
    nothing (400 or 500) or appends exactly one row, owned by [a], with
    the next id of the sequence and the time of the request: the owner is
    never taken from the body. *)
Theorem saved_rows_belong_to_the_requester cfg now authorization b db user :
  authMiddleware cfg now authorization db = (db, Next user) →
  ∃ a, field user "id" = VNum a
    ∧ ((save cfg now authorization b db).1 = db
       ∧ (status (save cfg now authorization b db).2 = 400
          ∨ status (save cfg now authorization b db).2 = 500)
       ∨ ∃ r, save cfg now authorization b db
              = (with_saved db r,
                 json 201 (VObj {[ "movie" := VObj (saved_columns r) ]}))
              ∧ sm_user_id r = a
              ∧ sm_id r = saved_movies_id_seq db
              ∧ sm_created_at r = now
              ∧ bind_int (field b "movie_id") = Bound (sm_movie_id r)).
Proof.
  intros Ha. destruct (authMiddleware_next _ _ _ _ _ _ Ha) as (_ & row & _ & ->).
  exists (u_id row). split; [apply public_columns_id|].
  unfold save. rewrite (protected_next _ _ _ _ _ _ Ha).
  destruct (save_handler_cases now b (public_columns row) (u_id row) db
              (public_columns_id row)) as [(r & Hr & Hs)|(m & _ & _ & Hb & Hr)];
    rewrite Hr; [by left|].
  right. by eexists.
Qed.

Lemma mymovies_lists cfg now authorization db user a :
  authMiddleware cfg now authorization db = (db, Next user) →
  field user "id" = VNum a →
  mymovies cfg now authorization db
  = (db, listed (merge_sort newest_first (filter (owned_by a) (saved_movies db)))).
Proof.
  intros Ha Hid. unfold mymovies. rewrite (protected_next _ _ _ _ _ _ Ha).
  by apply mymovies_handler_lists.
Qed.

(** X14. Save, then list: after a Save answered 201, the list of the same
    user on the resulting store is the former list with the new row, up
    to order. *)
Theorem saved_movie_is_listed cfg now now' authorization b db user :
  authMiddleware cfg now authorization db = (db, Next user) →
  authMiddleware cfg now' authorization db = (db, Next user) →
  status (save cfg now authorization b db).2 = 201 →
  ∃ a r rows rows',
    field user "id" = VNum a
    ∧ (save cfg now authorization b db).1 = with_saved db r
    ∧ owned_by a r
    ∧ mymovies cfg now' authorization db = (db, listed rows)
    ∧ mymovies cfg now' authorization (with_saved db r) = (with_saved db r, listed rows')
    ∧ rows' ≡ₚ r :: rows.
Proof.
  intros Ha Ha' Hs. destruct (authMiddleware_next _ _ _ _ _ _ Ha) as (_ & row & _ & ->).
  pose proof (public_columns_id row) as Hid.
  unfold save in *. rewrite (protected_next _ _ _ _ _ _ Ha) in *.
  destruct (save_handler_cases now b (public_columns row) (u_id row) db Hid)
    as [(r & Hr & Hst)|(m & _ & _ & Hb & Hr)]; rewrite Hr in *; cbn [fst snd] in *.
  { destruct Hst; congruence. }
  exists (u_id row), (saved_row_for now (u_id row) m b db).
  eexists _, _. split; [done|]. split; [done|]. split; [done|]. split; [|split].
  - by apply (mymovies_lists _ _ _ _ (public_columns row)).
  - apply (mymovies_lists _ _ _ _ (public_columns row)); [|done].
    by apply (authMiddleware_next_users _ _ _ db).
  - rewrite !merge_sort_Permutation. cbn [with_saved saved_movies].
    rewrite filter_app. rewrite (filter_cons_True _ (saved_row_for _ _ _ _ _)) by done.
    rewrite filter_nil. by rewrite Permutation_app_comm.
Qed.

Lemma filter_owned_other a a' m (l : list saved_row) :
  a ≠ a' →
  filter (owned_by a') (filter (λ r, ¬ saved_by a m r) l) = filter (owned_by a') l.
Proof.
  intros Hne. rewrite list_filter_filter. apply list_filter_iff. intros r.
  unfold owned_by, saved_by. split; [tauto|]. intros Ho. split; [done|].
  intros [Hoa _]. congruence.
Qed.

(** X15. The lists are isolated: a Save or a Delete of one user leaves
    the list of every other user as it was. *)
Theorem lists_are_isolated cfg now authorization now' authorization' b movieId db user user' :
  authMiddleware cfg now authorization db = (db, Next user) →
  authMiddleware cfg now' authorization' db = (db, Next user') →
  field user "id" ≠ field user' "id" →
  (mymovies cfg now' authorization' (save cfg now authorization b db).1).2
  = (mymovies cfg now' authorization' db).2
  ∧ (mymovies cfg now' authorization' (delete_movie cfg now authorization movieId db).1).2
    = (mymovies cfg now' authorization' db).2.
Proof.
  intros Ha Ha' Hne.
  destruct (authMiddleware_next _ _ _ _ _ _ Ha) as (_ & row & _ & ->).
  destruct (authMiddleware_next _ _ _ _ _ _ Ha') as (_ & row' & _ & ->).
  rewrite !public_columns_id in Hne.
  assert (Hids : u_id row ≠ u_id row') by congruence.
  assert (Hlist : ∀ db2, users db2 = users db →
            filter (owned_by (u_id row')) (saved_movies db2)
            = filter (owned_by (u_id row')) (saved_movies db) →
            (mymovies cfg now' authorization' db2).2
            = (mymovies cfg now' authorization' db).2).
  { intros db2 Hu Hf.
    rewrite (mymovies_lists _ _ _ db2 (public_columns row') (u_id row'));
      [|by apply (authMiddleware_next_users _ _ _ db)|apply public_columns_id].
    rewrite (mymovies_lists _ _ _ db (public_columns row') (u_id row'));
      [|done|apply public_columns_id].
    cbn [snd]. by rewrite Hf. }
  split.
  - unfold save. rewrite (protected_next _ _ _ _ _ _ Ha).
    destruct (save_handler_cases now b (public_columns row) (u_id row) db
                (public_columns_id row)) as [(r & Hr & _)|(m & _ & _ & _ & Hr)];
      rewrite Hr; cbn [fst]; [done|].
    apply Hlist; [done|]. cbn [with_saved saved_movies]. rewrite filter_app.
    rewrite filter_cons_False by (unfold owned_by; cbn; congruence).
    by rewrite filter_nil, app_nil_r.
  - unfold delete_movie. rewrite (protected_next _ _ _ _ _ _ Ha).
    destruct (delete_handler_cases movieId (public_columns row) (u_id row) db
                (public_columns_id row)) as [(r & Hr & _)|(m & _ & _ & Hr)];
      rewrite Hr; cbn [fst]; [done|].
    apply Hlist; [done|]. cbn [without_saved saved_movies].
    by apply filter_owned_other.
Qed.

(** X16. The list is ordered: in the answer of [GET /api/mymovies] no row
    comes before a row created later. *)
Theorem list_is_newest_first cfg now authorization db user :
  authMiddleware cfg now authorization db = (db, Next user) →
  ∃ rows,
    mymovies cfg now authorization db = (db, listed rows)
    ∧ StronglySorted newest_first rows
    ∧ ∀ i j x y, (i < j)%nat → rows !! i = Some x → rows !! j = Some y →
                 sm_created_at y ≤ sm_created_at x.
Proof.
  intros Ha. destruct (authMiddleware_next _ _ _ _ _ _ Ha) as (_ & row & _ & ->).
  exists (merge_sort newest_first (filter (owned_by (u_id row)) (saved_movies db))).
  assert (Hsorted : StronglySorted newest_first
            (merge_sort newest_first (filter (owned_by (u_id row)) (saved_movies db))))
    by (apply StronglySorted_merge_sort; apply _).
  split; [|split; [done|]].
  - apply (mymovies_lists _ _ _ _ (public_columns row)); [done|apply public_columns_id].
  - revert Hsorted. generalize (merge_sort newest_first
                                  (filter (owned_by (u_id row)) (saved_movies db))).
    intros l Hl. induction Hl as [|z l Hl IH Hall]; intros i j x y Hij Hi Hj.
    + by rewrite lookup_nil in Hi.
    + destruct j as [|j]; [lia|]. cbn in Hj. destruct i as [|i].
      * cbn in Hi. simplify_eq. rewrite Forall_forall in Hall.
        apply (Hall y). by eapply list_elem_of_lookup_2.
      * cbn in Hi. apply (IH i j); [lia|done..].
Qed.

(** X17. Delete is idempotent: after a Delete with a movie id the store
    accepts, a second one is answered 404 [movie not found] and removes
    nothing more. *)
Theorem second_delete_finds_nothing cfg now authorization movieId m db user :
  authMiddleware cfg now authorization db = (db, Next user) →
  movieId ≠ "" →
  int4in movieId = Some m →
  delete_movie cfg now authorization movieId
    (delete_movie cfg now authorization movieId db).1
  = ((delete_movie cfg now authorization movieId db).1,
     json 404 (message "movie not found")).
Proof.
  intros Ha Hne Hm. destruct (authMiddleware_next _ _ _ _ _ _ Ha) as (_ & row & _ & ->).
  pose proof (public_columns_id row) as Hid.
  assert (Hd : (delete_movie cfg now authorization movieId db).1
               = without_saved db (u_id row) m).
  { unfold delete_movie. rewrite (protected_next _ _ _ _ _ _ Ha).
    by rewrite (delete_handler_bound _ (u_id row) movieId m). }
  rewrite Hd.
  assert (Ha1 : authMiddleware cfg now authorization (without_saved db (u_id row) m)
                = (without_saved db (u_id row) m, Next (public_columns row)))
    by by apply (authMiddleware_next_users _ _ _ db).
  unfold delete_movie. rewrite (protected_next _ _ _ _ _ _ Ha1).
  rewrite (delete_handler_bound _ (u_id row) movieId m) by done.
  assert (Hnone : filter (saved_by (u_id row) m)
                         (saved_movies (without_saved db (u_id row) m)) = []).
  { apply filter_none. intros x Hx Hby. cbn [without_saved saved_movies] in Hx.
    apply list_elem_of_filter in Hx as [Hn _]. by apply Hn. }
  rewrite Hnone. f_equal. unfold without_saved.
  cbn [users users_id_seq saved_movies saved_movies_id_seq]. f_equal.
  apply filter_all. intros x Hx. by apply list_elem_of_filter in Hx as [Hn _].
Qed.

(** ** The catalog proxy, its failures and its fields *)

(** X18. A catalog route that does not answer 200 answers one of its
    fixed bodies, whatever the upstream returned or threw; a search with
    no query is answered 400 without a look at the upstream, and an
    upstream that fails gives a 500. *)
Theorem catalog_failures_are_fixed cfg axios_get query movieId :
  (status (search cfg axios_get query) = 200
   ∨ search cfg axios_get query = json 400 (message "query is required")
   ∨ search cfg axios_get query = json 500 (message "movies search failed"))
  ∧ (status (trending cfg axios_get) = 200
     ∨ trending cfg axios_get = json 500 (message "trending fetch failed"))
  ∧ (status (details cfg axios_get movieId) = 200
     ∨ details cfg axios_get movieId = json 500 (message "movie details failed"))
  ∧ (truthy query = false →
     ∀ other, search cfg other query = json 400 (message "query is required"))
  ∧ (truthy query = true → axios_get (search_url cfg query) = Throw →
     search cfg axios_get query = json 500 (message "movies search failed"))
  ∧ (axios_get (trending_url cfg) = Throw →
     trending cfg axios_get = json 500 (message "trending fetch failed"))
  ∧ (axios_get (details_url cfg movieId) = Throw →
     details cfg axios_get movieId = json 500 (message "movie details failed")).
Proof.
  repeat split.
  - unfold search. destruct (truthy query); cbn [negb]; [|by right; left].
    destruct (axios_get _) as [data|]; cbn [and_then or_else]; [|by right; right].
    destruct (results_body data); cbn [and_then or_else]; [by left|by right; right].
  - unfold trending.
    destruct (axios_get _) as [data|]; cbn [and_then or_else]; [|by right].
    destruct (results_body data); cbn [and_then or_else]; [by left|by right].
  - unfold details.
    destruct (axios_get _) as [data|]; cbn [and_then or_else]; [|by right].
    destruct (details_body data); cbn [and_then or_else]; [by left|by right].
  - intros Hq other. unfold search. by rewrite Hq.
  - intros Hq Ht. unfold search. by rewrite Hq, Ht.
  - intros Ht. unfold trending. by rewrite Ht.
  - intros Ht. unfold details. by rewrite Ht.
Qed.

Lemma reshape_summarizes m item :
  reshape m = Return item → summarizes m (json_element item).
Proof.
  unfold reshape. intros Hr.
  apply bound_return in Hr as (id & Hid & Hr).
  apply bound_return in Hr as (title & Htitle & Hr).
  apply bound_return in Hr as (overview & Hov & Hr).
  apply bound_return in Hr as (release_date & _ & Hr).
  apply bound_return in Hr as (year & _ & Hr).
  apply bound_return in Hr as (poster_path & _ & Hr).
  simplify_eq. unfold json_element. rewrite to_json_object.
  eexists. split; [done|]. split.
  - etrans; [apply dom_omap_subseteq|]. unfold item_keys.
    by rewrite !dom_insert_L, dom_singleton_L.
  - intros k Hk. rewrite !elem_of_cons, elem_of_nil in Hk.
    destruct Hk as [->|[->|[->|[]]]]; eexists; (split; [done|]); rewrite lookup_omap.
    + by rewrite lookup_insert_eq.
    + rewrite lookup_insert_ne by done. by rewrite lookup_insert_eq.
    + do 2 rewrite lookup_insert_ne by done. by rewrite lookup_insert_eq.
Qed.

Lemma results_body_items data b :
  results_body data = Return b →
  ∃ ms its,
    get data "results" = Return (VArr ms)
    ∧ to_json b = VObj {[ "results" := VArr (map json_element its) ]}
    ∧ Forall2 (λ m i, reshape m = Return i) ms its.
Proof.
  unfold results_body. intros Hr.
  apply bound_return in Hr as (results & Hres & Hr).
  apply bound_return in Hr as (items & Hitems & Hr). simplify_eq.
  unfold array_map in Hitems. destruct results as [| | | | |ms|]; try done.
  apply bound_return in Hitems as (l' & Hl' & Hitems). simplify_eq.
  exists ms, l'. split; [done|]. split.
  - rewrite to_json_object. by rewrite omap_singleton_Some with (y := VArr (map json_element l')).
  - by apply map_outcome_Forall2.
Qed.

(** X19. The lists of search and trending have one item per upstream
    item, in the same order; an item has no key but id, title, overview,
    year and poster, and its id, title and overview are the upstream
    ones: no other upstream field is forwarded. *)
Theorem catalog_items_are_summaries cfg axios_get :
  (∀ query,
     status (search cfg axios_get query) = 200 →
     ∃ data ms items,
       axios_get (search_url cfg query) = Return data
       ∧ get data "results" = Return (VArr ms)
       ∧ body (search cfg axios_get query) = VObj {[ "results" := VArr items ]}
       ∧ length items = length ms
       ∧ Forall2 summarizes ms items)
  ∧ (status (trending cfg axios_get) = 200 →
     ∃ data ms items,
       axios_get (trending_url cfg) = Return data
       ∧ get data "results" = Return (VArr ms)
       ∧ body (trending cfg axios_get) = VObj {[ "results" := VArr items ]}
       ∧ length items = length ms
       ∧ Forall2 summarizes ms items).
Proof.
  assert (Hlist : ∀ data b, results_body data = Return b →
            ∃ ms items, get data "results" = Return (VArr ms)
                        ∧ to_json b = VObj {[ "results" := VArr items ]}
                        ∧ length items = length ms
                        ∧ Forall2 summarizes ms items).
  { intros data b Hb. destruct (results_body_items _ _ Hb) as (ms & its & Hres & Hj & Hall).
    exists ms, (map json_element its). split; [done|]. split; [done|].
    assert (Hsum : Forall2 summarizes ms (map json_element its)).
    { apply Forall2_fmap_r. eapply Forall2_impl; [done|].
      intros m item Hm. by apply reshape_summarizes. }
    split; [|done]. symmetry. by eapply Forall2_length. }
  split.
  - intros query. unfold search. destruct (truthy query); [|done]. cbn [negb].
    intros Hs. apply or_else_status in Hs as (data & r & Hd & Hr & ->); [|done].
    apply bound_return in Hr as (b & Hb & Hr). simplify_eq.
    destruct (Hlist _ _ Hb) as (ms & items & ? & ? & ? & ?). by exists data, ms, items.
  - unfold trending.
    intros Hs. apply or_else_status in Hs as (data & r & Hd & Hr & ->); [|done].
    apply bound_return in Hr as (b & Hb & Hr). simplify_eq.
    destruct (Hlist _ _ Hb) as (ms & items & ? & ? & ? & ?). by exists data, ms, items.
Qed.

Lemma optional_names genres names :
  optional_array_map (λ g, get g "name") genres = Return names →
  match genres with
  | VArr gs => ∃ ns, names = VArr ns ∧ Forall2 (λ g n, get g "name" = Return n) gs ns
  | VUndefined | VNull => names = VUndefined
  | _ => False
  end.
Proof.
  destruct genres as [| | | | |gs|]; cbn [optional_array_map array_map];
    intros Hn; simplify_eq; try done.
  apply bound_return in Hn as (ns & Hns & Hn). simplify_eq.
  exists ns. split; [done|]. by apply map_outcome_Forall2.
Qed.

(** X20. The [genres] of a details answer are the names of the upstream
    genres, one per genre and in their order; the key is absent when the
    upstream movie has no genres. *)
Theorem details_list_genre_names cfg axios_get movieId :
  status (details cfg axios_get movieId) = 200 →
  ∃ data genres o,
    axios_get (details_url cfg movieId) = Return data
    ∧ get data "genres" = Return genres
    ∧ body (details cfg axios_get movieId) = VObj o
    ∧ genres_follow genres o.
Proof.
  unfold details. intros Hs.
  apply or_else_status in Hs as (data & r & Hd & Hr & ->); [|done].
  apply bound_return in Hr as (b & Hb & Hr). simplify_eq.
  unfold details_body in Hb.
  apply bound_return in Hb as (id & _ & Hb).
  apply bound_return in Hb as (title & _ & Hb).
  apply bound_return in Hb as (overview & _ & Hb).
  apply bound_return in Hb as (release_date & _ & Hb).
  apply bound_return in Hb as (year & _ & Hb).
  apply bound_return in Hb as (poster_path & _ & Hb).
  apply bound_return in Hb as (genres & Hg & Hb).
  apply bound_return in Hb as (names & Hn & Hb). simplify_eq.
  apply optional_names in Hn.
  exists data, genres. eexists. split; [done|]. split; [done|].
  unfold json. cbn [body]. rewrite to_json_object. split; [done|].
  assert (Hlook : ∀ (o' : object) v, o' = {[ "id" := id; "title" := title;
                      "overview" := overview; "year" := year;
                      "poster" := poster_url poster_path; "genres" := v ]} →
                    omap json_property o' !! "genres" = json_property v).
  { intros o' v ->. rewrite lookup_omap. do 5 rewrite lookup_insert_ne by done.
    by rewrite lookup_singleton_eq. }
  unfold genres_follow. destruct genres as [| | | | |gs|]; try done.
  - by rewrite (Hlook _ names), Hn.
  - by rewrite (Hlook _ names), Hn.
  - destruct Hn as (ns & -> & Hall). exists (map json_element ns).
    split; [by rewrite (Hlook _ (VArr ns))|].
    apply Forall2_fmap_r. eapply Forall2_impl; [done|]. intros g n Hgn. by exists n.
Qed.

(** ** Configuration and [sanitizeUser] *)

Lemma env_or_not_empty env k d : d ≠ "" → env_or env k d ≠ "".
Proof.
  intros Hd. unfold env_or. destruct (env !! k) as [s|]; [|done]. by case_bool_decide.
Qed.

(** X21. The configuration is never empty: a variable that is unset, or
    set to the empty string, gives the default (4000, [change_this_secret],
    [ERROR]), and a variable set to anything else is used as it is. *)
Theorem configuration_falls_back env :
  PORT (load_config env) ≠ ""
  ∧ JWT_SECRET (load_config env) ≠ ""
  ∧ TMDB_API_KEY (load_config env) ≠ ""
  ∧ (env !! "JWT_SECRET" = Some "" → JWT_SECRET (load_config env) = "change_this_secret")
  ∧ (env !! "API_KEY" = None ∨ env !! "API_KEY" = Some "" →
     TMDB_API_KEY (load_config env) = "ERROR")
  ∧ (env !! "PORT" = None ∨ env !! "PORT" = Some "" → PORT (load_config env) = "4000")
  ∧ (∀ s, s ≠ "" →
       (env !! "JWT_SECRET" = Some s → JWT_SECRET (load_config env) = s)
       ∧ (env !! "API_KEY" = Some s → TMDB_API_KEY (load_config env) = s)
       ∧ (env !! "PORT" = Some s → PORT (load_config env) = s)).
Proof.
  unfold load_config. cbn [PORT JWT_SECRET TMDB_API_KEY].
  split; [by apply env_or_not_empty|]. split; [by apply env_or_not_empty|].
  split; [by apply env_or_not_empty|]. unfold env_or.
  split; [by intros ->|]. split; [by intros [->| ->]|]. split; [by intros [->| ->]|].
  intros s Hs. repeat split; intros ->; by rewrite bool_decide_false.
Qed.

Lemma js_or_null_idempotent v : js_or (js_or v VNull) VNull = js_or v VNull.
Proof. unfold js_or. destruct (truthy v) eqn:Hv; [by rewrite Hv|done]. Qed.

(** X22. One user object for all routes: [sanitizeUser] gives the same
    object on the row Login reads (with its hash) and on the row
    [/api/me] reads; it copies id, username, email and created_at, and
    gives a display name that is [null] when the column is null or empty;
    applying it twice changes nothing. *)
Theorem user_object_is_the_same (r : user_row) (o : object) :
  sanitizeUser (login_columns r) = sanitizeUser (public_columns r)
  ∧ sanitizeUser (public_columns r)
    = {[ "id" := VNum (u_id r);
         "username" := VStr (u_username r);
         "email" := VStr (u_email r);
         "display_name" := match u_display_name r with
                           | Some d => if bool_decide (d = "") then VNull else VStr d
                           | None => VNull
                           end;
         "created_at" := VNum (u_created_at r) ]}
  ∧ sanitizeUser (sanitizeUser o) = sanitizeUser o.
Proof.
  assert (Hpub : ∀ k, k ≠ "password_hash" →
                      field (login_columns r) k = field (public_columns r) k).
  { intros k Hk. unfold field, login_columns. by rewrite lookup_insert_ne. }
  split; [|split].
  - unfold sanitizeUser. by rewrite !Hpub.
  - unfold sanitizeUser, field, public_columns.
    rewrite lookup_insert_eq.
    do 1 rewrite (lookup_insert_ne _ "id" "username") by done.
    rewrite lookup_insert_eq.
    do 2 (rewrite (lookup_insert_ne _ _ "email") by done). rewrite lookup_insert_eq.
    do 3 (rewrite (lookup_insert_ne _ _ "display_name") by done). rewrite lookup_insert_eq.
    do 4 (rewrite (lookup_insert_ne _ _ "created_at") by done).
    rewrite lookup_singleton_eq. cbn [default].
    do 4 f_equal. unfold js_or, text_value.
    destruct (u_display_name r) as [d|]; [|done]. unfold id. cbn [truthy].
    by case_bool_decide.
  - unfold sanitizeUser at 1. unfold field. unfold sanitizeUser at 1 2 3 4 5.
    rewrite lookup_insert_eq.
    do 1 rewrite (lookup_insert_ne _ "id" "username") by done.
    rewrite lookup_insert_eq.
    do 2 (rewrite (lookup_insert_ne _ _ "email") by done). rewrite lookup_insert_eq.
    do 3 (rewrite (lookup_insert_ne _ _ "display_name") by done). rewrite lookup_insert_eq.
    do 4 (rewrite (lookup_insert_ne _ _ "created_at") by done).
    rewrite lookup_singleton_eq. cbn [default]. unfold id.
    rewrite js_or_null_idempotent. reflexivity.
Qed.

End Handlers.

(** * The further properties at work *)

Section HandlersAtWork.
Import Reference.

(** X1 at work: Alice's registration on the empty store. *)
Lemma registration_inserts_one_row_witness :
  status (register bare 100 "salt" alice_request empty_db).2 = 201
  ∧ ∃ row p,
      register bare 100 "salt" alice_request empty_db
      = (with_user empty_db row, created bare 100 row)
      ∧ well_formed_registration alice_request
      ∧ u_id row = users_id_seq empty_db
      ∧ bind_text (field alice_request "username") = Some (u_username row)
      ∧ bind_text (field alice_request "email") = Some (u_email row)
      ∧ u_display_name row = Some (u_username row)
      ∧ field alice_request "password" = VStr p
      ∧ u_password_hash row = bcrypt_hash p 12 "salt"
      ∧ u_created_at row = 100
      ∧ (∀ x, x ∈ users empty_db →
           u_id x ≠ u_id row ∧ u_username x ≠ u_username row ∧ u_email x ≠ u_email row).
Proof.
  assert (Hs : status (register bare 100 "salt" alice_request empty_db).2 = 201)
    by (vm_compute; reflexivity).
  split; [exact Hs|].
  refine (registration_inserts_one_row bare 100 "salt" alice_request empty_db Hs _ _);
    vm_compute; lia.
Defined.

(** X2 at work: Bob registers after Alice. *)
Lemma registration_succeeds_witness :
  register bare 150 "pepper" bob_request one_user
  = (with_user one_user (UserRow 2 "bob" "b@x.com" "pepper$hunter22" (Some "bob") 150),
     created bare 150 (UserRow 2 "bob" "b@x.com" "pepper$hunter22" (Some "bob") 150))
  ∧ status (register bare 150 "pepper" bob_request one_user).2 = 201.
Proof.
  refine (registration_succeeds bare 150 "pepper" bob_request one_user
            (UserRow 2 "bob" "b@x.com" "pepper$hunter22" (Some "bob") 150) _ _ _).
  - split; vm_compute; reflexivity.
  - vm_compute; reflexivity.
  - apply (bool_decide_unpack _). vm_compute; exact I.
Defined.

(** X3 at work: Alice's username a second time. *)
Lemma failed_registration_changes_nothing_witness :
  status (register bare 300 "salt" alice_again one_user).2 ≠ 201
  ∧ (register bare 300 "salt" alice_again one_user).1 = one_user
  ∧ (status (register bare 300 "salt" alice_again one_user).2 = 400
     ∨ status (register bare 300 "salt" alice_again one_user).2 = 500).
Proof.
  assert (Hs : status (register bare 300 "salt" alice_again one_user).2 ≠ 201)
    by (vm_compute; discriminate).
  split; [exact Hs|].
  exact (failed_registration_changes_nothing bare 300 "salt" alice_again one_user Hs).
Defined.

(** X4 at work: a username of 51 characters. *)
Lemma overlong_registration_is_internal_error_witness :
  well_formed_registration long_request
  ∧ (50 < characters long_name)%nat
  ∧ register bare 100 "salt" long_request empty_db
    = (empty_db, json 500 (message "internal error")).
Proof.
  assert (Hw : well_formed_registration long_request)
    by (split; vm_compute; reflexivity).
  assert (Hl : (50 < characters long_name)%nat) by (vm_compute; lia).
  split; [exact Hw|]. split; [exact Hl|].
  refine (overlong_registration_is_internal_error bare 100 "salt" long_request empty_db
            (UserRow 1 long_name "a@x.com" "salt$secret1" (Some long_name) 100) Hw _ _ Hl _).
  - vm_compute; reflexivity.
  - intros x Hx. by apply elem_of_nil in Hx.
  - vm_compute; reflexivity.
Defined.


(** X6 at work: Alice asks who she is half an hour after she registered. *)
Lemma registration_token_opens_a_session_witness :
  status (register bare 100 "salt" alice_request empty_db).2 = 201
  ∧ 1900 < 100 + one_hour
  ∧ ∃ row token,
      (register bare 100 "salt" alice_request empty_db).1 = with_user empty_db row
      ∧ response_token (register bare 100 "salt" alice_request empty_db).2 = Some token
      ∧ me bare 1900 (Some ("Bearer " +:+ token)) (with_user empty_db row)
        = (with_user empty_db row,
           json 200 (VObj {[ "user" := VObj (sanitizeUser (public_columns row)) ]})).
Proof.
  assert (Hs : status (register bare 100 "salt" alice_request empty_db).2 = 201)
    by (vm_compute; reflexivity).
  assert (Hlt : 1900 < 100 + one_hour) by (vm_compute; reflexivity).
  split; [exact Hs|]. split; [exact Hlt|].
  exact (registration_token_opens_a_session reference_contract bare 100 "salt" alice_request
           empty_db 1900 Hs Hlt).
Defined.

(** X7 at work: the same token one hour after, and the token of a Login
    seven days after. *)
Lemma issued_tokens_expire_witness :
  (∃ token, response_token (register bare 100 "salt" alice_request empty_db).2 = Some token
            ∧ authMiddleware bare 3700 (Some ("Bearer " +:+ token)) one_user
              = (one_user, invalid_token))
  ∧ (∃ token, response_token (login bare 100 alice_login one_user).2 = Some token
              ∧ authMiddleware bare (100 + seven_days) (Some ("Bearer " +:+ token)) one_user
                = (one_user, invalid_token)).
Proof.
  split.
  - refine (proj1 (issued_tokens_expire reference_contract bare 100 "salt" alice_request
                     empty_db 3700 one_user) _ _); vm_compute; [reflexivity|discriminate].
  - refine (proj2 (issued_tokens_expire reference_contract bare 100 "salt" alice_login
                     one_user (100 + seven_days) one_user) _ _);
      vm_compute; [reflexivity|discriminate].
Defined.

(** X8 at work: a Save and a Delete without a header. *)
Lemma refused_requests_run_no_handler_witness :
  authMiddleware bare 300 None both_saved
  = (both_saved, Reject (json 401 (message "no token")))
  ∧ save bare 300 None save_matrix both_saved
    = (both_saved, json 401 (message "no token"))
  ∧ delete_movie bare 300 None "603" both_saved
    = (both_saved, json 401 (message "no token")).
Proof.
  destruct (refused_requests_run_no_handler bare 300 None save_matrix "603" both_saved)
    as [Hrefused Hnone].
  pose proof (Hnone I) as Ha. split; [exact Ha|].
  destruct (Hrefused _ Ha) as (_ & _ & Hsave & _ & Hdelete). by split.
Defined.

(** X9 at work: Alice's header followed by other text. *)
Lemma text_after_the_token_is_ignored_witness :
  no_char " " alice_token
  ∧ bearer_token (alice_header +:+ " and more") = Some alice_token
  ∧ authMiddleware bare 300 (Some (alice_header +:+ " and more")) one_user
    = authMiddleware bare 300 (Some alice_header) one_user.
Proof.
  assert (Hno : no_char " " alice_token)
    by apply (jwt_encode_no_space reference_contract).
  split; [exact Hno|].
  exact (text_after_the_token_is_ignored bare 300 alice_token "and more" one_user Hno).
Defined.

(** X11 at work: the store of Alice and Bob, after Bob's Delete. *)
Lemma store_integrity_is_kept_witness :
  store_ok both_saved
  ∧ store_ok (handle bare upstream 300 "salt" (DeleteMovie (Some bob_header) "603")
                     both_saved).1.
Proof.
  assert (Hok : store_ok both_saved) by (apply (bool_decide_unpack _); vm_compute; exact I).
  split; [exact Hok|].
  exact (store_integrity_is_kept bare upstream 300 "salt"
           (DeleteMovie (Some bob_header) "603") both_saved Hok).
Defined.

(** X13 at work: a body that names another owner; the row is Alice's. *)
Lemma saved_rows_belong_to_the_requester_witness :
  authMiddleware bare 300 (Some alice_header) two_users
  = (two_users, Next (public_columns alice))
  ∧ ∃ r, save bare 300 (Some alice_header) (<[ "user_id" := VNum 2 ]> save_matrix) two_users
         = (with_saved two_users r,
            json 201 (VObj {[ "movie" := VObj (saved_columns r) ]}))
         ∧ sm_user_id r = 1.
Proof.
  assert (Ha : authMiddleware bare 300 (Some alice_header) two_users
               = (two_users, Next (public_columns alice))) by (vm_compute; reflexivity).
  split; [exact Ha|].
  destruct (saved_rows_belong_to_the_requester bare 300 (Some alice_header)
              (<[ "user_id" := VNum 2 ]> save_matrix) two_users _ Ha)
    as (a & Hid & [[_ Hfail]|(r & Hr & Hown & _)]).
  - exfalso. revert Hfail. vm_compute. intros [Hf|Hf]; discriminate Hf.
  - exists r. split; [exact Hr|]. rewrite Hown. vm_compute in Hid. congruence.
Defined.

(** X14 at work: Alice saves the movie 603 and lists. *)
Lemma saved_movie_is_listed_witness :
  status (save bare 300 (Some alice_header) save_matrix two_users).2 = 201
  ∧ ∃ a r rows rows',
      field (public_columns alice) "id" = VNum a
      ∧ (save bare 300 (Some alice_header) save_matrix two_users).1 = with_saved two_users r
      ∧ owned_by a r
      ∧ mymovies bare 310 (Some alice_header) two_users = (two_users, listed rows)
      ∧ mymovies bare 310 (Some alice_header) (with_saved two_users r)
        = (with_saved two_users r, listed rows')
      ∧ rows' ≡ₚ r :: rows.
Proof.
  assert (Hs : status (save bare 300 (Some alice_header) save_matrix two_users).2 = 201)
    by (vm_compute; reflexivity).
  split; [exact Hs|].
  refine (saved_movie_is_listed bare 300 310 (Some alice_header) save_matrix two_users
            (public_columns alice) _ _ Hs); vm_compute; reflexivity.
Defined.

(** X15 at work: Bob's list before and after Alice's Save and Delete. *)
Lemma lists_are_isolated_witness :
  (mymovies bare 310 (Some bob_header)
     (save bare 300 (Some alice_header) save_matrix both_saved).1).2
  = (mymovies bare 310 (Some bob_header) both_saved).2
  ∧ (mymovies bare 310 (Some bob_header)
       (delete_movie bare 300 (Some alice_header) "603" both_saved).1).2
    = (mymovies bare 310 (Some bob_header) both_saved).2.
Proof.
  refine (lists_are_isolated bare 300 (Some alice_header) 310 (Some bob_header) save_matrix
            "603" both_saved (public_columns alice) (public_columns bob) _ _ _).
  - vm_compute; reflexivity.
  - vm_compute; reflexivity.
  - vm_compute; discriminate.
Defined.

(** X16 at work: Alice's two movies, the later one first. *)
Lemma list_is_newest_first_witness :
  authMiddleware bare 500 (Some alice_header) two_saved
  = (two_saved, Next (public_columns alice))
  ∧ ∃ rows,
      mymovies bare 500 (Some alice_header) two_saved = (two_saved, listed rows)
      ∧ StronglySorted newest_first rows
      ∧ ∀ i j x y, (i < j)%nat → rows !! i = Some x → rows !! j = Some y →
                   sm_created_at y ≤ sm_created_at x.
Proof.
  assert (Ha : authMiddleware bare 500 (Some alice_header) two_saved
               = (two_saved, Next (public_columns alice))) by (vm_compute; reflexivity).
  split; [exact Ha|].
  exact (list_is_newest_first bare 500 (Some alice_header) two_saved _ Ha).
Defined.

(** X17 at work: Alice deletes the movie 603 twice. *)
Lemma second_delete_finds_nothing_witness :
  status (delete_movie bare 300 (Some alice_header) "603" both_saved).2 = 200
  ∧ delete_movie bare 300 (Some alice_header) "603"
      (delete_movie bare 300 (Some alice_header) "603" both_saved).1
    = ((delete_movie bare 300 (Some alice_header) "603" both_saved).1,
       json 404 (message "movie not found")).
Proof.
  split; [vm_compute; reflexivity|].
  refine (second_delete_finds_nothing bare 300 (Some alice_header) "603" 603 both_saved
            (public_columns alice) _ _ _).
  - vm_compute; reflexivity.
  - discriminate.
  - vm_compute; reflexivity.
Defined.

(** X18 at work: no query, and an upstream that is down. *)
Lemma catalog_failures_are_fixed_witness :
  search bare upstream (VStr "") = json 400 (message "query is required")
  ∧ search bare upstream_down (VStr "matrix") = json 500 (message "movies search failed")
  ∧ trending bare upstream_down = json 500 (message "trending fetch failed")
  ∧ details bare upstream_down "603" = json 500 (message "movie details failed").
Proof.
  destruct (catalog_failures_are_fixed bare upstream_down (VStr "matrix") "603")
    as (_ & _ & _ & _ & Hsearch & Htrending & Hdetails).
  destruct (catalog_failures_are_fixed bare upstream (VStr "") "603")
    as (_ & _ & _ & Hquery & _).
  split; [apply Hquery; reflexivity|]. split; [by apply Hsearch|]. split.
  - by apply Htrending.
  - by apply Hdetails.
Defined.

(** X19 at work: the two movies of the reference upstream. *)
Lemma catalog_items_are_summaries_witness :
  status (search bare upstream (VStr "matrix")) = 200
  ∧ ∃ data ms items,
      upstream (search_url bare (VStr "matrix")) = Return data
      ∧ get data "results" = Return (VArr ms)
      ∧ body (search bare upstream (VStr "matrix")) = VObj {[ "results" := VArr items ]}
      ∧ length items = length ms
      ∧ Forall2 summarizes ms items.
Proof.
  assert (Hs : status (search bare upstream (VStr "matrix")) = 200)
    by (vm_compute; reflexivity).
  split; [exact Hs|].
  exact (proj1 (catalog_items_are_summaries bare upstream) (VStr "matrix") Hs).
Defined.

(** X20 at work: a movie with two genres. *)
Lemma details_list_genre_names_witness :
  status (details bare upstream_genres "603") = 200
  ∧ ∃ data genres o,
      upstream_genres (details_url bare "603") = Return data
      ∧ get data "genres" = Return genres
      ∧ body (details bare upstream_genres "603") = VObj o
      ∧ genres_follow genres o.
Proof.
  assert (Hs : status (details bare upstream_genres "603") = 200)
    by (vm_compute; reflexivity).
  split; [exact Hs|].
  exact (details_list_genre_names bare upstream_genres "603" Hs).
Defined.

(** X21 at work: a secret that is set and an API key that is empty. *)
Lemma configuration_falls_back_witness :
  JWT_SECRET (load_config some_env) = "s3cret"
  ∧ TMDB_API_KEY (load_config some_env) = "ERROR"
  ∧ PORT (load_config some_env) = "4000".
Proof.
  destruct (configuration_falls_back some_env) as (_ & _ & _ & _ & Hkey & Hport & Hset).
  split; [|split].
  - apply (Hset "s3cret"); [discriminate|]. vm_compute; reflexivity.
  - apply Hkey. right. vm_compute; reflexivity.
  - apply Hport. left. vm_compute; reflexivity.
Defined.

End HandlersAtWork.
